(** * A shallow embedding of the mDL verifier (ISO/IEC 18013-5)

    The development follows the JavaScript sources:
    - [checkCallback.js]  : [defaultCallback], [buildCallback], [onCatCheck];
    - [errors.js]         : [MDLError], [MDLParseError];
    - [Verifier]          : [verifyIssuerSignature], [verifyDeviceSignature],
                            [verifyData], [verify], [getDiagnosticInformation];
    - [model/MDoc.ts]     : [MDoc], [addDocument].

    A run of the verifier is a pair: the assessments handed to the [onCheck]
    callback, in the order of the calls, and either the exception that ended
    the run or its value.  External collaborators (X.509, COSE, digests, the
    CBOR parser, the clock) are the fields of a record [World]. *)

From Stdlib Require Import List String Ascii ZArith Bool Lia Permutation.
From Stdlib Require Import DecimalString.
From Stdlib.Init Require Import Byte.
Import ListNotations.
Local Open Scope string_scope.
Local Open Scope list_scope.

(** ** JavaScript values and errors *)

Definition bytes := list byte.

Fixpoint bytes_eqb (a b : bytes) : bool :=
  match a, b with
  | [], [] => true
  | x :: a', y :: b' => Byte.eqb x y && bytes_eqb a' b'
  | _, _ => false
  end.

(** Decoded CBOR data, the [any] of an element value. *)
Unset Elimination Schemes.
Inductive CborValue :=
| Uint (n : Z)
| Nint (n : Z)
| Bytes (b : bytes)
| Text (s : string)
| Array (l : list CborValue)
| Map (l : list (CborValue * CborValue))
| Tag (t : Z) (v : CborValue)
| Bool (b : bool)
| Null
| Float (bits : Z).
Set Elimination Schemes.

(** The exceptions a run can end with; [message] is [err.message]. *)
Inductive JsError :=
| MDLError (message : string)
| MDLParseError (message : string)
| Error (message : string)
| TypeError (message : string).

Definition message (e : JsError) : string :=
  match e with
  | MDLError m | MDLParseError m | Error m | TypeError m => m
  end.

(** Truthiness of a string and of a possibly undefined string. *)
Definition truthy (s : string) : bool := negb (s =? EmptyString).

Definition truthy_opt (o : option string) : bool :=
  match o with Some s => truthy s | None => false end.

Definition isSome {A} (o : option A) : bool :=
  match o with Some _ => true | None => false end.

(** [`${x}`] for a possibly undefined string. *)
Definition tpl (o : option string) : string :=
  match o with Some s => s | None => "undefined" end.

Definition string_of_nat (n : nat) : string :=
  NilZero.string_of_uint (Nat.to_uint n).

(** Association lists stand for JS objects and [Map]s: [Object.keys] and
    [entries()] follow insertion order, [o[k]] and [get] find the entry. *)
Fixpoint lookup {K V} (eqb : K -> K -> bool) (k : K) (l : list (K * V)) : option V :=
  match l with
  | [] => None
  | (k', v) :: l' => if eqb k k' then Some v else lookup eqb k l'
  end.

Definition Object_keys {V} (o : list (string * V)) : list string := map fst o.

Definition get {V} (o : list (string * V)) (k : string) : option V :=
  lookup String.eqb k o.

Definition has {V} (o : list (string * V)) (k : string) : bool := isSome (get o k).

(** ** checkCallback.js *)

Inductive Status := PASSED | FAILED | WARNING.

Inductive Category := DOCUMENT_FORMAT | DEVICE_AUTH | ISSUER_AUTH | DATA_INTEGRITY.

Record VerificationAssessment := {
  status : Status;
  category : Category;
  check : string;
  reason : option string
}.

(** An assessment before [onCatCheck] has added its category. *)
Record Check := {
  c_status : Status;
  c_check : string;
  c_reason : option string
}.

Definition Status_eqb (a b : Status) : bool :=
  match a, b with
  | PASSED, PASSED | FAILED, FAILED | WARNING, WARNING => true
  | _, _ => false
  end.

Definition Category_eqb (a b : Category) : bool :=
  match a, b with
  | DOCUMENT_FORMAT, DOCUMENT_FORMAT | DEVICE_AUTH, DEVICE_AUTH
  | ISSUER_AUTH, ISSUER_AUTH | DATA_INTEGRITY, DATA_INTEGRITY => true
  | _, _ => false
  end.

(** A callback returns [Some e] when it throws [e]. *)
Definition VerificationCallback := VerificationAssessment -> option JsError.

Definition UserDefinedVerificationCallback :=
  VerificationAssessment -> VerificationCallback -> option JsError.

(** [reason ?? check] *)
Definition reasonOrCheck (v : VerificationAssessment) : string :=
  match reason v with Some r => r | None => check v end.

Definition defaultCallback : VerificationCallback := fun verification =>
  match status verification with
  | FAILED => Some (MDLError (reasonOrCheck verification))
  | _ => None
  end.

Definition buildCallback (callback : option UserDefinedVerificationCallback)
  : VerificationCallback :=
  match callback with
  | None => defaultCallback
  | Some callback => fun item => callback item defaultCallback
  end.

(** [{ ...item, category }] *)
Definition withCategory (category : Category) (item : Check) : VerificationAssessment :=
  {| status := c_status item; category := category;
     check := c_check item; reason := c_reason item |}.

Definition onCatCheck (onCheck : UserDefinedVerificationCallback) (category : Category)
  : Check -> option JsError :=
  fun item => onCheck (withCategory category item) defaultCallback.

(** The callback that [getDiagnosticInformation] installs,
    [(check) => dr.push(check)]: it never throws. *)
Definition collect : UserDefinedVerificationCallback := fun _ _ => None.

(** ** Runs: a trace of delivered assessments and an outcome *)

Definition Run (A : Type) : Type := (list VerificationAssessment * (JsError + A))%type.

Definition ret {A} (a : A) : Run A := ([], inr a).

Definition throw {A} (e : JsError) : Run A := ([], inl e).

Definition bind {A B} (c : Run A) (k : A -> Run B) : Run B :=
  match c with
  | (t, inl e) => (t, inl e)
  | (t, inr a) => let (t', r) := k a in (t ++ t', r)
  end.

Notation "x <- c ;; k" := (bind c (fun x => k))
  (at level 61, c at next level, right associativity).
Notation "c ;;; k" := (bind c (fun _ => k))
  (at level 61, right associativity).

(** [try { body } catch (err) { handler(err) }] *)
Definition tryCatch {A} (body : Run A) (handler : JsError -> Run A) : Run A :=
  match body with
  | (t, inl e) => let (t', r) := handler e in (t ++ t', r)
  | (t, inr a) => (t, inr a)
  end.

Definition trace {A} (c : Run A) : list VerificationAssessment := fst c.
Definition outcome {A} (c : Run A) : JsError + A := snd c.

Definition returns {A} (c : Run A) : bool :=
  match outcome c with inr _ => true | inl _ => false end.

(** A value or exception obtained without calling the callback. *)
Definition lift {A} (r : JsError + A) : Run A := ([], r).

(** One call [onCheck(a)] of a built callback: the assessment is delivered,
    and the run ends there when the callback throws. *)
Definition deliver (onCheck : VerificationCallback) (a : VerificationAssessment)
  : Run unit :=
  ([a], match onCheck a with Some e => inl e | None => inr tt end).

(** One call of the category callback [onCatCheck(onCheck, category)]. *)
Definition call (onCheck : UserDefinedVerificationCallback) (category : Category)
  (item : Check) : Run unit :=
  ([withCategory category item],
   match onCatCheck onCheck category item with
   | Some e => inl e
   | None => inr tt
   end).

(** [array.forEach(f)] *)
Fixpoint forEach {A} (f : A -> Run unit) (l : list A) : Run unit :=
  match l with
  | [] => ret tt
  | x :: l' => f x ;;; forEach f l'
  end.

(** *** [Promise.all] over async arrow functions

    An async function runs synchronously up to its first suspending [await]
    ([task_head]); the rest ([task_tail]) runs once the awaited promises have
    settled.  [Promise.all(xs.map(async ...))] therefore runs every head, in
    the order of [xs]; the tails of the tasks whose head returned run later,
    each in one piece, in the order their promises settle, which the program
    does not fix.  The order is given by a code [order]: [settle order l]
    inserts the elements of [l] one by one at the positions [order] names,
    and every permutation of [l] arises this way.  A task that throws rejects
    its promise only: the other tasks still run, and the awaiting caller
    receives the first rejection. *)
Record AsyncTask := {
  task_head : Run unit;
  task_tail : Run unit
}.

Fixpoint insertAt {A} (n : nat) (x : A) (l : list A) : list A :=
  match n, l with
  | S n', y :: l' => y :: insertAt n' x l'
  | _, _ => x :: l
  end.

Fixpoint settle {A} (order : list nat) (l : list A) : list A :=
  match l with
  | [] => []
  | x :: l' => insertAt (hd 0%nat order) x (settle (tl order) l')
  end.

Fixpoint firstRejection (cs : list (Run unit)) : JsError + unit :=
  match cs with
  | [] => inr tt
  | c :: cs' => match outcome c with
                | inl e => inl e
                | inr _ => firstRejection cs'
                end
  end.

Definition awaitAll (order : list nat) (tasks : list AsyncTask) : Run unit :=
  let heads := map task_head tasks in
  let started := filter (fun t => returns (task_head t)) tasks in
  let tails := map task_tail (settle order started) in
  (List.concat (map trace (heads ++ tails)), firstRejection (heads ++ tails)).

(** ** The data model *)

(** A JS [Date] as the tag 0 decoder builds it, [new Date(text)]: a time
    value, or the Invalid Date that a text with no date in it gives. *)
Inductive JsDate := ValidDate (time : Z) | InvalidDate.

(** [a < b] and [a > b] on dates compare the time values; the time value of
    an Invalid Date is NaN, and every comparison with NaN is false. *)
Definition Date_lt (a b : JsDate) : bool :=
  match a, b with
  | ValidDate x, ValidDate y => (x <? y)%Z
  | _, _ => false
  end.

Definition Date_gt (a b : JsDate) : bool :=
  match a, b with
  | ValidDate x, ValidDate y => (x >? y)%Z
  | _, _ => false
  end.

Record ValidityInfo := {
  signed : JsDate;
  validFrom : JsDate;
  validUntil : JsDate;
  expectedUpdate : option JsDate
}.

Definition CoseKey := list (Z * CborValue).

Record DeviceKeyInfo := {
  deviceKey : option CoseKey
}.

Record MSO := {
  mso_version : string;
  digestAlgorithm : option string;
  valueDigests : list (string * list (Z * bytes));
  deviceKeyInfo : option DeviceKeyInfo;
  mso_docType : string;
  validityInfo : option ValidityInfo
}.

(** A parsed X.509 certificate ([X509Certificate]); its dates are the time
    values of valid dates. *)
Record Certificate := {
  rawData : bytes;
  pem : string;
  subjectName : string;
  issuerName : option string;
  notBefore : Z;
  notAfter : Z;
  serialNumber : string;
  subjectCountryName : option string;
  subjectStateOrProvince : option string
}.

Record IssuerAuth := {
  protectedHeaders : bytes;
  payload : bytes;
  signature : bytes;
  algName : option string;
  x5chain : option (list Certificate);
  decodedPayload : MSO
}.

Record IssuerSignedItem := {
  digestID : Z;
  random : bytes;
  elementIdentifier : string;
  elementValue : CborValue;
  originalBytes : bytes
}.

Record IssuerSigned := {
  nameSpaces : option (list (string * list IssuerSignedItem));
  issuerAuth : IssuerAuth
}.

Record CoseSign1 := {
  sign1_protectedHeaders : bytes;
  sign1_signature : bytes;
  sign1_algName : option string
}.

Record CoseMac0 := {
  mac0_protectedHeaders : bytes;
  mac0_alg : option Z;
  mac0_tag : bytes;
  mac0_algName : option string
}.

Record DeviceAuth := {
  deviceSignature : option CoseSign1;
  deviceMac : option CoseMac0
}.

Record DeviceSigned := {
  deviceNameSpaces : list (string * list (string * CborValue));
  deviceAuth : DeviceAuth
}.

(** [IssuerSignedDocument]; it is a [DeviceSignedDocument] exactly when
    [deviceSigned] is there. *)
Record IssuerSignedDocument := {
  docType : string;
  issuerSigned : option IssuerSigned;
  deviceSigned : option DeviceSigned
}.

(** ** model/MDoc.ts *)

Inductive MDocStatus := OK | GeneralError | CBORDecodingError | CBORValidationError.

Definition MDocStatus_code (s : MDocStatus) : Z :=
  match s with
  | OK => 0
  | GeneralError => 10
  | CBORDecodingError => 11
  | CBORValidationError => 12
  end.

Record DocumentError := {
  DocType : Z
}.

Record MDoc := {
  documents : list IssuerSignedDocument;
  version : string;
  mdoc_status : MDocStatus;
  documentErrors : list DocumentError
}.

(** [new MDoc()] with the constructor's defaults. *)
Definition newMDoc : MDoc :=
  {| documents := []; version := "1.0"; mdoc_status := OK; documentErrors := [] |}.

(** [addDocument] mutates [this.documents]: the object after the call is
    returned next to the outcome. *)
Definition addDocument (this : MDoc) (document : IssuerSignedDocument)
  : MDoc * (JsError + unit) :=
  match issuerSigned document with
  | None => (this, inl (Error "Cannot add an unsigned document"))
  | Some _ =>
      ({| documents := documents this ++ [document];
          version := version this;
          mdoc_status := mdoc_status this;
          documentErrors := documentErrors this |}, inr tt)
  end.

(** The objects obtained from [new MDoc()] by calls of [addDocument],
    whether a call throws or not. *)
Inductive builtThroughAddDocument : MDoc -> Prop :=
| built_new : builtThroughAddDocument newMDoc
| built_add : forall m d,
    builtThroughAddDocument m -> builtThroughAddDocument (fst (addDocument m d)).

(** ** External collaborators

    The verifier calls libraries and modules that are not part of its own
    file: the response parser, [compare-versions], [jose], [cose-kit],
    [@peculiar/x509], the digest primitive, the clock.  The parser, the key
    import and the COSE verification of the issuer step, and the calls placed
    inside a [try] can throw and return [JsError + _]; the others are taken
    to return. *)
Definition JWK := list (string * string).

Record World := {
  KeyLike : Type;
  parse : bytes -> JsError + MDoc;
  compareVersions : string -> string -> Z;
  importX509 : string -> option string -> JsError + KeyLike;
  (* path validation of a leaf against the trust anchors: the message of
     the error it throws, if any *)
  validatePath : Certificate -> list Certificate -> list string -> option string;
  issuerAuth_verify : IssuerAuth -> KeyLike -> JsError + bool;
  now : Z;
  toUTCString : Z -> string;
  calculateDeviceAutenticationBytes :
    bytes -> string -> list (string * list (string * CborValue)) -> bytes;
  importCOSEKey : CoseKey -> KeyLike;
  Sign1_verify : CoseSign1 -> bytes -> KeyLike -> JsError + bool;
  calculateEphemeralMacKey : bytes -> CoseKey -> bytes -> JsError + bytes;
  deviceMac_verify : CoseMac0 -> bytes -> bytes -> JsError + bool;
  H : option string -> bytes -> bytes;
  (* [String(v)] for a decoded value that is not a text string *)
  toStringValue : CborValue -> string;
  (* the order in which the digest batches of a document's namespaces settle *)
  settleOrder : IssuerSignedDocument -> list nat;
  getThumbprint : Certificate -> string;
  COSEKeyToJWK : CoseKey -> JWK
}.

Definition MDL_NAMESPACE : string := "org.iso.18013.5.1".

Definition DIGEST_ALGS : list (string * string) :=
  [("SHA-256", "sha256"); ("SHA-384", "sha384"); ("SHA-512", "sha512")].

(** [DIGEST_ALGS] is an object literal: besides its own keys a lookup finds
    what it inherits from [Object.prototype], all of it truthy. *)
Definition Object_prototype_keys : list string :=
  ["constructor"; "hasOwnProperty"; "isPrototypeOf"; "propertyIsEnumerable";
   "toLocaleString"; "toString"; "valueOf"; "__proto__";
   "__defineGetter__"; "__defineSetter__"; "__lookupGetter__"; "__lookupSetter__"].

Definition supportedDigest (digestAlgorithm : option string) : bool :=
  match digestAlgorithm with
  | None => false
  | Some a =>
      truthy a &&
      (match get DIGEST_ALGS a with
       | Some v => truthy v
       | None => existsb (String.eqb a) Object_prototype_keys
       end)
  end.

(** *** Getters and methods of the model classes *)

(** Modelled from the spec: the [certificate] getter of [IssuerAuth] is not
    among the sources.  "Extract leaf cert from [x5chain]": the leaf is the
    first entry, absent when [x5chain] is absent or empty. *)
Definition certificate (ia : IssuerAuth) : option Certificate :=
  match x5chain ia with
  | Some (c :: _) => Some c
  | _ => None
  end.

(** Modelled from the spec: the [countryName] and [stateOrProvince] getters
    of [IssuerAuth] are not among the sources.  They "surface the leaf's
    subject [countryName] and [stateOrProvinceName]". *)
Definition countryName (ia : IssuerAuth) : option string :=
  match certificate ia with
  | Some c => subjectCountryName c
  | None => None
  end.

Definition stateOrProvince (ia : IssuerAuth) : option string :=
  match certificate ia with
  | Some c => subjectStateOrProvince c
  | None => None
  end.

(** Modelled from the spec: [hasSupportedAlg] of the device MAC is not among
    the sources.  "[CoseMac0] ... supported [alg = 5] (HMAC-256/256)". *)
Definition hasSupportedAlg (m : CoseMac0) : bool :=
  match mac0_alg m with
  | Some a => (a =? 5)%Z
  | None => false
  end.

Definition digests_get (l : list (Z * bytes)) (k : Z) : option bytes :=
  lookup Z.eqb k l.

Definition option_bytes_eqb (a : option bytes) (b : bytes) : bool :=
  match a with Some a' => bytes_eqb a' b | None => false end.

(** [a === b] between a possibly undefined string and a decoded value. *)
Definition strictEqual (a : option string) (v : CborValue) : bool :=
  match a, v with
  | Some s, Text s' => s =? s'
  | _, _ => false
  end.

(** [date.toUTCString()] *)
Definition Date_toUTCString (W : World) (date : JsDate) : string :=
  match date with
  | ValidDate time => toUTCString W time
  | InvalidDate => "Invalid Date"
  end.

(** [`${v}`] for a decoded value. *)
Definition render (W : World) (v : CborValue) : string :=
  match v with
  | Text s => s
  | _ => toStringValue W v
  end.

Section IssuerSignedItemMethods.

Variable W : World.

(** Modelled from the spec: [IssuerSignedItem.isValid] is not among the
      sources.  Spec 4.D: "Compute [d = H(digestAlgorithm,
      originalEncodedBytes)] ... Require [valueDigests[ns][digestID] == d]". *)
Definition isValid (ev : IssuerSignedItem) (ns : string) (ia : IssuerAuth) : bool :=
    let mso := decodedPayload ia in
    match get (valueDigests mso) ns with
    | Some digests =>
        option_bytes_eqb (digests_get digests (digestID ev))
                         (H W (digestAlgorithm mso) (originalBytes ev))
    | None => false
    end.

(** Modelled from the spec: [IssuerSignedItem.matchCertificate] is not
      among the sources.  Spec 4.D: for the mDL namespace, "[issuing_country]
      must equal the certificate's [countryName]; [issuing_jurisdiction], if
      present and the certificate has [stateOrProvinceName], must equal it";
      for anything else there is nothing to match ([undefined]). *)
Definition matchCertificate (ev : IssuerSignedItem) (ns : string) (ia : IssuerAuth)
    : option bool :=
    if negb (ns =? MDL_NAMESPACE) then None
    else if elementIdentifier ev =? "issuing_country"
         then Some (strictEqual (countryName ia) (elementValue ev))
    else if (elementIdentifier ev =? "issuing_jurisdiction")
              && truthy_opt (stateOrProvince ia)
         then Some (strictEqual (stateOrProvince ia) (elementValue ev))
    else None.

End IssuerSignedItemMethods.

(** Modelled from the spec: [verifyX509Chain] belongs to the COSE base class
    of [IssuerAuth], not among the sources.  Spec 4.G: "Extract leaf cert
    from [x5chain]; if absent -> FAILED"; with a leaf, the path validation of
    spec 4.C decides.  The result is the error thrown, if any. *)
Definition verifyX509Chain (W : World) (ia : IssuerAuth) (roots : list string)
  : JsError + unit :=
  match x5chain ia with
  | Some (leaf :: chain) =>
      match validatePath W leaf chain roots with
      | Some msg => inl (Error msg)
      | None => inr tt
      end
  | _ => inl (Error "No x5chain found in the issuerAuth")
  end.

(** ** The Verifier *)

Record DeviceSignatureOptions := {
  ephemeralPrivateKey : option bytes;
  sessionTranscriptBytes : option bytes;
  onCheck : UserDefinedVerificationCallback
}.

Record VerifyOptions := {
  encodedSessionTranscript : option bytes;
  ephemeralReaderKey : option bytes;
  disableCertificateChainValidation : bool;
  options_onCheck : option UserDefinedVerificationCallback
}.

(** [{ ...options, onCheck: (check) => dr.push(check) }] *)
Definition collecting (options : VerifyOptions) : VerifyOptions :=
  {| encodedSessionTranscript := encodedSessionTranscript options;
     ephemeralReaderKey := ephemeralReaderKey options;
     disableCertificateChainValidation := disableCertificateChainValidation options;
     options_onCheck := Some collect |}.

(** A built callback handed to a function that calls it with two arguments:
    the second one is dropped. *)
Definition asUserDefined (cb : VerificationCallback) : UserDefinedVerificationCallback :=
  fun item _ => cb item.

Definition statusOf (passed : bool) : Status := if passed then PASSED else FAILED.

(** *** Check texts *)

Definition CHECK_CERTIFICATE : string := "Issuer certificate must be valid".
Definition CHECK_SIGNATURE : string := "Issuer signature must be valid".
Definition CHECK_SIGNED_DATE : string :=
  "The MSO signed date must be within the validity period of the certificate".
Definition CHECK_MSO_VALID : string :=
  "The MSO must be valid at the time of verification".
Definition CHECK_COUNTRY_PRESENT : string :=
  "Country name (C) must be present in the issuer certificate's subject distinguished name".
Definition CHECK_NOT_DEVICE_SIGNED : string := "The document is not signed by the device.".
Definition CHECK_DEVICE_AUTH_ELEMENT : string :=
  "Device Auth must contain a deviceSignature or deviceMac element".
Definition CHECK_TRANSCRIPT : string :=
  "Session Transcript Bytes missing from options, aborting device signature check".
Definition CHECK_DEVICE_KEY : string := "Issuer signature must contain the device key.".
Definition CHECK_DEVICE_SIGNATURE : string := "Device signature must be valid".
Definition CHECK_MAC_PRESENT : string :=
  "Device MAC must be present when using MAC authentication".
Definition CHECK_MAC_ALG : string := "Device MAC must use alg 5 (HMAC 256/256)".
Definition CHECK_EPHEMERAL_KEY : string :=
  "Ephemeral private key must be present when using MAC authentication".
Definition CHECK_MAC_VALID : string := "Device MAC must be valid".
Definition CHECK_DIGEST_ALG : string :=
  "Issuer Auth must include a supported digestAlgorithm element".
Definition CHECK_ISSUING_COUNTRY : string :=
  "The 'issuing_country' if present must match the 'countryName' in the subject field within the DS certificate".
Definition CHECK_ISSUING_JURISDICTION : string :=
  "The 'issuing_jurisdiction' if present must match the 'stateOrProvinceName' in the subject field within the DS certificate".
Definition quote : string := String "034"%char EmptyString.
Definition CHECK_VERSION_PRESENT : string :=
  ("Device Response must include " ++ quote ++ "version" ++ quote ++ " element.")%string.
Definition CHECK_VERSION_MINIMUM : string :=
  "Device Response version must be 1.0 or greater".
Definition CHECK_DOCUMENTS : string :=
  "Device Response must include at least one document.".

Definition checkNamespaceDigests (ns : string) : string :=
  ("Issuer Auth must include digests for namespace: " ++ ns)%string.

Definition checkDigest (ns : string) (elementIdentifier : string) : string :=
  ("The calculated digest for " ++ ns ++ "/" ++ elementIdentifier
   ++ " attribute must match the digest in the issuerAuth element")%string.

Definition undefinedProperty (name : string) : JsError :=
  TypeError ("Cannot read properties of undefined (reading '" ++ name ++ "')")%string.

(** [const { name } = source] with [source] undefined. *)
Definition cannotDestructure (name source : string) : JsError :=
  TypeError ("Cannot destructure property '" ++ name ++ "' of '" ++ source
             ++ "' as it is undefined.")%string.

(** One verified element of [verifyData]: [{ ev, ns, isValid }]. *)
Record Verification := {
  v_ev : IssuerSignedItem;
  v_ns : string;
  v_isValid : bool
}.

(** [!x] for [x : boolean | undefined] *)
Definition not_opt (x : option bool) : bool :=
  match x with Some b => negb b | None => true end.

Section Verifier.

Variable W : World.

(** The IACA root certificates given to the constructor. *)
Variable issuersRootCertificates : list string.

Definition verifyIssuerSignature (issuerAuth : IssuerAuth)
    (disableCertificateChainValidation : bool)
    (onCheckG : UserDefinedVerificationCallback) : Run unit :=
    let onCheck := call onCheckG ISSUER_AUTH in
    let certificate := certificate issuerAuth in
    let countryName := countryName issuerAuth in
    verificationKey <-
      match certificate with
      | Some c =>
          key <- lift (importX509 W (pem c) (algName issuerAuth)) ;;
          ret (Some key)
      | None => ret None
      end ;;
    (if negb disableCertificateChainValidation then
       tryCatch
         (lift (verifyX509Chain W issuerAuth issuersRootCertificates) ;;;
          onCheck {| c_status := PASSED; c_check := CHECK_CERTIFICATE; c_reason := None |})
         (fun err =>
          onCheck {| c_status := FAILED; c_check := CHECK_CERTIFICATE;
                     c_reason := Some (message err) |})
     else ret tt) ;;;
    verificationResult <-
      match verificationKey with
      | Some k => lift (issuerAuth_verify W issuerAuth k)
      | None => ret false
      end ;;
    onCheck {| c_status := statusOf verificationResult;
               c_check := CHECK_SIGNATURE; c_reason := None |} ;;;
    (* Validity *)
    let validityInfo := validityInfo (decodedPayload issuerAuth) in
    let now := now W in
    (* the object literal is evaluated before the call: its [reason]
       dereferences [validityInfo] and [certificate] without a guard *)
    signedDateReason <-
      match validityInfo with
      | None => throw (undefinedProperty "signed")
      | Some vi =>
          match certificate with
          | None => throw (undefinedProperty "notBefore")
          | Some c =>
              ret ("The MSO signed date (" ++ Date_toUTCString W (signed vi)
                   ++ ") must be within the validity period of the certificate ("
                   ++ toUTCString W (notBefore c) ++ " to "
                   ++ toUTCString W (notAfter c) ++ ")")%string
          end
      end ;;
    onCheck {| c_status :=
                 match certificate, validityInfo with
                 | Some c, Some vi =>
                     if Date_lt (signed vi) (ValidDate (notBefore c))
                        || Date_gt (signed vi) (ValidDate (notAfter c))
                     then FAILED else PASSED
                 | _, _ => PASSED
                 end;
               c_check := CHECK_SIGNED_DATE;
               c_reason := Some signedDateReason |} ;;;
    onCheck {| c_status :=
                 match validityInfo with
                 | Some vi =>
                     if Date_lt (ValidDate now) (validFrom vi)
                        || Date_gt (ValidDate now) (validUntil vi)
                     then FAILED else PASSED
                 | None => PASSED
                 end;
               c_check := CHECK_MSO_VALID;
               c_reason := Some ("The MSO must be valid at the time of verification ("
                                 ++ toUTCString W now ++ ")")%string |} ;;;
    onCheck {| c_status := statusOf (truthy_opt countryName);
               c_check := CHECK_COUNTRY_PRESENT; c_reason := None |}.

Definition verifyDeviceSignature (document : IssuerSignedDocument)
    (options : DeviceSignatureOptions) : Run unit :=
    let onCheck := call (onCheck options) DEVICE_AUTH in
    match deviceSigned document with
    | None =>
        onCheck {| c_status := FAILED; c_check := CHECK_NOT_DEVICE_SIGNED;
                   c_reason := None |}
    | Some deviceSigned =>
        let deviceAuth := deviceAuth deviceSigned in
        let nameSpaces := deviceNameSpaces deviceSigned in
        let docType := docType document in
        match issuerSigned document with
        | None => throw (undefinedProperty "issuerAuth")
        | Some issuerSigned =>
            let deviceKeyInfo := deviceKeyInfo (decodedPayload (issuerAuth issuerSigned)) in
            let deviceKeyCoseKey :=
              match deviceKeyInfo with
              | Some info => deviceKey info
              | None => None
              end in
            (* Prevent cloning of the mdoc and mitigate man in the middle attacks *)
            if negb (isSome (deviceMac deviceAuth))
               && negb (isSome (deviceSignature deviceAuth)) then
              onCheck {| c_status := FAILED; c_check := CHECK_DEVICE_AUTH_ELEMENT;
                         c_reason := None |}
            else
              match sessionTranscriptBytes options with
              | None =>
                  onCheck {| c_status := FAILED; c_check := CHECK_TRANSCRIPT;
                             c_reason := None |}
              | Some transcript =>
                  let deviceAuthenticationBytes :=
                    calculateDeviceAutenticationBytes W transcript docType nameSpaces in
                  match deviceKeyCoseKey with
                  | None =>
                      onCheck {| c_status := FAILED; c_check := CHECK_DEVICE_KEY;
                                 c_reason := Some "Unable to verify deviceAuth signature: missing device key in issuerAuth" |}
                  | Some deviceKeyCoseKey =>
                      match deviceSignature deviceAuth with
                      | Some ds =>
                          let deviceKey := importCOSEKey W deviceKeyCoseKey in
                          (* ECDSA/EdDSA authentication *)
                          tryCatch
                            (verificationResult <-
                               lift (Sign1_verify W ds deviceAuthenticationBytes deviceKey) ;;
                             onCheck {| c_status := statusOf verificationResult;
                                        c_check := CHECK_DEVICE_SIGNATURE;
                                        c_reason := None |})
                            (fun err =>
                             onCheck {| c_status := FAILED;
                                        c_check := CHECK_DEVICE_SIGNATURE;
                                        c_reason := Some ("Unable to verify deviceAuth signature (ECDSA/EdDSA): " ++ message err)%string |})
                      | None =>
                          (* MAC authentication *)
                          onCheck {| c_status := statusOf (isSome (deviceMac deviceAuth));
                                     c_check := CHECK_MAC_PRESENT; c_reason := None |} ;;;
                          match deviceMac deviceAuth with
                          | None => ret tt
                          | Some mac =>
                              onCheck {| c_status := statusOf (hasSupportedAlg mac);
                                         c_check := CHECK_MAC_ALG; c_reason := None |} ;;;
                              if negb (hasSupportedAlg mac) then ret tt
                              else
                                onCheck {| c_status := statusOf (isSome (ephemeralPrivateKey options));
                                           c_check := CHECK_EPHEMERAL_KEY;
                                           c_reason := None |} ;;;
                                match ephemeralPrivateKey options with
                                | None => ret tt
                                | Some ephemeralKey =>
                                    tryCatch
                                      (ephemeralMacKey <-
                                         lift (calculateEphemeralMacKey W ephemeralKey
                                                 deviceKeyCoseKey transcript) ;;
                                       isValid <-
                                         lift (deviceMac_verify W mac ephemeralMacKey
                                                 deviceAuthenticationBytes) ;;
                                       onCheck {| c_status := statusOf isValid;
                                                  c_check := CHECK_MAC_VALID;
                                                  c_reason := None |})
                                      (fun err =>
                                       onCheck {| c_status := FAILED;
                                                  c_check := CHECK_MAC_VALID;
                                                  c_reason := Some ("Unable to verify deviceAuth MAC: " ++ message err)%string |})
                                end
                          end
                      end
                  end
              end
        end
    end.

(** The async arrow function that [verifyData] maps over the namespaces. *)
Definition namespaceTask (issuerAuth : IssuerAuth)
    (nameSpaces : list (string * list IssuerSignedItem))
    (onCheck : Check -> Run unit) (ns : string) : AsyncTask :=
    let valueDigests := valueDigests (decodedPayload issuerAuth) in
    let head :=
      onCheck {| c_status := statusOf (has valueDigests ns);
                 c_check := checkNamespaceDigests ns; c_reason := None |} in
    match get nameSpaces ns with
    | None =>
        (* [nameSpaces[ns].map] on a missing entry *)
        {| task_head := head ;;; throw (undefinedProperty "map"); task_tail := ret tt |}
    | Some items =>
        {| task_head := head;
           task_tail :=
             let verifications :=
               map (fun ev => {| v_ev := ev; v_ns := ns;
                                 v_isValid := isValid W ev ns issuerAuth |}) items in
             forEach (fun v =>
                        onCheck {| c_status := PASSED;
                                   c_check := checkDigest ns (elementIdentifier (v_ev v));
                                   c_reason := None |})
                     (filter (fun v => v_isValid v) verifications) ;;;
             forEach (fun v =>
                        onCheck {| c_status := FAILED;
                                   c_check := checkDigest ns (elementIdentifier (v_ev v));
                                   c_reason := None |})
                     (filter (fun v => negb (v_isValid v)) verifications) ;;;
             if ns =? MDL_NAMESPACE then
               match certificate issuerAuth with
               | None => throw (undefinedProperty "issuerName")
               | Some cert =>
                   match issuerName cert with
                   | None =>
                       onCheck {| c_status := FAILED;
                                  c_check := CHECK_ISSUING_COUNTRY;
                                  c_reason := Some "The 'issuing_country' and 'issuing_jurisdiction' cannot be verified because the DS certificate was not provided" |}
                   | Some _ =>
                       let invalidCountry :=
                         find (fun v => negb (v_isValid v)
                                        || not_opt (matchCertificate (v_ev v) ns issuerAuth))
                              (filter (fun v => (v_ns v =? ns)
                                                && (elementIdentifier (v_ev v) =? "issuing_country"))
                                      verifications) in
                       onCheck {| c_status := statusOf (negb (isSome invalidCountry));
                                  c_check := CHECK_ISSUING_COUNTRY;
                                  c_reason :=
                                    match invalidCountry with
                                    | Some v =>
                                        Some ("The 'issuing_country' ("
                                              ++ render W (elementValue (v_ev v))
                                              ++ ") must match the 'countryName' ("
                                              ++ tpl (countryName issuerAuth)
                                              ++ ") in the subject field within the issuer certificate")%string
                                    | None => None
                                    end |} ;;;
                       let invalidJurisdiction :=
                         find (fun v => negb (v_isValid v)
                                        || (truthy_opt (stateOrProvince issuerAuth)
                                            && not_opt (matchCertificate (v_ev v) ns issuerAuth)))
                              (filter (fun v => (v_ns v =? ns)
                                                && (elementIdentifier (v_ev v) =? "issuing_jurisdiction"))
                                      verifications) in
                       onCheck {| c_status := statusOf (negb (isSome invalidJurisdiction));
                                  c_check := CHECK_ISSUING_JURISDICTION;
                                  c_reason :=
                                    match invalidJurisdiction with
                                    | Some v =>
                                        Some ("The 'issuing_jurisdiction' ("
                                              ++ render W (elementValue (v_ev v))
                                              ++ ") must match the 'stateOrProvinceName' ("
                                              ++ tpl (stateOrProvince issuerAuth)
                                              ++ ") in the subject field within the issuer certificate")%string
                                    | None => None
                                    end |}
                   end
               end
             else ret tt |}
    end.

Definition verifyData (mdoc : IssuerSignedDocument)
    (onCheckG : UserDefinedVerificationCallback) : Run unit :=
    (* Confirm that the mdoc data has not changed since issuance *)
    match issuerSigned mdoc with
    | None => throw (cannotDestructure "issuerAuth" "mdoc.issuerSigned")
    | Some issuerSigned =>
        let issuerAuth := issuerAuth issuerSigned in
        let digestAlgorithm := digestAlgorithm (decodedPayload issuerAuth) in
        let onCheck := call onCheckG DATA_INTEGRITY in
        onCheck {| c_status := statusOf (supportedDigest digestAlgorithm);
                   c_check := CHECK_DIGEST_ALG; c_reason := None |} ;;;
        let nameSpaces :=
          match nameSpaces issuerSigned with Some o => o | None => [] end in
        awaitAll (settleOrder W mdoc)
                 (map (namespaceTask issuerAuth nameSpaces onCheck)
                      (Object_keys nameSpaces))
    end.

(** The body of the loop of [verify]. *)
Definition verifyDocument (options : VerifyOptions) (onCheck : VerificationCallback)
    (document : IssuerSignedDocument) : Run unit :=
    issuerAuth <-
      match issuerSigned document with
      | None => throw (cannotDestructure "issuerAuth" "document.issuerSigned")
      | Some issuerSigned => ret (issuerAuth issuerSigned)
      end ;;
    verifyIssuerSignature issuerAuth (disableCertificateChainValidation options)
                          (asUserDefined onCheck) ;;;
    verifyDeviceSignature document
      {| ephemeralPrivateKey := ephemeralReaderKey options;
         sessionTranscriptBytes := encodedSessionTranscript options;
         onCheck := asUserDefined onCheck |} ;;;
    verifyData document (asUserDefined onCheck).

(** [for (const document of dr.documents) { ... }] *)
Definition verifyDocuments (options : VerifyOptions) (onCheck : VerificationCallback)
    (documents : list IssuerSignedDocument) : Run unit :=
    forEach (verifyDocument options onCheck) documents.

(** The three DOCUMENT_FORMAT checks at the head of [verify]. *)
Definition verifyFormat (onCheck : VerificationCallback) (dr : MDoc) : Run unit :=
    deliver onCheck {| status := statusOf (truthy (version dr));
                       category := DOCUMENT_FORMAT;
                       check := CHECK_VERSION_PRESENT; reason := None |} ;;;
    deliver onCheck {| status := statusOf (compareVersions W (version dr) "1.0" >=? 0)%Z;
                       category := DOCUMENT_FORMAT;
                       check := CHECK_VERSION_MINIMUM; reason := None |} ;;;
    deliver onCheck {| status := statusOf (0 <? List.length (documents dr))%nat;
                       category := DOCUMENT_FORMAT;
                       check := CHECK_DOCUMENTS; reason := None |}.

Definition verify (encodedDeviceResponse : bytes) (options : VerifyOptions) : Run MDoc :=
    let onCheck := buildCallback (options_onCheck options) in
    dr <- lift (parse W encodedDeviceResponse) ;;
    verifyFormat onCheck dr ;;;
    verifyDocuments options onCheck (documents dr) ;;;
    ret dr.

(** *** The diagnostic report *)

Record GeneralInfo := {
    general_version : string;
    general_type : string;
    general_status : MDocStatus;
    general_documents : nat
  }.

Record IssuerCertificateInfo := {
    info_subjectName : string;
    info_pem : string;
    info_notBefore : Z;
    info_notAfter : Z;
    info_serialNumber : string;
    info_thumbprint : string
  }.

Record IssuerSignatureInfo := {
    issuer_alg : option string;
    issuer_isValid : bool;
    issuer_reasons : list string;
    issuer_digests : list (string * nat)
  }.

Record DeviceSignatureInfo := {
    device_alg : option string;
    device_isValid : bool;
    device_reasons : list string
  }.

Record DataIntegrityInfo := {
    disclosedAttributes : string;
    data_isValid : bool;
    data_reasons : list string
  }.

Record AttributeInfo := {
    attr_ns : string;
    attr_id : string;
    attr_value : CborValue;
    attr_isValid : bool;
    attr_matchCertificate : option bool
  }.

Record DeviceAttributeInfo := {
    dattr_ns : string;
    dattr_id : string;
    dattr_value : CborValue
  }.

Record DiagnosticInformation := {
    general : GeneralInfo;
    diag_validityInfo : option ValidityInfo;
    issuerCertificate : option IssuerCertificateInfo;
    issuerSignature : IssuerSignatureInfo;
    diag_deviceKey : option JWK;
    diag_deviceSignature : option DeviceSignatureInfo;
    dataIntegrity : DataIntegrityInfo;
    attributes : list AttributeInfo;
    deviceAttributes : option (list DeviceAttributeInfo)
  }.

(** [dr.filter(category).every(PASSED)] and
      [dr.filter(category && FAILED).map(reason ?? check)] *)
Definition allPassed (dr : list VerificationAssessment) (c : Category) : bool :=
    forallb (fun check => Status_eqb (status check) PASSED)
            (filter (fun check => Category_eqb (category check) c) dr).

Definition failedReasons (dr : list VerificationAssessment) (c : Category) : list string :=
    map reasonOrCheck
        (filter (fun check => Category_eqb (category check) c
                              && Status_eqb (status check) FAILED) dr).

Definition getDiagnosticInformation (encodedDeviceResponse : bytes)
    (options : VerifyOptions) : JsError + DiagnosticInformation :=
    let run := verify encodedDeviceResponse (collecting options) in
    let dr := trace run in
    match outcome run with
    | inl e => inl e
    | inr decoded =>
        match documents decoded with
        | [] => inl (undefinedProperty "issuerSigned")
        | document :: _ =>
            match issuerSigned document with
            | None => inl (cannotDestructure "issuerAuth" "document.issuerSigned")
            | Some issuerSigned =>
                let issuerAuth := issuerAuth issuerSigned in
                let issuerCert :=
                  match x5chain issuerAuth with
                  | Some (c :: _) => Some c
                  | _ => None
                  end in
                match nameSpaces issuerSigned with
                | None => inl (TypeError "Cannot convert undefined or null to object")
                | Some nameSpaces =>
                    let attributes :=
                      flat_map
                        (fun ns =>
                           match get nameSpaces ns with
                           | None => []
                           | Some items =>
                               map (fun item =>
                                      {| attr_ns := ns;
                                         attr_id := elementIdentifier item;
                                         attr_value := elementValue item;
                                         attr_isValid := isValid W item ns issuerAuth;
                                         attr_matchCertificate :=
                                           matchCertificate item ns issuerAuth |})
                                   items
                           end)
                        (Object_keys nameSpaces) in
                    let deviceAttributes :=
                      match deviceSigned document with
                      | Some deviceSigned =>
                          Some (flat_map
                                  (fun '(ns, items) =>
                                     map (fun '(id, value) =>
                                            {| dattr_ns := ns; dattr_id := id;
                                               dattr_value := value |})
                                         items)
                                  (deviceNameSpaces deviceSigned))
                      | None => None
                      end in
                    let deviceKey :=
                      match deviceKeyInfo (decodedPayload issuerAuth) with
                      | Some info =>
                          match deviceKey info with
                          | Some k => Some (COSEKeyToJWK W k)
                          | None => None
                          end
                      | None => None
                      end in
                    let disclosed :=
                      List.length (filter (fun attr => attr_isValid attr) attributes) in
                    let totalAttributes :=
                      fold_left (fun prev '(_, digests) => (prev + List.length digests)%nat)
                                (valueDigests (decodedPayload issuerAuth)) 0%nat in
                    inr {| general :=
                             {| general_version := version decoded;
                                general_type := "DeviceResponse";
                                general_status := mdoc_status decoded;
                                general_documents := List.length (documents decoded) |};
                           diag_validityInfo := validityInfo (decodedPayload issuerAuth);
                           issuerCertificate :=
                             match issuerCert with
                             | Some c =>
                                 Some {| info_subjectName := subjectName c;
                                         info_pem := pem c;
                                         info_notBefore := notBefore c;
                                         info_notAfter := notAfter c;
                                         info_serialNumber := serialNumber c;
                                         info_thumbprint := getThumbprint W c |}
                             | None => None
                             end;
                           issuerSignature :=
                             {| issuer_alg := algName issuerAuth;
                                issuer_isValid := allPassed dr ISSUER_AUTH;
                                issuer_reasons := failedReasons dr ISSUER_AUTH;
                                issuer_digests :=
                                  map (fun '(ns, digests) => (ns, List.length digests))
                                      (valueDigests (decodedPayload issuerAuth)) |};
                           diag_deviceKey := deviceKey;
                           diag_deviceSignature :=
                             match deviceSigned document with
                             | Some deviceSigned =>
                                 Some {| device_alg :=
                                           match deviceSignature (deviceAuth deviceSigned) with
                                           | Some ds =>
                                               match sign1_algName ds with
                                               | Some a => Some a
                                               | None =>
                                                   match deviceMac (deviceAuth deviceSigned) with
                                                   | Some m => mac0_algName m
                                                   | None => None
                                                   end
                                               end
                                           | None =>
                                               match deviceMac (deviceAuth deviceSigned) with
                                               | Some m => mac0_algName m
                                               | None => None
                                               end
                                           end;
                                         device_isValid := allPassed dr DEVICE_AUTH;
                                         device_reasons := failedReasons dr DEVICE_AUTH |}
                             | None => None
                             end;
                           dataIntegrity :=
                             {| disclosedAttributes :=
                                  (string_of_nat disclosed ++ " of "
                                   ++ string_of_nat totalAttributes)%string;
                                data_isValid := allPassed dr DATA_INTEGRITY;
                                data_reasons := failedReasons dr DATA_INTEGRITY |};
                           attributes := attributes;
                           deviceAttributes := deviceAttributes |}
                end
            end
        end
    end.

End Verifier.

(** ** A test bench

    A small world with toy primitives, and documents in the shape of the
    scenarios S1-S6, to run the verifier on.  The digest is the identity, a
    signature or a MAC tag is valid when it equals the signed bytes, a
    certificate path is valid when the leaf's issuer is a trust anchor. *)
Module Bench.

Definition string_of_Z (z : Z) : string := NilZero.string_of_int (Z.to_int z).

Definition worldWith (importKey : string -> option string -> JsError + unit)
  (responses : list (bytes * MDoc)) (clock : Z) : World :=
  {| KeyLike := unit;
     parse := fun b =>
       match lookup bytes_eqb b responses with
       | Some dr => inr dr
       | None => inl (MDLParseError "Unable to decode device response")
       end;
     compareVersions := fun a b =>
       match String.compare a b with Eq => 0%Z | Lt => (-1)%Z | Gt => 1%Z end;
     importX509 := importKey;
     validatePath := fun leaf _ roots =>
       if existsb (String.eqb (tpl (issuerName leaf))) roots then None
       else Some "No valid certificate paths found";
     issuerAuth_verify := fun ia _ => inr (bytes_eqb (signature ia) (payload ia));
     now := clock;
     toUTCString := string_of_Z;
     calculateDeviceAutenticationBytes := fun transcript _ _ => transcript;
     importCOSEKey := fun _ => tt;
     Sign1_verify := fun ds data _ => inr (bytes_eqb (sign1_signature ds) data);
     calculateEphemeralMacKey := fun ephemeral _ _ => inr ephemeral;
     deviceMac_verify := fun mac _ data => inr (bytes_eqb (mac0_tag mac) data);
     H := fun _ b => b;
     toStringValue := fun _ => "[object Object]";
     settleOrder := fun _ => [];
     getThumbprint := fun _ => "00";
     COSEKeyToJWK := fun _ => [("kty", "EC")] |}.

Definition world : list (bytes * MDoc) -> Z -> World :=
  worldWith (fun _ _ => inr tt).

Definition roots : list string := ["CN=IACA,C=US"].

Definition leaf : Certificate :=
  {| rawData := [x30];
     pem := "-----BEGIN CERTIFICATE-----";
     subjectName := "CN=DS,C=US";
     issuerName := Some "CN=IACA,C=US";
     notBefore := 1000;
     notAfter := 9000;
     serialNumber := "01";
     subjectCountryName := Some "US";
     subjectStateOrProvince := None |}.

Definition item (id : Z) (name : string) (value : CborValue) (encoded : bytes)
  : IssuerSignedItem :=
  {| digestID := id; random := []; elementIdentifier := name;
     elementValue := value; originalBytes := encoded |}.

Definition family_name : IssuerSignedItem :=
  item 0 "family_name" (Text "Jones") [x01].
Definition issuing_country (c : string) : IssuerSignedItem :=
  item 1 "issuing_country" (Text c) [x02].
Definition age_over_21 (encoded : bytes) : IssuerSignedItem :=
  item 2 "age_over_21" (Bool true) encoded.

Definition mso (until : Z) : MSO :=
  {| mso_version := "1.0";
     digestAlgorithm := Some "SHA-256";
     valueDigests :=
       [(MDL_NAMESPACE, [(0%Z, [x01]); (1%Z, [x02]); (2%Z, [x03])])];
     deviceKeyInfo := Some {| deviceKey := Some [(1%Z, Uint 2)] |};
     mso_docType := "org.iso.18013.5.1.mDL";
     validityInfo :=
       Some {| signed := ValidDate 2000; validFrom := ValidDate 2000;
               validUntil := ValidDate until; expectedUpdate := None |} |}.

Definition auth (chain : option (list Certificate)) (until : Z) : IssuerAuth :=
  {| protectedHeaders := [xa1];
     payload := [xd8];
     signature := [xd8];
     algName := Some "ES256";
     x5chain := chain;
     decodedPayload := mso until |}.

Definition signedBy (a : IssuerAuth) (items : list IssuerSignedItem) : IssuerSigned :=
  {| nameSpaces := Some [(MDL_NAMESPACE, items)]; issuerAuth := a |}.

Definition transcript : bytes := [x83].

Definition goodSignature : CoseSign1 :=
  {| sign1_protectedHeaders := []; sign1_signature := transcript;
     sign1_algName := Some "ES256" |}.

Definition badSignature : CoseSign1 :=
  {| sign1_protectedHeaders := []; sign1_signature := [xff];
     sign1_algName := Some "ES256" |}.

Definition goodMac : CoseMac0 :=
  {| mac0_protectedHeaders := []; mac0_alg := Some 5%Z; mac0_tag := transcript;
     mac0_algName := Some "HS256" |}.

Definition device (s : option CoseSign1) (m : option CoseMac0) : DeviceSigned :=
  {| deviceNameSpaces := [("com.example", [("nonce", Uint 7)])];
     deviceAuth := {| deviceSignature := s; deviceMac := m |} |}.

Definition document (a : IssuerAuth) (items : list IssuerSignedItem)
  (d : option DeviceSigned) : IssuerSignedDocument :=
  {| docType := "org.iso.18013.5.1.mDL";
     issuerSigned := Some (signedBy a items);
     deviceSigned := d |}.

Definition goodItems : list IssuerSignedItem :=
  [family_name; issuing_country "US"; age_over_21 [x03]].

Definition goodAuth : IssuerAuth := auth (Some [leaf]) 8000.

(** S1: everything valid, signed by the device. *)
Definition docS1 : IssuerSignedDocument :=
  document goodAuth goodItems (Some (device (Some goodSignature) None)).

(** Both a device signature and a device MAC. *)
Definition docBoth : IssuerSignedDocument :=
  document goodAuth goodItems (Some (device (Some goodSignature) (Some goodMac))).

(** The device signature does not verify. *)
Definition docBadSignature : IssuerSignedDocument :=
  document goodAuth goodItems (Some (device (Some badSignature) None)).

(** S2: the encoded bytes of [age_over_21] were changed. *)
Definition docS2 : IssuerSignedDocument :=
  document goodAuth [family_name; issuing_country "US"; age_over_21 [x04]]
           (Some (device (Some goodSignature) None)).

(** S4/S5: the MAC path. *)
Definition docMac : IssuerSignedDocument :=
  document goodAuth goodItems (Some (device None (Some goodMac))).

(** S6: the disclosed country differs from the certificate's. *)
Definition docS6 : IssuerSignedDocument :=
  document goodAuth [family_name; issuing_country "DE"; age_over_21 [x03]]
           (Some (device (Some goodSignature) None)).

(** No [x5chain] in the issuer's COSE_Sign1. *)
Definition docNoCertificate : IssuerSignedDocument :=
  document (auth None 8000) goodItems (Some (device (Some goodSignature) None)).

Definition response (docs : list IssuerSignedDocument) : MDoc :=
  {| documents := docs; version := "1.0"; mdoc_status := OK; documentErrors := [] |}.

Definition responses : list (bytes * MDoc) :=
  [ ([x01], response [docS1]);
    ([x02], response [docBoth]);
    ([x03], response [docBadSignature]);
    ([x04], response [docS1; docS1]);
    ([x05], response [docS1; docS2]);
    ([x06], response [docNoCertificate]);
    ([x07], response [docMac]);
    ([x08], response [docS6]) ].

Definition W : World := world responses 5000.

(** The same world with a key import that throws, as the import of a key
    that does not fit the algorithm does. *)
Definition WithoutKeyImport : World :=
  worldWith (fun _ _ => inl (Error "Invalid or unsupported alg value")) responses 5000.

Definition options (cb : option UserDefinedVerificationCallback) (disable : bool)
  (ephemeral : option bytes) : VerifyOptions :=
  {| encodedSessionTranscript := Some transcript;
     ephemeralReaderKey := ephemeral;
     disableCertificateChainValidation := disable;
     options_onCheck := cb |}.

End Bench.


(** ** Vocabulary of the statements *)

Definition assessment (s : Status) (c : Category) (text : string) (r : option string)
  : VerificationAssessment :=
  {| status := s; category := c; check := text; reason := r |}.

(** The import of the leaf's key followed by [verificationKey && await
    issuerAuth.verify(verificationKey)]: the exception of the import or of
    the verification, or else whether the COSE_Sign1 signature over the MSO
    verifies under the leaf's key; false without a leaf. *)
Definition signatureVerifies (W : World) (ia : IssuerAuth) : JsError + bool :=
  match certificate ia with
  | Some c =>
      match importX509 W (pem c) (algName ia) with
      | inr key => issuerAuth_verify W ia key
      | inl e => inl e
      end
  | None => inr false
  end.

(** What the chain validation step reports. *)
Definition certificateAssessment (W : World) (roots : list string) (ia : IssuerAuth)
  : VerificationAssessment :=
  match verifyX509Chain W ia roots with
  | inl e => assessment FAILED ISSUER_AUTH CHECK_CERTIFICATE (Some (message e))
  | inr _ => assessment PASSED ISSUER_AUTH CHECK_CERTIFICATE None
  end.

(** What the check of the MSO's signed date reports. *)
Definition signedDateAssessment (W : World) (c : Certificate) (vi : ValidityInfo)
  : VerificationAssessment :=
  assessment
    (if Date_lt (signed vi) (ValidDate (notBefore c))
        || Date_gt (signed vi) (ValidDate (notAfter c))
     then FAILED else PASSED)
    ISSUER_AUTH CHECK_SIGNED_DATE
    (Some ("The MSO signed date (" ++ Date_toUTCString W (signed vi)
           ++ ") must be within the validity period of the certificate ("
           ++ toUTCString W (notBefore c) ++ " to "
           ++ toUTCString W (notAfter c) ++ ")")%string).

(** The status expression of the validity check: the current time is before
    [validFrom] or after [validUntil], as the comparisons of dates decide
    it. *)
Definition outsideValidity (W : World) (vi : ValidityInfo) : bool :=
  Date_lt (ValidDate (now W)) (validFrom vi) || Date_gt (ValidDate (now W)) (validUntil vi).

Definition hasCheck (text : string) (a : VerificationAssessment) : bool :=
  check a =? text.

(** A callback that never throws, such as [collect]. *)
Definition quiet (cb : UserDefinedVerificationCallback) : Prop :=
  forall a original, cb a original = None.








Definition notCertificateCheck (a : VerificationAssessment) : Prop :=
  check a <> CHECK_CERTIFICATE.

(** The loop of [verify] gets to document [d] of the response [dr]: the
    format checks and the documents before [d] ended without an exception. *)
Definition reaches (W : World) (roots : list string) (options : VerifyOptions)
  (dr : MDoc) (d : IssuerSignedDocument) : Prop :=
  exists pre post,
    documents dr = pre ++ d :: post
    /\ outcome (verifyFormat W (buildCallback (options_onCheck options)) dr) = inr tt
    /\ outcome (verifyDocuments W roots options
                  (buildCallback (options_onCheck options)) pre) = inr tt.



(** ** The CBOR extensions for dates (cbor/index.js)

    The encoders hand a text to the CBOR encoder; [toISOString] of the
    built-in [Date] is the argument [iso]. *)

(** [s.split(sep)[0]] for a one-character separator *)
Fixpoint split0 (sep : ascii) (s : string) : string :=
  match s with
  | EmptyString => EmptyString
  | String c s' => if Ascii.eqb c sep then EmptyString else String c (split0 sep s')
  end.

(** Tag 0: [`${date.toISOString().split('.')[0]}Z`] *)
Definition encodeDate (iso : string) : string := (split0 "." iso ++ "Z")%string.

(** [DateOnly.toISOString]: [super.toISOString().split('T')[0]]; [toString],
    [toJSON] and the tag 1004 encoder return it as it is. *)
Definition DateOnly_toISOString (iso : string) : string := split0 "T" iso.

Fixpoint occurs (c : ascii) (s : string) : bool :=
  match s with
  | EmptyString => false
  | String c' s' => Ascii.eqb c' c || occurs c s'
  end.

(** ** Restoring buffers after a JSON round trip (model/MDoc.ts) *)

Unset Elimination Schemes.
Inductive Json :=
| JUndefined
| JNull
| JBoolean (b : bool)
| JNumber (n : Z)
| JString (s : string)
| JArray (l : list Json)
| JObject (o : list (string * Json))
| JBuffer (b : bytes).
Set Elimination Schemes.

(** [obj.type === 'Buffer' && Array.isArray(obj.data)]: the data, if so. *)
Definition bufferData (o : list (string * Json)) : option (list Json) :=
  match get o "type", get o "data" with
  | Some (JString t), Some (JArray data) => if t =? "Buffer" then Some data else None
  | _, _ => None
  end.

Section RestoreBuffers.

(** The coercion of an array element to a byte made by [Buffer.from]. *)
Variable toUint8 : Json -> byte.

Fixpoint deepRestoreBuffers (obj : Json) : Json :=
  match obj with
  | JArray l => JArray (map deepRestoreBuffers l)
  | JObject o =>
      match bufferData o with
      | Some data => JBuffer (map toUint8 data)
      | None => JObject (map (fun '(key, v) => (key, deepRestoreBuffers v)) o)
      end
  | _ => obj
  end.

End RestoreBuffers.

(** No object of the value, at any depth, has the shape [{ type: 'Buffer',
    data: [...] }]. *)
Fixpoint restored (j : Json) : bool :=
  match j with
  | JArray l => forallb restored l
  | JObject o =>
      match bufferData o with
      | Some _ => false
      | None => forallb (fun '(_, v) => restored v) o
      end
  | _ => true
  end.

(** Induction over a value and the values nested in it. *)
Section JsonInduction.

Variable P : Json -> Prop.

Hypothesis P_undefined : P JUndefined.
Hypothesis P_null : P JNull.
Hypothesis P_boolean : forall b, P (JBoolean b).
Hypothesis P_number : forall n, P (JNumber n).
Hypothesis P_string : forall s, P (JString s).
Hypothesis P_array : forall l, Forall P l -> P (JArray l).
Hypothesis P_object : forall o, Forall (fun kv => P (snd kv)) o -> P (JObject o).
Hypothesis P_buffer : forall b, P (JBuffer b).

Fixpoint Json_induction (j : Json) : P j :=
  match j with
  | JUndefined => P_undefined
  | JNull => P_null
  | JBoolean b => P_boolean b
  | JNumber n => P_number n
  | JString s => P_string s
  | JArray l =>
      P_array l
        ((fix all (l : list Json) : Forall P l :=
            match l with
            | [] => Forall_nil _
            | x :: l' => Forall_cons x (Json_induction x) (all l')
            end) l)
  | JObject o =>
      P_object o
        ((fix all (o : list (string * Json)) : Forall (fun kv => P (snd kv)) o :=
            match o with
            | [] => Forall_nil _
            | kv :: o' => Forall_cons kv (Json_induction (snd kv)) (all o')
            end) o)
  | JBuffer b => P_buffer b
  end.

End JsonInduction.

(** ** What the verification steps establish *)

(** A date that is neither before [lo] nor after [hi] for the comparisons of
    the code: a valid date within the bounds, or an Invalid Date, which is
    neither before nor after anything. *)
Definition Date_within (lo : Z) (date : JsDate) (hi : Z) : Prop :=
  match date with
  | ValidDate time => (lo <= time <= hi)%Z
  | InvalidDate => True
  end.

(** The time [now] is neither before [validFrom] nor after [validUntil] for
    the comparisons of the code; an Invalid Date bounds nothing. *)
Definition validAt (now : Z) (vi : ValidityInfo) : Prop :=
  match validFrom vi with ValidDate time => (time <= now)%Z | InvalidDate => True end
  /\ match validUntil vi with ValidDate time => (now <= time)%Z | InvalidDate => True end.

(** Issuer authentication: a leaf certificate whose key was imported, a
    valid chain unless chain validation is disabled, a COSE signature that
    verifies, a signed date that is not outside the certificate's validity,
    a current time that is not outside the MSO's, and a country name in the
    certificate.  The two date conditions are those the code tests: they
    hold of an Invalid Date. *)
Definition issuerChecksHold (W : World) (roots : list string) (disable : bool)
  (ia : IssuerAuth) : Prop :=
  exists c vi,
    certificate ia = Some c
    /\ validityInfo (decodedPayload ia) = Some vi
    /\ (disable = false -> verifyX509Chain W ia roots = inr tt)
    /\ signatureVerifies W ia = inr true
    /\ Date_within (notBefore c) (signed vi) (notAfter c)
    /\ validAt (now W) vi
    /\ truthy_opt (countryName ia) = true.

(** Device authentication: a device-signed document, a session transcript,
    a device key in the MSO, and either a device signature that verifies or,
    without a signature, a MAC with alg 5 that verifies under the key derived
    from the caller's ephemeral key. *)
Definition deviceChecksHold (W : World) (d : IssuerSignedDocument)
  (ephemeral transcript : option bytes) : Prop :=
  exists ds s info key ts,
    deviceSigned d = Some ds
    /\ issuerSigned d = Some s
    /\ transcript = Some ts
    /\ deviceKeyInfo (decodedPayload (issuerAuth s)) = Some info
    /\ deviceKey info = Some key
    /\ match deviceSignature (deviceAuth ds) with
       | Some sig =>
           Sign1_verify W sig
             (calculateDeviceAutenticationBytes W ts (docType d) (deviceNameSpaces ds))
             (importCOSEKey W key) = inr true
       | None =>
           exists mac eph macKey,
             deviceMac (deviceAuth ds) = Some mac
             /\ hasSupportedAlg mac = true
             /\ ephemeral = Some eph
             /\ calculateEphemeralMacKey W eph key ts = inr macKey
             /\ deviceMac_verify W mac macKey
                  (calculateDeviceAutenticationBytes W ts (docType d)
                     (deviceNameSpaces ds)) = inr true
       end.

(** The disclosed namespaces of a document, [nameSpaces || {}]. *)
Definition disclosed (s : IssuerSigned) : list (string * list IssuerSignedItem) :=
  match nameSpaces s with Some o => o | None => [] end.

(** Data integrity of one namespace. *)
Definition namespaceChecksHold (W : World) (ia : IssuerAuth) (ns : string)
  (items : list IssuerSignedItem) : Prop :=
  has (valueDigests (decodedPayload ia)) ns = true
  /\ (forall ev, In ev items -> isValid W ev ns ia = true)
  /\ (ns = MDL_NAMESPACE ->
      (exists cert, certificate ia = Some cert /\ issuerName cert <> None)
      /\ (forall ev, In ev items -> elementIdentifier ev = "issuing_country" ->
                     matchCertificate ev ns ia = Some true)
      /\ (forall ev, In ev items -> elementIdentifier ev = "issuing_jurisdiction" ->
                     truthy_opt (stateOrProvince ia) = true ->
                     matchCertificate ev ns ia = Some true)).

Definition dataChecksHold (W : World) (d : IssuerSignedDocument) : Prop :=
  exists s,
    issuerSigned d = Some s
    /\ supportedDigest (digestAlgorithm (decodedPayload (issuerAuth s))) = true
    /\ (forall ns items,
          In ns (Object_keys (disclosed s)) ->
          get (disclosed s) ns = Some items ->
          namespaceChecksHold W (issuerAuth s) ns items).

Definition formatChecksHold (W : World) (dr : MDoc) : Prop :=
  truthy (version dr) = true
  /\ (compareVersions W (version dr) "1.0" >= 0)%Z
  /\ documents dr <> [].

(** Everything [verify] checks holds of the response. *)
Definition responseChecksHold (W : World) (roots : list string) (options : VerifyOptions)
  (dr : MDoc) : Prop :=
  formatChecksHold W dr
  /\ (forall d, In d (documents dr) ->
        (exists s, issuerSigned d = Some s
                   /\ issuerChecksHold W roots (disableCertificateChainValidation options)
                                       (issuerAuth s))
        /\ deviceChecksHold W d (ephemeralReaderKey options)
                            (encodedSessionTranscript options)
        /\ dataChecksHold W d).

Definition passed (a : VerificationAssessment) : Prop := status a = PASSED.

(** A run that returns [a] and delivers PASSED assessments only. *)
Definition accepts {A} (c : Run A) (a : A) : Prop :=
  exists t, c = (t, inr a) /\ Forall passed t.

(** A callback that lets PASSED assessments through, as the default one
    and the collecting ones do. *)
Definition lenient (cb : VerificationCallback) : Prop :=
  forall a, status a = PASSED -> cb a = None.

Definition lenientUser (cb : UserDefinedVerificationCallback) : Prop :=
  forall a original, status a = PASSED -> cb a original = None.

(** A run that, when it returns, has delivered no FAILED assessment. *)
Definition failFast {A} (c : Run A) : Prop :=
  forall t a, c = (t, inr a) -> Forall (fun x => status x <> FAILED) t.

(** A built callback that throws as the default one does, and a user
    callback that does so when handed the default one. *)
Definition actsAsDefault (cb : VerificationCallback) : Prop :=
  forall a, cb a = defaultCallback a.

Definition actsAsDefaultUser (cb : UserDefinedVerificationCallback) : Prop :=
  forall a, cb a defaultCallback = defaultCallback a.

Definition neverReturns {A} (c : Run A) : Prop :=
  forall t a, c <> (t, inr a).

(** The user callback [(item, original) => original(item)]. *)
Definition delegate : UserDefinedVerificationCallback := fun item original => original item.

(** A document the issuer checks can be run on to their end: it is
    issuer-signed, with a leaf certificate and the MSO's [validityInfo], and
    the import of the leaf's key and the COSE verification return. *)
Definition verifiable (W : World) (d : IssuerSignedDocument) : Prop :=
  exists s c vi v,
    issuerSigned d = Some s
    /\ certificate (issuerAuth s) = Some c
    /\ validityInfo (decodedPayload (issuerAuth s)) = Some vi
    /\ signatureVerifies W (issuerAuth s) = inr v.



(** [{ ...options, disableCertificateChainValidation: true }] and
    [{ ...options, ephemeralReaderKey: key }] *)
Definition withoutChainValidation (options : VerifyOptions) : VerifyOptions :=
  {| encodedSessionTranscript := encodedSessionTranscript options;
     ephemeralReaderKey := ephemeralReaderKey options;
     disableCertificateChainValidation := true;
     options_onCheck := options_onCheck options |}.

Definition withEphemeralReaderKey (options : VerifyOptions) (key : option bytes)
  : VerifyOptions :=
  {| encodedSessionTranscript := encodedSessionTranscript options;
     ephemeralReaderKey := key;
     disableCertificateChainValidation := disableCertificateChainValidation options;
     options_onCheck := options_onCheck options |}.

(** * Properties *)

(** ** Runs *)

Lemma bind_returns_inv {A B} (c : Run A) (k : A -> Run B) t b :
  bind c k = (t, inr b) ->
  exists t1 a t2, c = (t1, inr a) /\ k a = (t2, inr b) /\ t = t1 ++ t2.
Proof.
  destruct c as [t1 [e | a]]; simpl; intros Hb; [discriminate|].
  destruct (k a) as [t2 r] eqn:Hk.
  inversion Hb; subst. exists t1, a, t2. auto.
Qed.

Lemma bind_returned {A B} (c : Run A) (k : A -> Run B) t a :
  c = (t, inr a) -> bind c k = (t ++ trace (k a), outcome (k a)).
Proof. intros ->. simpl. destruct (k a); reflexivity. Qed.

Lemma bind_thrown {A B} (c : Run A) (k : A -> Run B) t e :
  c = (t, inl e) -> bind c k = (t, inl e).
Proof. intros ->. reflexivity. Qed.

Lemma bind_ret {A B} (a : A) (k : A -> Run B) : bind (ret a) k = k a.
Proof. unfold bind, ret. destruct (k a); reflexivity. Qed.

Lemma bind_lift_inr {A B} (a : A) (k : A -> Run B) : bind (lift (inr a)) k = k a.
Proof. exact (bind_ret a k). Qed.

Lemma bind_lift_inl {A B} (e : JsError) (k : A -> Run B) :
  bind (lift (inl e)) k = ([], inl e).
Proof. reflexivity. Qed.

Lemma trace_bind_l {A B} (c : Run A) (k : A -> Run B) :
  incl (trace c) (trace (bind c k)).
Proof.
  destruct c as [t [e | a]]; simpl.
  - apply incl_refl.
  - destruct (k a); simpl. apply incl_appl, incl_refl.
Qed.

Lemma trace_bind_r {A B} (c : Run A) (k : A -> Run B) a :
  outcome c = inr a -> incl (trace (k a)) (trace (bind c k)).
Proof.
  destruct c as [t [e | a']]; simpl; intros Ho; inversion Ho; subst.
  destruct (k a); simpl. apply incl_appr, incl_refl.
Qed.

Lemma Forall_trace_bind {A B} (P : VerificationAssessment -> Prop)
  (c : Run A) (k : A -> Run B) :
  Forall P (trace c) -> (forall a, Forall P (trace (k a))) ->
  Forall P (trace (bind c k)).
Proof.
  intros Hc Hk. destruct c as [t [e | a]]; simpl in *; auto.
  specialize (Hk a). destruct (k a); simpl in *. apply Forall_app; auto.
Qed.

Lemma Forall_trace_tryCatch {A} (P : VerificationAssessment -> Prop)
  (body : Run A) (handler : JsError -> Run A) :
  Forall P (trace body) -> (forall e, Forall P (trace (handler e))) ->
  Forall P (trace (tryCatch body handler)).
Proof.
  intros Hc Hk. destruct body as [t [e | a]]; simpl in *; auto.
  specialize (Hk e). destruct (handler e); simpl in *. apply Forall_app; auto.
Qed.

Lemma Forall_trace_forEach {A} (P : VerificationAssessment -> Prop)
  (f : A -> Run unit) (l : list A) :
  (forall x, Forall P (trace (f x))) -> Forall P (trace (forEach f l)).
Proof.
  intros Hf. induction l as [| x l IH]; simpl.
  - constructor.
  - apply Forall_trace_bind; auto.
Qed.

Lemma Forall_concat_map {A} (P : VerificationAssessment -> Prop)
  (f : A -> list VerificationAssessment) (l : list A) :
  (forall x, In x l -> Forall P (f x)) -> Forall P (List.concat (map f l)).
Proof.
  induction l as [| x l IH]; simpl; intros Hf.
  - constructor.
  - apply Forall_app; split; auto.
Qed.

Lemma settle_insertAt_perm {A} (n : nat) (x : A) (l : list A) :
  Permutation (insertAt n x l) (x :: l).
Proof.
  revert l. induction n as [| n IH]; intros [| y l]; simpl; auto.
  rewrite IH. apply perm_swap.
Qed.

Lemma settle_perm {A} (order : list nat) (l : list A) :
  Permutation (settle order l) l.
Proof.
  revert order. induction l as [| x l IH]; intros order; simpl; auto.
  rewrite settle_insertAt_perm. constructor. apply IH.
Qed.

Lemma insertAt_length {A} (x : A) (a b : list A) :
  insertAt (List.length a) x (a ++ b) = a ++ x :: b.
Proof.
  induction a as [| y a IH]; simpl.
  - destruct b; reflexivity.
  - rewrite IH. reflexivity.
Qed.

(** Every order of settling is the one of some code. *)
Lemma settle_complete {A} (l l' : list A) :
  Permutation l l' -> exists order, settle order l = l'.
Proof.
  revert l'. induction l as [| x l IH]; intros l' Hperm.
  - apply Permutation_nil in Hperm. subst. exists []. reflexivity.
  - assert (Hin : In x l') by (apply (Permutation_in _ Hperm); left; reflexivity).
    apply in_split in Hin. destruct Hin as (a & b & ->).
    apply Permutation_cons_app_inv in Hperm.
    destruct (IH (a ++ b) Hperm) as (order & Horder).
    exists (List.length a :: order). simpl. rewrite Horder.
    apply insertAt_length.
Qed.

Lemma Forall_trace_awaitAll (P : VerificationAssessment -> Prop)
  (order : list nat) (tasks : list AsyncTask) :
  (forall t, In t tasks -> Forall P (trace (task_head t))) ->
  (forall t, In t tasks -> Forall P (trace (task_tail t))) ->
  Forall P (trace (awaitAll order tasks)).
Proof.
  intros Hh Ht. unfold awaitAll, trace at 1. simpl.
  rewrite map_app, concat_app. apply Forall_app; split.
  - rewrite map_map. apply Forall_concat_map. auto.
  - rewrite map_map. apply Forall_concat_map. intros t Hin.
    apply Ht.
    apply (Permutation_in _ (settle_perm order _)) in Hin.
    apply filter_In in Hin. tauto.
Qed.

(** ** Callbacks *)

Lemma collect_quiet : quiet collect.
Proof. intros a o. reflexivity. Qed.


Lemma Forall_trace_call (P : VerificationAssessment -> Prop)
  (cb : UserDefinedVerificationCallback) (c : Category) (item : Check) :
  P (withCategory c item) -> Forall P (trace (call cb c item)).
Proof. intros Hp. unfold call, trace. simpl. auto. Qed.

Lemma Forall_trace_deliver (P : VerificationAssessment -> Prop)
  (cb : VerificationCallback) (a : VerificationAssessment) :
  P a -> Forall P (trace (deliver cb a)).
Proof. intros Hp. unfold deliver, trace. simpl. auto. Qed.

Lemma defaultCallback_failed (a : VerificationAssessment) :
  status a = FAILED -> defaultCallback a = Some (MDLError (reasonOrCheck a)).
Proof. unfold defaultCallback. intros ->. reflexivity. Qed.

Lemma defaultCallback_not_failed (a : VerificationAssessment) :
  status a <> FAILED -> defaultCallback a = None.
Proof. unfold defaultCallback. destruct (status a); congruence. Qed.

Lemma buildCallback_user (cb : UserDefinedVerificationCallback) (a : VerificationAssessment) :
  buildCallback (Some cb) a = cb a defaultCallback.
Proof. reflexivity. Qed.

(** ** MDoc.addDocument *)

Lemma addDocument_keeps_signed (m : MDoc) (d : IssuerSignedDocument) :
  Forall (fun x => issuerSigned x <> None) (documents m) ->
  Forall (fun x => issuerSigned x <> None) (documents (fst (addDocument m d))).
Proof.
  intros Hm. unfold addDocument.
  destruct (issuerSigned d) eqn:Hd; simpl; auto.
  apply Forall_app; split; auto.
  constructor; [congruence | constructor].
Qed.

(** C10.  [addDocument] throws [Error('Cannot add an unsigned document')] and
    leaves the object as it was when the argument has no [issuerSigned];
    otherwise it appends that document at the end of [documents] and leaves
    [version], [status] and [documentErrors] alone.  Hence every document of
    an [MDoc] built from [new MDoc()] through [addDocument] has its
    [issuerSigned]. *)
Theorem addDocument_rejects_unsigned (m : MDoc) (d : IssuerSignedDocument) :
  (issuerSigned d = None ->
   addDocument m d = (m, inl (Error "Cannot add an unsigned document")))
  /\ (issuerSigned d <> None ->
      snd (addDocument m d) = inr tt
      /\ documents (fst (addDocument m d)) = documents m ++ [d]
      /\ version (fst (addDocument m d)) = version m
      /\ mdoc_status (fst (addDocument m d)) = mdoc_status m
      /\ documentErrors (fst (addDocument m d)) = documentErrors m)
  /\ (builtThroughAddDocument m ->
      Forall (fun x => issuerSigned x <> None) (documents m)).
Proof.
  split; [| split].
  - intros Hd. unfold addDocument. rewrite Hd. reflexivity.
  - intros Hd. unfold addDocument.
    destruct (issuerSigned d); [simpl; auto | congruence].
  - intros Hb. clear d. induction Hb as [| m d Hb IH].
    + constructor.
    + apply addDocument_keeps_signed, IH.
Qed.

Lemma addDocument_rejects_unsigned_witness :
  let unsigned := {| docType := "org.iso.18013.5.1.mDL"; issuerSigned := None;
                     deviceSigned := None |} in
  let m := fst (addDocument newMDoc Bench.docS1) in
  addDocument m unsigned = (m, inl (Error "Cannot add an unsigned document"))
  /\ documents (fst (addDocument m Bench.docS1)) = [Bench.docS1; Bench.docS1]
  /\ Forall (fun x => issuerSigned x <> None) (documents m).
Proof.
  intros unsigned m.
  destruct (addDocument_rejects_unsigned m unsigned) as [Hthrow _].
  destruct (addDocument_rejects_unsigned m Bench.docS1) as [_ [Happend Hbuilt]].
  split; [| split].
  - apply Hthrow. reflexivity.
  - apply Happend. discriminate.
  - apply Hbuilt. apply built_add. apply built_new.
Defined.

(** ** The shape of [verify] *)

Lemma forEach_app_incl {A} (f : A -> Run unit) (pre l : list A) :
  outcome (forEach f pre) = inr tt ->
  incl (trace (forEach f l)) (trace (forEach f (pre ++ l))).
Proof.
  induction pre as [| x pre IH]; simpl; intros Hpre.
  - apply incl_refl.
  - destruct (f x) as [t [e | []]] eqn:Hf; simpl in Hpre; [discriminate|].
    destruct (forEach f pre) as [t' r'] eqn:Hp. simpl in Hpre. subst r'.
    specialize (IH eq_refl).
    simpl. destruct (forEach f (pre ++ l)) as [t'' r'']. simpl in *.
    apply incl_appr, IH.
Qed.

Lemma forEach_cons_incl {A} (f : A -> Run unit) (x : A) (l : list A) :
  incl (trace (f x)) (trace (forEach f (x :: l))).
Proof. simpl. apply trace_bind_l. Qed.

Lemma verify_parsed (W : World) (roots : list string) (b : bytes)
  (options : VerifyOptions) (dr : MDoc) :
  outcome (verify W roots b options) = inr dr -> parse W b = inr dr.
Proof.
  unfold verify, lift. destruct (parse W b) as [e | dr']; simpl; [discriminate|].
  destruct (verifyFormat W _ dr') as [t [e | []]]; simpl; [discriminate|].
  destruct (verifyDocuments W roots options _ (documents dr')) as [t' [e | []]];
    simpl; [discriminate|].
  intros Hr. inversion Hr. reflexivity.
Qed.

Lemma verify_trace_document (W : World) (roots : list string) (b : bytes)
  (options : VerifyOptions) (dr : MDoc) (pre post : list IssuerSignedDocument)
  (d : IssuerSignedDocument) :
  parse W b = inr dr ->
  documents dr = pre ++ d :: post ->
  outcome (verifyFormat W (buildCallback (options_onCheck options)) dr) = inr tt ->
  outcome (verifyDocuments W roots options (buildCallback (options_onCheck options)) pre)
    = inr tt ->
  incl (trace (verifyDocument W roots options (buildCallback (options_onCheck options)) d))
       (trace (verify W roots b options)).
Proof.
  intros Hparse Hdocs Hformat Hpre.
  unfold verify. rewrite Hparse. unfold lift.
  eapply incl_tran; [| apply (trace_bind_r ([], inr dr) _ dr eq_refl)].
  eapply incl_tran; [| apply (trace_bind_r _ _ _ Hformat)].
  eapply incl_tran; [| apply trace_bind_l].
  rewrite Hdocs. unfold verifyDocuments in *.
  eapply incl_tran; [| apply (forEach_app_incl _ _ _ Hpre)].
  apply forEach_cons_incl.
Qed.

Lemma verifyDocument_issuer_incl (W : World) (roots : list string)
  (options : VerifyOptions) (cb : VerificationCallback)
  (d : IssuerSignedDocument) (s : IssuerSigned) :
  issuerSigned d = Some s ->
  incl (trace (verifyIssuerSignature W roots (issuerAuth s)
                 (disableCertificateChainValidation options) (asUserDefined cb)))
       (trace (verifyDocument W roots options cb d)).
Proof.
  intros Hs. unfold verifyDocument. rewrite Hs.
  eapply incl_tran; [| apply (trace_bind_r (ret (issuerAuth s)) _ _ eq_refl)].
  apply trace_bind_l.
Qed.

Lemma verifyDocument_device_incl (W : World) (roots : list string)
  (options : VerifyOptions) (cb : VerificationCallback)
  (d : IssuerSignedDocument) (s : IssuerSigned) :
  issuerSigned d = Some s ->
  outcome (verifyIssuerSignature W roots (issuerAuth s)
             (disableCertificateChainValidation options) (asUserDefined cb)) = inr tt ->
  incl (trace (verifyDeviceSignature W d
                 {| ephemeralPrivateKey := ephemeralReaderKey options;
                    sessionTranscriptBytes := encodedSessionTranscript options;
                    onCheck := asUserDefined cb |}))
       (trace (verifyDocument W roots options cb d)).
Proof.
  intros Hs Hissuer. unfold verifyDocument. rewrite Hs.
  eapply incl_tran; [| apply (trace_bind_r (ret (issuerAuth s)) _ _ eq_refl)].
  eapply incl_tran; [| apply (trace_bind_r _ _ _ Hissuer)].
  apply trace_bind_l.
Qed.

Lemma verifyDocument_data_incl (W : World) (roots : list string)
  (options : VerifyOptions) (cb : VerificationCallback)
  (d : IssuerSignedDocument) (s : IssuerSigned) :
  issuerSigned d = Some s ->
  outcome (verifyIssuerSignature W roots (issuerAuth s)
             (disableCertificateChainValidation options) (asUserDefined cb)) = inr tt ->
  outcome (verifyDeviceSignature W d
             {| ephemeralPrivateKey := ephemeralReaderKey options;
                sessionTranscriptBytes := encodedSessionTranscript options;
                onCheck := asUserDefined cb |}) = inr tt ->
  incl (trace (verifyData W d (asUserDefined cb)))
       (trace (verifyDocument W roots options cb d)).
Proof.
  intros Hs Hissuer Hdevice. unfold verifyDocument. rewrite Hs.
  eapply incl_tran; [| apply (trace_bind_r (ret (issuerAuth s)) _ _ eq_refl)].
  eapply incl_tran; [| apply (trace_bind_r _ _ _ Hissuer)].
  apply (trace_bind_r _ (fun _ => verifyData W d (asUserDefined cb)) _ Hdevice).
Qed.

Lemma verify_reaches_incl (W : World) (roots : list string) (b : bytes)
  (options : VerifyOptions) (dr : MDoc) (d : IssuerSignedDocument) :
  parse W b = inr dr ->
  reaches W roots options dr d ->
  incl (trace (verifyDocument W roots options (buildCallback (options_onCheck options)) d))
       (trace (verify W roots b options)).
Proof.
  intros Hparse (pre & post & Hdocs & Hformat & Hpre).
  eapply verify_trace_document; eauto.
Qed.

(** ** Issuer authentication *)

(** What a run delivers first when it begins with a call of the callback. *)
Lemma trace_call_first {B} (P : VerificationAssessment -> Prop)
  (cb : UserDefinedVerificationCallback) (c : Category) (item : Check)
  (k : unit -> Run B) :
  (forall u, Forall P (trace (k u))) ->
  exists rest,
    trace (bind (call cb c item) k) = withCategory c item :: rest /\ Forall P rest.
Proof.
  intros Hk. unfold call, bind. destruct (onCatCheck cb c item) as [e |].
  - exists []. split; [reflexivity | constructor].
  - specialize (Hk tt). destruct (k tt) as [t r]. exists t. split; [reflexivity | exact Hk].
Qed.

Ltac trace_all :=
  repeat first
    [ apply Forall_trace_call
    | apply Forall_trace_deliver
    | apply Forall_trace_bind; [| intros ?]
    | apply Forall_trace_tryCatch; [| intros ?]
    | apply Forall_trace_forEach; intros ?
    | exact (Forall_nil _)
    | match goal with
      | |- Forall _ (trace (match ?x with _ => _ end)) => destruct x
      | |- Forall _ (trace (if ?x then _ else _)) => destruct x
      end ].

(** Runs a sequence of calls of a callback that does not throw. *)
Ltac run_quiet Hq :=
  repeat progress
    (cbv beta iota zeta
         delta [bind call onCatCheck tryCatch lift ret throw fst snd trace outcome app];
     try rewrite !(Hq _ _)).

Ltac differ := let H := fresh in intro H; vm_compute in H; discriminate H.

Lemma signatureVerifies_returned (W : World) (ia : IssuerAuth) (c : Certificate)
  (v : bool) :
  certificate ia = Some c ->
  signatureVerifies W ia = inr v ->
  exists key, importX509 W (pem c) (algName ia) = inr key
              /\ issuerAuth_verify W ia key = inr v.
Proof.
  unfold signatureVerifies. intros -> Hsig.
  destruct (importX509 W (pem c) (algName ia)) as [e | key]; [discriminate |].
  exists key. split; [reflexivity | exact Hsig].
Qed.

Lemma verifyIssuerSignature_quiet (W : World) (roots : list string) (ia : IssuerAuth)
  (disable : bool) (cb : UserDefinedVerificationCallback)
  (c : Certificate) (vi : ValidityInfo) (v : bool) :
  quiet cb ->
  certificate ia = Some c ->
  validityInfo (decodedPayload ia) = Some vi ->
  signatureVerifies W ia = inr v ->
  verifyIssuerSignature W roots ia disable cb =
    ((if disable then [] else [certificateAssessment W roots ia]) ++
     [ assessment (statusOf v) ISSUER_AUTH CHECK_SIGNATURE None;
       signedDateAssessment W c vi;
       assessment (if outsideValidity W vi then FAILED else PASSED) ISSUER_AUTH
         CHECK_MSO_VALID
         (Some ("The MSO must be valid at the time of verification ("
                ++ toUTCString W (now W) ++ ")")%string);
       assessment (statusOf (truthy_opt (countryName ia))) ISSUER_AUTH
         CHECK_COUNTRY_PRESENT None ], inr tt).
Proof.
  intros Hq Hc Hvi Hsig.
  destruct (signatureVerifies_returned W ia c v Hc Hsig) as (key & Hkey & Hverify).
  unfold verifyIssuerSignature, outsideValidity, certificateAssessment,
    signedDateAssessment.
  rewrite Hc, Hvi, Hkey.
  destruct disable; cbv beta iota zeta delta [negb].
  - run_quiet Hq. rewrite Hverify. run_quiet Hq. reflexivity.
  - destruct (verifyX509Chain W ia roots) as [e | []]; run_quiet Hq;
      rewrite Hverify; run_quiet Hq; reflexivity.
Qed.

(** Supporting C3: with a leaf certificate whose key is imported, a
    signature primitive that returns, [validityInfo] with valid dates, and a
    callback that does not throw, exactly one assessment carries the check
    text, and it is FAILED exactly when the current time is outside the
    validity window. *)
Lemma verifyIssuerSignature_validity_window (W : World) (roots : list string)
  (ia : IssuerAuth) (disable : bool) (cb : UserDefinedVerificationCallback)
  (c : Certificate) (vi : ValidityInfo) (v : bool) (from until : Z) :
  quiet cb ->
  certificate ia = Some c ->
  validityInfo (decodedPayload ia) = Some vi ->
  signatureVerifies W ia = inr v ->
  validFrom vi = ValidDate from ->
  validUntil vi = ValidDate until ->
  exists a,
    filter (hasCheck CHECK_MSO_VALID) (trace (verifyIssuerSignature W roots ia disable cb))
      = [a]
    /\ category a = ISSUER_AUTH
    /\ (status a = FAILED <-> (now W < from \/ until < now W)%Z).
Proof.
  intros Hq Hc Hvi Hsig Hfrom Hto.
  rewrite (verifyIssuerSignature_quiet W roots ia disable cb c vi v Hq Hc Hvi Hsig).
  eexists. split; [| split].
  - unfold certificateAssessment.
    destruct disable; [| destruct (verifyX509Chain W ia roots)]; reflexivity.
  - reflexivity.
  - simpl. unfold outsideValidity. rewrite Hfrom, Hto. cbn [Date_lt Date_gt].
    destruct (now W <? from)%Z eqn:H1; destruct (now W >? until)%Z eqn:H2;
      simpl; split; intros H; try discriminate; auto;
      try (apply Z.ltb_lt in H1); try (apply Z.ltb_ge in H1);
      try (apply Z.gtb_lt in H2); try (rewrite Z.gtb_ltb in H2; apply Z.ltb_ge in H2);
      try lia.
Qed.

Lemma verifyIssuerSignature_validity_window_witness :
  exists a,
    filter (hasCheck CHECK_MSO_VALID)
           (trace (verifyIssuerSignature Bench.W Bench.roots (Bench.auth (Some [Bench.leaf]) 2020)
                     true collect)) = [a]
    /\ category a = ISSUER_AUTH
    /\ (status a = FAILED <-> (5000 < 2000 \/ 2020 < 5000)%Z).
Proof.
  apply (verifyIssuerSignature_validity_window Bench.W Bench.roots
           (Bench.auth (Some [Bench.leaf]) 2020) true collect Bench.leaf
           {| signed := ValidDate 2000; validFrom := ValidDate 2000;
              validUntil := ValidDate 2020; expectedUpdate := None |}
           true 2000 2020).
  - exact collect_quiet.
  - reflexivity.
  - reflexivity.
  - reflexivity.
  - reflexivity.
  - reflexivity.
Defined.

(** Without a leaf certificate the reason of the signed-date check cannot be
    built: the run ends with a [TypeError] before the validity window is
    looked at. *)
Lemma verifyIssuerSignature_without_certificate (W : World) (roots : list string)
  (ia : IssuerAuth) (disable : bool) (cb : UserDefinedVerificationCallback) :
  quiet cb ->
  certificate ia = None ->
  (exists e, outcome (verifyIssuerSignature W roots ia disable cb) = inl (TypeError e))
  /\ filter (hasCheck CHECK_MSO_VALID) (trace (verifyIssuerSignature W roots ia disable cb))
     = [].
Proof.
  intros Hq Hc. unfold verifyIssuerSignature. rewrite Hc.
  assert (Hx : verifyX509Chain W ia roots = inl (Error "No x5chain found in the issuerAuth")).
  { unfold verifyX509Chain. unfold certificate in Hc.
    destruct (x5chain ia) as [[| ? ?] |]; congruence. }
  rewrite Hx.
  destruct disable; destruct (validityInfo (decodedPayload ia));
    cbv beta iota zeta delta [negb]; run_quiet Hq;
    (split; [eexists; reflexivity | reflexivity]).
Qed.

(** C3.  A document whose issuerAuth has no [x5chain], its MSO valid until
    8000 at time 5000, and a collecting callback: [verifyIssuerSignature]
    ends with a [TypeError] and delivers no assessment with the check 'The
    MSO must be valid at the time of verification', where the specification has
    exactly one. *)
Theorem verifyIssuerSignature_crashes_without_certificate :
  let ia := Bench.auth None 8000 in
  let run := verifyIssuerSignature Bench.W Bench.roots ia false collect in
  x5chain ia = None
  /\ outcome run
     = inl (TypeError "Cannot read properties of undefined (reading 'notBefore')")
  /\ trace run
     = [ assessment FAILED ISSUER_AUTH CHECK_CERTIFICATE
           (Some "No x5chain found in the issuerAuth");
         assessment FAILED ISSUER_AUTH CHECK_SIGNATURE None ]
  /\ filter (hasCheck CHECK_MSO_VALID) (trace run) = [].
Proof. vm_compute. repeat split. Qed.

(** *** No chain validation when it is disabled *)

Lemma verifyIssuerSignature_disabled_no_certificate_check (W : World)
  (roots : list string) (ia : IssuerAuth) (cb : UserDefinedVerificationCallback) :
  Forall notCertificateCheck (trace (verifyIssuerSignature W roots ia true cb)).
Proof.
  unfold verifyIssuerSignature. cbv beta iota zeta delta [negb].
  trace_all; differ.
Qed.

Lemma verifyDeviceSignature_no_certificate_check (W : World)
  (d : IssuerSignedDocument) (o : DeviceSignatureOptions) :
  Forall notCertificateCheck (trace (verifyDeviceSignature W d o)).
Proof.
  unfold verifyDeviceSignature. cbv beta iota zeta.
  trace_all; differ.
Qed.

Lemma verifyData_no_certificate_check (W : World)
  (d : IssuerSignedDocument) (cb : UserDefinedVerificationCallback) :
  Forall notCertificateCheck (trace (verifyData W d cb)).
Proof.
  unfold verifyData. cbv beta iota zeta.
  destruct (issuerSigned d) as [s |]; [| exact (Forall_nil _)].
  apply Forall_trace_bind; [trace_all; differ | intros _].
  apply Forall_trace_awaitAll; intros t Hin;
    apply in_map_iff in Hin; destruct Hin as (ns & <- & _);
    unfold namespaceTask; cbv beta iota zeta;
    destruct (get _ ns); cbn [task_head task_tail];
    trace_all; differ.
Qed.

Lemma verify_disabled_no_certificate_check (W : World) (roots : list string)
  (b : bytes) (options : VerifyOptions) :
  disableCertificateChainValidation options = true ->
  Forall notCertificateCheck (trace (verify W roots b options)).
Proof.
  intros Hd. unfold verify, verifyFormat, verifyDocuments, verifyDocument.
  rewrite Hd. cbv beta iota zeta.
  trace_all;
    try apply verifyIssuerSignature_disabled_no_certificate_check;
    try apply verifyDeviceSignature_no_certificate_check;
    try apply verifyData_no_certificate_check;
    differ.
Qed.

(** With the chain validation disabled the signature assessment is the
    first thing the issuer step delivers, and nothing it delivers after it
    carries the same check; when the key import or the signature primitive
    throws, the step ends with that exception and has delivered nothing. *)
Lemma verifyIssuerSignature_disabled_run (W : World) (roots : list string)
  (ia : IssuerAuth) (cb : UserDefinedVerificationCallback) :
  (forall v, signatureVerifies W ia = inr v ->
     exists rest,
       trace (verifyIssuerSignature W roots ia true cb)
         = assessment (statusOf v) ISSUER_AUTH CHECK_SIGNATURE None :: rest
       /\ Forall (fun a => check a <> CHECK_SIGNATURE) rest)
  /\ (forall e, signatureVerifies W ia = inl e ->
        verifyIssuerSignature W roots ia true cb = ([], inl e)).
Proof.
  unfold verifyIssuerSignature, signatureVerifies. cbv beta iota zeta delta [negb].
  split.
  - intros v Hsig. destruct (certificate ia) as [c |].
    + destruct (importX509 W (pem c) (algName ia)) as [e | key]; [discriminate |].
      rewrite bind_lift_inr, bind_ret. cbv beta iota. rewrite bind_ret, Hsig, bind_lift_inr.
      apply trace_call_first. intros _. trace_all; differ.
    + inversion Hsig. subst v. rewrite bind_ret. cbv beta iota. rewrite !bind_ret.
      apply trace_call_first. intros _. trace_all; differ.
  - intros e Hsig. destruct (certificate ia) as [c |]; [| discriminate].
    destruct (importX509 W (pem c) (algName ia)) as [e' | key].
    + inversion Hsig. reflexivity.
    + rewrite bind_lift_inr, bind_ret. cbv beta. rewrite bind_ret, Hsig. reflexivity.
Qed.

(** Only the issuer step delivers the check 'Issuer signature must be
    valid'. *)
Ltac issuer_only :=
  cbv beta; cbn [check category withCategory c_check];
  let H := fresh in
  intros H; first [reflexivity | exfalso; vm_compute in H; discriminate H].

Lemma verify_signature_check_category (W : World) (roots : list string) (b : bytes)
  (options : VerifyOptions) :
  Forall (fun a => check a = CHECK_SIGNATURE -> category a = ISSUER_AUTH)
         (trace (verify W roots b options)).
Proof.
  assert (Hissuer : forall ia disable cb,
            Forall (fun a => check a = CHECK_SIGNATURE -> category a = ISSUER_AUTH)
                   (trace (verifyIssuerSignature W roots ia disable cb))).
  { intros ia disable cb. unfold verifyIssuerSignature. cbv beta iota zeta.
    trace_all; issuer_only. }
  assert (Hdevice : forall d o,
            Forall (fun a => check a = CHECK_SIGNATURE -> category a = ISSUER_AUTH)
                   (trace (verifyDeviceSignature W d o))).
  { intros d o. unfold verifyDeviceSignature. cbv beta iota zeta.
    trace_all; issuer_only. }
  assert (Hdata : forall d cb,
            Forall (fun a => check a = CHECK_SIGNATURE -> category a = ISSUER_AUTH)
                   (trace (verifyData W d cb))).
  { intros d cb. unfold verifyData. cbv beta iota zeta.
    destruct (issuerSigned d) as [s |]; [| exact (Forall_nil _)].
    apply Forall_trace_bind; [trace_all; issuer_only | intros _].
    apply Forall_trace_awaitAll; intros t Hin;
      apply in_map_iff in Hin; destruct Hin as (ns & <- & _);
      unfold namespaceTask; cbv beta iota zeta;
      destruct (get _ ns); cbn [task_head task_tail];
      trace_all; issuer_only. }
  unfold verify, verifyFormat, verifyDocuments, verifyDocument. cbv beta iota zeta.
  trace_all; try apply Hissuer; try apply Hdevice; try apply Hdata; issuer_only.
Qed.

(** C8, as the code has it.  With [disableCertificateChainValidation] set,
    no assessment of [verify] carries the check 'Issuer certificate must be
    valid', whatever the input and the callback.  For every document the
    loop reaches, what the issuer step delivers is part of what [verify]
    delivers; when the import of the leaf's key and the COSE verification
    return, the step delivers the ISSUER_AUTH assessment 'Issuer signature
    must be valid' first, with the status the verification gave (FAILED
    without a leaf), and no other assessment with that check; when one of
    them throws, the step ends with that exception and delivers nothing.
    No other step delivers an assessment with that check. *)
Theorem disabled_chain_validation_keeps_signature_check (W : World)
  (roots : list string) (b : bytes) (options : VerifyOptions) :
  disableCertificateChainValidation options = true ->
  (forall a, In a (trace (verify W roots b options)) -> check a <> CHECK_CERTIFICATE)
  /\ (forall a, In a (trace (verify W roots b options)) ->
                check a = CHECK_SIGNATURE -> category a = ISSUER_AUTH)
  /\ (forall dr d s,
        parse W b = inr dr ->
        reaches W roots options dr d ->
        issuerSigned d = Some s ->
        let run :=
          verifyIssuerSignature W roots (issuerAuth s) true
            (asUserDefined (buildCallback (options_onCheck options))) in
        incl (trace run) (trace (verify W roots b options))
        /\ (forall v, signatureVerifies W (issuerAuth s) = inr v ->
              exists rest,
                trace run = assessment (statusOf v) ISSUER_AUTH CHECK_SIGNATURE None :: rest
                /\ Forall (fun a => check a <> CHECK_SIGNATURE) rest)
        /\ (forall e, signatureVerifies W (issuerAuth s) = inl e -> run = ([], inl e))).
Proof.
  intros Hd. split; [| split].
  - intros a Hin.
    pose proof (verify_disabled_no_certificate_check W roots b options Hd) as Hall.
    rewrite Forall_forall in Hall. exact (Hall a Hin).
  - intros a Hin.
    pose proof (verify_signature_check_category W roots b options) as Hall.
    rewrite Forall_forall in Hall. exact (Hall a Hin).
  - intros dr d s Hparse Hreach Hs run. split.
    + eapply incl_tran; [| apply (verify_reaches_incl W roots b options dr d Hparse Hreach)].
      pose proof (verifyDocument_issuer_incl W roots options
                    (buildCallback (options_onCheck options)) d s Hs) as Hincl.
      rewrite Hd in Hincl. exact Hincl.
    + apply verifyIssuerSignature_disabled_run.
Qed.

Lemma disabled_chain_validation_keeps_signature_check_witness :
  let options := Bench.options (Some collect) true None in
  (forall a, In a (trace (verify Bench.W Bench.roots [x01] options)) ->
             check a <> CHECK_CERTIFICATE)
  /\ exists rest,
       trace (verifyIssuerSignature Bench.W Bench.roots Bench.goodAuth true
                (asUserDefined (buildCallback (Some collect))))
         = assessment PASSED ISSUER_AUTH CHECK_SIGNATURE None :: rest
       /\ Forall (fun a => check a <> CHECK_SIGNATURE) rest.
Proof.
  intros options.
  destruct (disabled_chain_validation_keeps_signature_check
              Bench.W Bench.roots [x01] options eq_refl) as (Hnone & _ & Hsig).
  split; [exact Hnone |].
  destruct (Hsig (Bench.response [Bench.docS1]) Bench.docS1
                 (Bench.signedBy Bench.goodAuth Bench.goodItems))
    as (_ & Hfirst & _).
  - reflexivity.
  - exists [], []. repeat split.
  - reflexivity.
  - apply (Hfirst true). reflexivity.
Defined.

(** C8 as stated fails: the document of this response is the first one the
    loop gets to and chain validation is disabled, but the import of the
    leaf's key throws: [verify] ends with that exception and no assessment
    'Issuer signature must be valid' is delivered. *)
Lemma signature_unchecked_when_key_import_throws :
  let options := Bench.options (Some collect) true None in
  let run := verify Bench.WithoutKeyImport Bench.roots [x01] options in
  disableCertificateChainValidation options = true
  /\ parse Bench.WithoutKeyImport [x01] = inr (Bench.response [Bench.docS1])
  /\ reaches Bench.WithoutKeyImport Bench.roots options (Bench.response [Bench.docS1])
             Bench.docS1
  /\ outcome run = inl (Error "Invalid or unsupported alg value")
  /\ ~ (exists a, In a (trace run) /\ check a = CHECK_SIGNATURE).
Proof.
  intros options run. split; [reflexivity | split; [reflexivity | split; [| split]]].
  - exists [], []. repeat split.
  - reflexivity.
  - intros (a & Hin & Hcheck). vm_compute in Hin.
    repeat (destruct Hin as [<- | Hin]; [discriminate Hcheck |]). destruct Hin.
Qed.

(** *** A missing leaf certificate *)

Lemma verifyIssuerSignature_missing_leaf (W : World) (roots : list string)
  (ia : IssuerAuth) (cb : UserDefinedVerificationCallback) :
  certificate ia = None ->
  In (assessment FAILED ISSUER_AUTH CHECK_CERTIFICATE
        (Some "No x5chain found in the issuerAuth"))
     (trace (verifyIssuerSignature W roots ia false cb)).
Proof.
  intros Hc. unfold verifyIssuerSignature. rewrite Hc.
  cbv beta iota zeta delta [negb]. rewrite bind_ret. cbv beta iota.
  apply trace_bind_l.
  assert (Hx : verifyX509Chain W ia roots = inl (Error "No x5chain found in the issuerAuth")).
  { unfold verifyX509Chain. unfold certificate in Hc.
    destruct (x5chain ia) as [[| ? ?] |]; congruence. }
  rewrite Hx. left. reflexivity.
Qed.

(** C5, as the code has it.  For every document the loop of [verify]
    reaches whose issuerAuth has no leaf certificate ([x5chain] absent or
    empty), and unless [disableCertificateChainValidation] is set, [verify]
    delivers a FAILED ISSUER_AUTH assessment with the check 'Issuer
    certificate must be valid'. *)
Theorem missing_leaf_reported_unless_disabled (W : World) (roots : list string)
  (b : bytes) (options : VerifyOptions) (dr : MDoc) (d : IssuerSignedDocument)
  (s : IssuerSigned) :
  parse W b = inr dr ->
  reaches W roots options dr d ->
  issuerSigned d = Some s ->
  x5chain (issuerAuth s) = None \/ x5chain (issuerAuth s) = Some [] ->
  disableCertificateChainValidation options = false ->
  exists a,
    In a (trace (verify W roots b options))
    /\ status a = FAILED /\ category a = ISSUER_AUTH /\ check a = CHECK_CERTIFICATE.
Proof.
  intros Hparse Hreach Hs Hchain Hd.
  assert (Hc : certificate (issuerAuth s) = None).
  { unfold certificate. destruct Hchain as [-> | ->]; reflexivity. }
  exists (assessment FAILED ISSUER_AUTH CHECK_CERTIFICATE
            (Some "No x5chain found in the issuerAuth")).
  split; [| repeat split].
  apply (verify_reaches_incl W roots b options dr d Hparse Hreach).
  apply (verifyDocument_issuer_incl W roots options _ d s Hs).
  rewrite Hd. apply (verifyIssuerSignature_missing_leaf W roots _ _ Hc).
Qed.

Lemma missing_leaf_reported_unless_disabled_witness :
  exists a,
    In a (trace (verify Bench.W Bench.roots [x06] (Bench.options None false None)))
    /\ status a = FAILED /\ category a = ISSUER_AUTH /\ check a = CHECK_CERTIFICATE.
Proof.
  apply (missing_leaf_reported_unless_disabled Bench.W Bench.roots [x06]
           (Bench.options None false None)
           (Bench.response [Bench.docNoCertificate]) Bench.docNoCertificate
           (Bench.signedBy (Bench.auth None 8000) Bench.goodItems)).
  - reflexivity.
  - exists [], []. repeat split.
  - reflexivity.
  - left. reflexivity.
  - reflexivity.
Defined.

(** C5 as stated fails: the document of this response has no [x5chain], it
    is the first one the loop gets to, and with chain validation disabled no
    assessment 'Issuer certificate must be valid' is delivered at all. *)
Lemma missing_leaf_unreported_when_disabled :
  let options := Bench.options (Some collect) true None in
  let run := verify Bench.W Bench.roots [x06] options in
  parse Bench.W [x06] = inr (Bench.response [Bench.docNoCertificate])
  /\ reaches Bench.W Bench.roots options (Bench.response [Bench.docNoCertificate])
             Bench.docNoCertificate
  /\ x5chain (Bench.auth None 8000) = None
  /\ ~ (exists a, In a (trace run)
                  /\ status a = FAILED /\ category a = ISSUER_AUTH
                  /\ check a = CHECK_CERTIFICATE).
Proof.
  intros options run. split; [reflexivity | split; [| split; [reflexivity |]]].
  - exists [], []. repeat split.
  - intros (a & Hin & _ & _ & Hcheck).
    pose proof (verify_disabled_no_certificate_check
                  Bench.W Bench.roots [x06] options eq_refl) as Hall.
    rewrite Forall_forall in Hall. exact (Hall a Hin Hcheck).
Qed.

(** ** Device authentication *)

Lemma call_returned_inv (cb : UserDefinedVerificationCallback) (c : Category)
  (item : Check) (t : list VerificationAssessment) :
  call cb c item = (t, inr tt) -> t = [withCategory c item].
Proof. unfold call. intros H. inversion H. reflexivity. Qed.

Lemma forEach_returned_inv {A} (f : A -> Run unit) (l : list A)
  (t : list VerificationAssessment) :
  forEach f l = (t, inr tt) ->
  forall x, In x l -> exists tx, f x = (tx, inr tt) /\ incl tx t.
Proof.
  revert t. induction l as [| y l IH]; intros t Hrun x Hin; [destruct Hin |].
  simpl in Hrun. apply bind_returns_inv in Hrun.
  destruct Hrun as (t1 & [] & t2 & Hy & Hl & ->).
  destruct Hin as [-> | Hin].
  - exists t1. split; [exact Hy | apply incl_appl, incl_refl].
  - destruct (IH t2 Hl x Hin) as (tx & Hx & Hincl).
    exists tx. split; [exact Hx | apply incl_appr, Hincl].
Qed.

(** A run of [verifyDeviceSignature] that returns without a FAILED
    assessment had a device-signed document with a signature or a MAC. *)
Lemma verifyDeviceSignature_accepts (W : World) (d : IssuerSignedDocument)
  (o : DeviceSignatureOptions) (t : list VerificationAssessment) :
  verifyDeviceSignature W d o = (t, inr tt) ->
  (forall a, In a t -> status a <> FAILED) ->
  exists ds,
    deviceSigned d = Some ds
    /\ (deviceSignature (deviceAuth ds) <> None \/ deviceMac (deviceAuth ds) <> None).
Proof.
  unfold verifyDeviceSignature. cbv beta iota zeta.
  destruct (deviceSigned d) as [ds |].
  - destruct (issuerSigned d) as [s |]; [| discriminate].
    destruct (deviceMac (deviceAuth ds)) as [mac |] eqn:Hmac;
      destruct (deviceSignature (deviceAuth ds)) as [sig |] eqn:Hsig;
      cbn [isSome negb andb]; intros Hrun Hok;
      try (exists ds; split; [reflexivity |]; rewrite Hsig, Hmac;
           first [left; discriminate | right; discriminate]).
    apply call_returned_inv in Hrun. subst t.
    exfalso. apply (Hok _ (or_introl eq_refl)). reflexivity.
  - intros Hrun Hok. apply call_returned_inv in Hrun. subst t.
    exfalso. apply (Hok _ (or_introl eq_refl)). reflexivity.
Qed.

(** With a device signature there, the device MAC is never looked at. *)
Lemma verifyDeviceSignature_ignores_mac (W : World) (d : IssuerSignedDocument)
  (o : DeviceSignatureOptions) (ds : DeviceSigned) (sig : CoseSign1) :
  deviceSigned d = Some ds ->
  deviceSignature (deviceAuth ds) = Some sig ->
  verifyDeviceSignature W d o =
  verifyDeviceSignature W
    {| docType := docType d; issuerSigned := issuerSigned d;
       deviceSigned :=
         Some {| deviceNameSpaces := deviceNameSpaces ds;
                 deviceAuth := {| deviceSignature := Some sig; deviceMac := None |} |} |}
    o.
Proof.
  intros Hds Hsig. unfold verifyDeviceSignature. cbv beta iota zeta.
  rewrite Hds. cbn [deviceSigned issuerSigned docType deviceAuth deviceNameSpaces
                    deviceSignature deviceMac].
  rewrite Hsig. cbn [isSome negb andb].
  rewrite andb_false_r. reflexivity.
Qed.

(** C2, as the code has it.  Every document of a response that [verify]
    accepts (it returns, and no assessment is FAILED) is signed by the device
    and carries at least one of [deviceSignature] and [deviceMac]; and a
    document that carries both is authenticated through its
    [deviceSignature] alone: its device authentication runs as if the
    [deviceMac] were not there. *)
Theorem accepted_document_has_a_device_proof (W : World) (roots : list string)
  (b : bytes) (options : VerifyOptions) (dr : MDoc) :
  outcome (verify W roots b options) = inr dr ->
  (forall a, In a (trace (verify W roots b options)) -> status a <> FAILED) ->
  forall d, In d (documents dr) ->
    exists ds,
      deviceSigned d = Some ds
      /\ (deviceSignature (deviceAuth ds) <> None \/ deviceMac (deviceAuth ds) <> None)
      /\ (forall sig o,
            deviceSignature (deviceAuth ds) = Some sig ->
            verifyDeviceSignature W d o =
            verifyDeviceSignature W
              {| docType := docType d; issuerSigned := issuerSigned d;
                 deviceSigned :=
                   Some {| deviceNameSpaces := deviceNameSpaces ds;
                           deviceAuth := {| deviceSignature := Some sig;
                                            deviceMac := None |} |} |}
              o).
Proof.
  intros Hout Hok d Hin.
  destruct (verify W roots b options) as [t r] eqn:Hrun.
  cbn [outcome trace fst snd] in Hout, Hok. subst r.
  unfold verify in Hrun.
  apply bind_returns_inv in Hrun. destruct Hrun as (t0 & dr' & t1 & Hparse & Hrun & ->).
  apply bind_returns_inv in Hrun. destruct Hrun as (t2 & [] & t3 & Hformat & Hrun & ->).
  apply bind_returns_inv in Hrun. destruct Hrun as (t4 & [] & t5 & Hdocs & Hret & ->).
  inversion Hret; subst dr' t5.
  unfold verifyDocuments in Hdocs.
  destruct (forEach_returned_inv _ _ _ Hdocs d Hin) as (td & Hd & Hincl).
  unfold verifyDocument in Hd.
  apply bind_returns_inv in Hd. destruct Hd as (u0 & ia & u1 & _ & Hd & ->).
  apply bind_returns_inv in Hd. destruct Hd as (u2 & [] & u3 & _ & Hd & ->).
  apply bind_returns_inv in Hd. destruct Hd as (u4 & [] & u5 & Hdev & _ & ->).
  destruct (verifyDeviceSignature_accepts W d _ u4 Hdev) as (ds & Hds & Hproof).
  - intros a Ha. apply Hok.
    apply in_or_app. right. apply in_or_app. right. apply in_or_app. left.
    apply Hincl. apply in_or_app. right. apply in_or_app. right.
    apply in_or_app. left. exact Ha.
  - exists ds. split; [exact Hds | split; [exact Hproof |]].
    intros sig o Hsig. apply (verifyDeviceSignature_ignores_mac W d o ds sig Hds Hsig).
Qed.

Lemma accepted_document_has_a_device_proof_witness :
  exists ds,
    deviceSigned Bench.docBoth = Some ds
    /\ (deviceSignature (deviceAuth ds) <> None \/ deviceMac (deviceAuth ds) <> None)
    /\ (forall sig o,
          deviceSignature (deviceAuth ds) = Some sig ->
          verifyDeviceSignature Bench.W Bench.docBoth o =
          verifyDeviceSignature Bench.W
            {| docType := docType Bench.docBoth;
               issuerSigned := issuerSigned Bench.docBoth;
               deviceSigned :=
                 Some {| deviceNameSpaces := deviceNameSpaces ds;
                         deviceAuth := {| deviceSignature := Some sig;
                                          deviceMac := None |} |} |}
            o).
Proof.
  apply (accepted_document_has_a_device_proof Bench.W Bench.roots [x02]
           (Bench.options None false None) (Bench.response [Bench.docBoth])).
  - reflexivity.
  - intros a Ha. vm_compute in Ha.
    repeat (destruct Ha as [<- | Ha]; [discriminate |]). destruct Ha.
  - left. reflexivity.
Defined.

(** C2 as stated fails: this document carries both a [deviceSignature] and
    a [deviceMac], and [verify] accepts the response with every assessment
    PASSED. *)
Lemma document_with_both_proofs_accepted :
  let run := verify Bench.W Bench.roots [x02] (Bench.options None false None) in
  outcome run = inr (Bench.response [Bench.docBoth])
  /\ Forall (fun a => status a = PASSED) (trace run)
  /\ deviceSignature (deviceAuth (Bench.device (Some Bench.goodSignature)
                                               (Some Bench.goodMac)))
     = Some Bench.goodSignature
  /\ deviceMac (deviceAuth (Bench.device (Some Bench.goodSignature)
                                         (Some Bench.goodMac)))
     = Some Bench.goodMac.
Proof.
  intros run. split; [reflexivity | split; [| split; reflexivity]].
  vm_compute. repeat constructor.
Qed.

(** *** The MAC path *)

(** Runs a sequence of calls whose callback lets PASSED assessments through. *)
Ltac run_passed Hp :=
  repeat progress
    (cbv beta iota zeta
         delta [bind call onCatCheck tryCatch lift ret throw fst snd trace outcome app
                withCategory statusOf isSome negb andb c_status c_check c_reason
                assessment];
     repeat match goal with
            | |- context [onCheck ?o ?a ?original] => rewrite (Hp a original eq_refl)
            end).

Lemma verifyDeviceSignature_mac_path (W : World) (d : IssuerSignedDocument)
  (o : DeviceSignatureOptions) (ds : DeviceSigned) (s : IssuerSigned)
  (mac : CoseMac0) (transcript : bytes) (info : DeviceKeyInfo) (key : CoseKey) :
  deviceSigned d = Some ds ->
  issuerSigned d = Some s ->
  deviceSignature (deviceAuth ds) = None ->
  deviceMac (deviceAuth ds) = Some mac ->
  sessionTranscriptBytes o = Some transcript ->
  deviceKeyInfo (decodedPayload (issuerAuth s)) = Some info ->
  deviceKey info = Some key ->
  (forall a original, status a = PASSED -> onCheck o a original = None) ->
  (mac0_alg mac <> Some 5%Z ->
   trace (verifyDeviceSignature W d o) =
     [ assessment PASSED DEVICE_AUTH CHECK_MAC_PRESENT None;
       assessment FAILED DEVICE_AUTH CHECK_MAC_ALG None ])
  /\ (mac0_alg mac = Some 5%Z ->
      ephemeralPrivateKey o = None ->
      trace (verifyDeviceSignature W d o) =
        [ assessment PASSED DEVICE_AUTH CHECK_MAC_PRESENT None;
          assessment PASSED DEVICE_AUTH CHECK_MAC_ALG None;
          assessment FAILED DEVICE_AUTH CHECK_EPHEMERAL_KEY None ]).
Proof.
  intros Hds Hs Hsig Hmac Ht Hinfo Hkey Hp.
  unfold verifyDeviceSignature. cbv beta iota zeta.
  rewrite Hds, Hs, Hsig, Hmac, Ht, Hinfo, Hkey.
  split.
  - intros Halg.
    assert (Hsup : hasSupportedAlg mac = false).
    { unfold hasSupportedAlg. destruct (mac0_alg mac) as [a |]; [| reflexivity].
      destruct (Z.eqb_spec a 5); [subst; congruence | reflexivity]. }
    rewrite Hsup. run_passed Hp.
    destruct (onCheck o _ _); reflexivity.
  - intros Halg Hkeyless.
    assert (Hsup : hasSupportedAlg mac = true).
    { unfold hasSupportedAlg. rewrite Halg. reflexivity. }
    rewrite Hsup, Hkeyless. run_passed Hp.
    destruct (onCheck o _ _); reflexivity.
Qed.

(** C6.  On the MAC path of a document the loop of [verify] reaches (device
    MAC and no device signature, session transcript and device key there,
    issuer checks ended without an exception), with a callback that lets
    PASSED assessments through: the device-authentication assessments are
    part of what [verify] delivers; when the alg is supported and the caller
    gave no ephemeral reader key they end with the FAILED assessment
    'Ephemeral private key must be present when using MAC authentication',
    with no assessment of the MAC tag; when the alg is not 5 they end with
    the FAILED assessment 'Device MAC must use alg 5 (HMAC 256/256)'.  This
    holds for every [World], so whatever the MAC primitives would answer. *)
Theorem mac_path_stops_at_missing_precondition (W : World) (roots : list string)
  (b : bytes) (options : VerifyOptions) (dr : MDoc) (d : IssuerSignedDocument)
  (ds : DeviceSigned) (s : IssuerSigned) (mac : CoseMac0) (transcript : bytes)
  (info : DeviceKeyInfo) (key : CoseKey) :
  parse W b = inr dr ->
  reaches W roots options dr d ->
  issuerSigned d = Some s ->
  outcome (verifyIssuerSignature W roots (issuerAuth s)
             (disableCertificateChainValidation options)
             (asUserDefined (buildCallback (options_onCheck options)))) = inr tt ->
  deviceSigned d = Some ds ->
  deviceSignature (deviceAuth ds) = None ->
  deviceMac (deviceAuth ds) = Some mac ->
  encodedSessionTranscript options = Some transcript ->
  deviceKeyInfo (decodedPayload (issuerAuth s)) = Some info ->
  deviceKey info = Some key ->
  (forall a, status a = PASSED -> buildCallback (options_onCheck options) a = None) ->
  let deviceRun :=
    verifyDeviceSignature W d
      {| ephemeralPrivateKey := ephemeralReaderKey options;
         sessionTranscriptBytes := encodedSessionTranscript options;
         onCheck := asUserDefined (buildCallback (options_onCheck options)) |} in
  incl (trace deviceRun) (trace (verify W roots b options))
  /\ (mac0_alg mac = Some 5%Z ->
      ephemeralReaderKey options = None ->
      trace deviceRun =
        [ assessment PASSED DEVICE_AUTH CHECK_MAC_PRESENT None;
          assessment PASSED DEVICE_AUTH CHECK_MAC_ALG None;
          assessment FAILED DEVICE_AUTH CHECK_EPHEMERAL_KEY None ])
  /\ (mac0_alg mac <> Some 5%Z ->
      trace deviceRun =
        [ assessment PASSED DEVICE_AUTH CHECK_MAC_PRESENT None;
          assessment FAILED DEVICE_AUTH CHECK_MAC_ALG None ]).
Proof.
  intros Hparse Hreach Hs Hissuer Hds Hsig Hmac Ht Hinfo Hkey Hp deviceRun.
  destruct (verifyDeviceSignature_mac_path W d
              {| ephemeralPrivateKey := ephemeralReaderKey options;
                 sessionTranscriptBytes := encodedSessionTranscript options;
                 onCheck := asUserDefined (buildCallback (options_onCheck options)) |}
              ds s mac transcript info key Hds Hs Hsig Hmac Ht Hinfo Hkey)
    as [Hunsupported Hkeyless].
  { intros a original Ha. unfold onCheck, asUserDefined. apply Hp, Ha. }
  split; [| split].
  - eapply incl_tran;
      [| apply (verify_reaches_incl W roots b options dr d Hparse Hreach)].
    apply (verifyDocument_device_incl W roots options _ d s Hs Hissuer).
  - intros Halg Hnokey. apply (Hkeyless Halg Hnokey).
  - exact Hunsupported.
Qed.

Lemma mac_path_stops_at_missing_precondition_witness :
  let options := Bench.options None false None in
  let deviceRun :=
    verifyDeviceSignature Bench.W Bench.docMac
      {| ephemeralPrivateKey := None;
         sessionTranscriptBytes := Some Bench.transcript;
         onCheck := asUserDefined defaultCallback |} in
  incl (trace deviceRun) (trace (verify Bench.W Bench.roots [x07] options))
  /\ trace deviceRun =
       [ assessment PASSED DEVICE_AUTH CHECK_MAC_PRESENT None;
         assessment PASSED DEVICE_AUTH CHECK_MAC_ALG None;
         assessment FAILED DEVICE_AUTH CHECK_EPHEMERAL_KEY None ].
Proof.
  intros options deviceRun.
  destruct (mac_path_stops_at_missing_precondition Bench.W Bench.roots [x07] options
              (Bench.response [Bench.docMac]) Bench.docMac
              (Bench.device None (Some Bench.goodMac))
              (Bench.signedBy Bench.goodAuth Bench.goodItems)
              Bench.goodMac Bench.transcript
              {| deviceKey := Some [(1%Z, Uint 2)] |} [(1%Z, Uint 2)])
    as [Hincl [Hkeyless _]];
    try reflexivity.
  - exists [], []. repeat split.
  - intros a Ha. apply defaultCallback_not_failed. rewrite Ha. discriminate.
  - split; [exact Hincl |]. apply Hkeyless; reflexivity.
Defined.

(** *** The default callback inside a [try] block *)

(** The call that reports the result of the device signature sits inside
    the [try]: when the default callback throws on the FAILED assessment, the
    [catch] takes the callback's own exception for a failure of the
    primitive and reports a second FAILED assessment, whose reason is what
    [verifyDeviceSignature] finally throws. *)
Lemma verifyDeviceSignature_rethrows (W : World) (d : IssuerSignedDocument)
  (ds : DeviceSigned) (s : IssuerSigned) (sig : CoseSign1) (transcript : bytes)
  (ephemeral : option bytes) (info : DeviceKeyInfo) (key : CoseKey) :
  deviceSigned d = Some ds ->
  issuerSigned d = Some s ->
  deviceSignature (deviceAuth ds) = Some sig ->
  deviceKeyInfo (decodedPayload (issuerAuth s)) = Some info ->
  deviceKey info = Some key ->
  Sign1_verify W sig
    (calculateDeviceAutenticationBytes W transcript (docType d) (deviceNameSpaces ds))
    (importCOSEKey W key) = inr false ->
  verifyDeviceSignature W d
    {| ephemeralPrivateKey := ephemeral;
       sessionTranscriptBytes := Some transcript;
       onCheck := asUserDefined (buildCallback None) |}
  = ([ assessment FAILED DEVICE_AUTH CHECK_DEVICE_SIGNATURE None;
       assessment FAILED DEVICE_AUTH CHECK_DEVICE_SIGNATURE
         (Some ("Unable to verify deviceAuth signature (ECDSA/EdDSA): "
                ++ CHECK_DEVICE_SIGNATURE)%string) ],
     inl (MDLError ("Unable to verify deviceAuth signature (ECDSA/EdDSA): "
                    ++ CHECK_DEVICE_SIGNATURE)%string)).
Proof.
  intros Hds Hs Hsig Hinfo Hkey Hverify.
  unfold verifyDeviceSignature. cbv beta iota zeta.
  rewrite Hds, Hs, Hsig, Hinfo, Hkey.
  destruct (deviceMac (deviceAuth ds)); cbn [isSome negb andb sessionTranscriptBytes];
    rewrite Hverify; reflexivity.
Qed.

(** C4.  The response holds one document, valid but for its device
    signature, which does not verify; the caller gives no [onCheck].  The
    first FAILED assessment has no reason and the check 'Device signature
    must be valid'; [verify] does not raise [MDLError] with that text: a
    second FAILED assessment is delivered, and [verify] raises its reason. *)
Theorem default_callback_exception_caught_by_device_check :
  let run := verify Bench.W Bench.roots [x03] (Bench.options None false None) in
  let first := assessment FAILED DEVICE_AUTH CHECK_DEVICE_SIGNATURE None in
  let second :=
    assessment FAILED DEVICE_AUTH CHECK_DEVICE_SIGNATURE
      (Some "Unable to verify deviceAuth signature (ECDSA/EdDSA): Device signature must be valid") in
  exists before,
    trace run = before ++ [first; second]
    /\ Forall (fun a => status a = PASSED) before
    /\ reasonOrCheck first = "Device signature must be valid"
    /\ outcome run
       = inl (MDLError "Unable to verify deviceAuth signature (ECDSA/EdDSA): Device signature must be valid")
    /\ outcome run <> inl (MDLError (reasonOrCheck first)).
Proof.
  intros run first second.
  exists (firstn 8 (trace run)).
  split; [reflexivity | split; [| split; [reflexivity | split; [reflexivity |]]]].
  - vm_compute. repeat constructor.
  - intros H. vm_compute in H. discriminate H.
Qed.

(** ** Data integrity *)



Lemma filter_id {A} (f : A -> bool) (l : list A) :
  (forall x, In x l -> f x = true) -> filter f l = l.
Proof.
  induction l as [| x l IH]; simpl; intros Hf; [reflexivity |].
  rewrite (Hf x (or_introl eq_refl)), IH; auto.
Qed.

Lemma filter_none {A} (f : A -> bool) (l : list A) :
  Forall (fun x => f x = false) l -> filter f l = [].
Proof.
  induction 1 as [| x l Hx _ IH]; simpl; [reflexivity |].
  rewrite Hx. exact IH.
Qed.












Lemma get_In_keys {V} (o : list (string * V)) (k : string) :
  In k (Object_keys o) -> exists v, get o k = Some v.
Proof.
  unfold Object_keys, get.
  induction o as [| [k' v'] o IH]; simpl; intros Hin; [destruct Hin |].
  destruct (String.eqb_spec k k') as [-> | Hne]; [eauto |].
  destruct Hin as [Heq | Hin]; [congruence | auto].
Qed.








(** *** The issuing country *)

Lemma filter_verifications (W : World) (ia : IssuerAuth) (ns id : string)
  (items : list IssuerSignedItem) :
  filter (fun v => (v_ns v =? ns) && (elementIdentifier (v_ev v) =? id))
         (map (fun ev => {| v_ev := ev; v_ns := ns; v_isValid := isValid W ev ns ia |})
              items)
  = map (fun ev => {| v_ev := ev; v_ns := ns; v_isValid := isValid W ev ns ia |})
        (filter (fun ev => elementIdentifier ev =? id) items).
Proof.
  induction items as [| ev items IH]; [reflexivity |].
  cbn [map filter v_ns v_ev]. rewrite String.eqb_refl, IH. cbn [andb].
  destruct (elementIdentifier ev =? id); reflexivity.
Qed.











Lemma hasCheck_country_namespace (s : Status) (ns : string) (r : option string) :
  hasCheck CHECK_ISSUING_COUNTRY
    (assessment s DATA_INTEGRITY (checkNamespaceDigests ns) r) = false.
Proof. reflexivity. Qed.










(** ** The diagnostic report *)






(** * Further properties *)

(** ** What an accepted response guarantees *)

Lemma tryCatch_returns_inv {A} (body : Run A) (handler : JsError -> Run A)
  (t : list VerificationAssessment) (a : A) :
  tryCatch body handler = (t, inr a) ->
  body = (t, inr a)
  \/ exists t1 e t2, body = (t1, inl e) /\ handler e = (t2, inr a) /\ t = t1 ++ t2.
Proof.
  destruct body as [t1 [e | a']]; simpl.
  - destruct (handler e) as [t2 r] eqn:Hh. intros H. inversion H; subst.
    right. exists t1, e, t2. auto.
  - intros H. left. exact H.
Qed.

Lemma lift_returns_inv {A} (r : JsError + A) (t : list VerificationAssessment) (a : A) :
  lift r = (t, inr a) -> r = inr a /\ t = [].
Proof. unfold lift. intros H. inversion H. auto. Qed.

Lemma statusOf_not_failed (b : bool) : statusOf b <> FAILED -> b = true.
Proof. destruct b; simpl; congruence. Qed.

(** Takes a run that returned apart: [c ;; k] into the runs of [c] and [k]. *)
Tactic Notation "invert_run" hyp(H) "as" ident(t1) ident(u) ident(t2) ident(H1) ident(H2) :=
  apply bind_returns_inv in H; destruct H as (t1 & u & t2 & H1 & H2 & ->).

Lemma no_failed_app (t1 t2 : list VerificationAssessment) :
  (forall a, In a (t1 ++ t2) -> status a <> FAILED) ->
  (forall a, In a t1 -> status a <> FAILED) /\ (forall a, In a t2 -> status a <> FAILED).
Proof.
  intros H. split; intros a Ha; apply H, in_or_app; [left | right]; exact Ha.
Qed.

Lemma no_failed_call (cb : UserDefinedVerificationCallback) (c : Category)
  (item : Check) (t : list VerificationAssessment) (u : unit) :
  call cb c item = (t, inr u) ->
  (forall a, In a t -> status a <> FAILED) ->
  c_status item <> FAILED.
Proof.
  intros Hrun Hok. destruct u. apply call_returned_inv in Hrun. subst t.
  apply (Hok _ (or_introl eq_refl)).
Qed.

Lemma verifyIssuerSignature_checked (W : World) (roots : list string) (ia : IssuerAuth)
  (disable : bool) (cb : UserDefinedVerificationCallback)
  (t : list VerificationAssessment) :
  verifyIssuerSignature W roots ia disable cb = (t, inr tt) ->
  (forall a, In a t -> status a <> FAILED) ->
  issuerChecksHold W roots disable ia.
Proof.
  unfold verifyIssuerSignature, issuerChecksHold, signatureVerifies. cbv zeta.
  intros Hrun Hok.
  invert_run Hrun as tk key t0 Hkey Hrun.
  invert_run Hrun as tc uc t1 Hchain Hrun.
  invert_run Hrun as tx v tx' Hverify Hrun.
  invert_run Hrun as ts us t2 Hsig Hrun.
  invert_run Hrun as tr reason t3 Hreason Hrun.
  invert_run Hrun as td ud t4 Hdate Hrun.
  invert_run Hrun as tv uv tn Hvalid Hcountry.
  destruct (validityInfo (decodedPayload ia)) as [vi |]; [| discriminate].
  destruct (certificate ia) as [c |] eqn:Hc; [| discriminate].
  apply no_failed_app in Hok. destruct Hok as [_ Hok].
  apply no_failed_app in Hok. destruct Hok as [Hokc Hok].
  apply no_failed_app in Hok. destruct Hok as [_ Hok].
  apply no_failed_app in Hok. destruct Hok as [Hoks Hok].
  apply no_failed_app in Hok. destruct Hok as [_ Hok].
  apply no_failed_app in Hok. destruct Hok as [Hokd Hok].
  apply no_failed_app in Hok. destruct Hok as [Hokv Hokn].
  pose proof (no_failed_call _ _ _ _ _ Hsig Hoks) as Hs. cbn [c_status] in Hs.
  pose proof (no_failed_call _ _ _ _ _ Hdate Hokd) as Hd. cbn [c_status] in Hd.
  pose proof (no_failed_call _ _ _ _ _ Hvalid Hokv) as Hv. cbn [c_status] in Hv.
  pose proof (no_failed_call _ _ _ _ _ Hcountry Hokn) as Hn. cbn [c_status] in Hn.
  exists c, vi. split; [reflexivity | split; [reflexivity |]].
  split; [| split; [| split; [| split]]].
  - intros ->. cbn [negb] in Hchain.
    apply tryCatch_returns_inv in Hchain.
    destruct Hchain as [Hbody | (t5 & e & t6 & _ & Hh & ->)].
    + invert_run Hbody as tl ul tp Hlift Hp.
      apply lift_returns_inv in Hlift. destruct ul. tauto.
    + exfalso. apply no_failed_app in Hokc. destruct Hokc as [_ Hokc].
      apply (no_failed_call _ _ _ _ _ Hh Hokc). reflexivity.
  - destruct (importX509 W (pem c) (algName ia)) as [e | k]; [discriminate |].
    rewrite bind_lift_inr in Hkey. inversion Hkey. subst key.
    apply lift_returns_inv in Hverify. destruct Hverify as [Hverify _].
    rewrite Hverify. f_equal. apply statusOf_not_failed, Hs.
  - unfold Date_within. destruct (signed vi) as [time |]; [| exact I].
    cbn [Date_lt Date_gt] in Hd.
    destruct (time <? notBefore c)%Z eqn:H1;
      destruct (time >? notAfter c)%Z eqn:H2; cbn [orb] in Hd; try congruence.
    apply Z.ltb_ge in H1. rewrite Z.gtb_ltb in H2. apply Z.ltb_ge in H2. lia.
  - unfold validAt. cbn [Date_lt Date_gt] in Hv.
    destruct (validFrom vi) as [from |], (validUntil vi) as [until |];
      cbn [Date_lt Date_gt orb] in Hv; split; try exact I.
    all: try (destruct (now W <? from)%Z eqn:H1; cbn [orb] in Hv; [congruence |];
              apply Z.ltb_ge in H1; lia).
    all: try (destruct (now W >? until)%Z eqn:H2;
              [rewrite ?orb_true_r in Hv; congruence |];
              rewrite Z.gtb_ltb in H2; apply Z.ltb_ge in H2; lia).
  - apply statusOf_not_failed, Hn.
Qed.

(** X1.  [verifyIssuerSignature] returns without a FAILED assessment only
    when every issuer check holds: a leaf certificate whose key was
    imported, a valid chain (unless disabled), a COSE verification that
    returned true, a signed date that is not outside the certificate's
    validity, a current time that is not before [validFrom] nor after
    [validUntil], and a country name.  The date conditions are those the
    code tests: a valid date within the bounds, or an Invalid Date.  Any
    callback. *)
Theorem verifyIssuerSignature_sound (W : World) (roots : list string) (ia : IssuerAuth)
  (disable : bool) (cb : UserDefinedVerificationCallback)
  (t : list VerificationAssessment) :
  verifyIssuerSignature W roots ia disable cb = (t, inr tt) ->
  (forall a, In a t -> status a <> FAILED) ->
  issuerChecksHold W roots disable ia.
Proof. exact (verifyIssuerSignature_checked W roots ia disable cb t). Qed.

Lemma verifyIssuerSignature_sound_witness :
  issuerChecksHold Bench.W Bench.roots false Bench.goodAuth.
Proof.
  apply (verifyIssuerSignature_sound Bench.W Bench.roots Bench.goodAuth false collect
           (trace (verifyIssuerSignature Bench.W Bench.roots Bench.goodAuth false collect))).
  - reflexivity.
  - intros a Ha. vm_compute in Ha.
    repeat (destruct Ha as [<- | Ha]; [discriminate |]). destruct Ha.
Defined.

Lemma verifyDeviceSignature_checked (W : World) (d : IssuerSignedDocument)
  (o : DeviceSignatureOptions) (t : list VerificationAssessment) :
  verifyDeviceSignature W d o = (t, inr tt) ->
  (forall a, In a t -> status a <> FAILED) ->
  deviceChecksHold W d (ephemeralPrivateKey o) (sessionTranscriptBytes o).
Proof.
  unfold verifyDeviceSignature, deviceChecksHold. cbv zeta.
  intros Hrun Hok.
  destruct (deviceSigned d) as [ds |];
    [| exfalso; apply (no_failed_call _ _ _ _ _ Hrun Hok); reflexivity].
  destruct (issuerSigned d) as [s |]; [| discriminate].
  destruct (negb (isSome (deviceMac (deviceAuth ds)))
            && negb (isSome (deviceSignature (deviceAuth ds))));
    [exfalso; apply (no_failed_call _ _ _ _ _ Hrun Hok); reflexivity |].
  destruct (sessionTranscriptBytes o) as [ts |];
    [| exfalso; apply (no_failed_call _ _ _ _ _ Hrun Hok); reflexivity].
  destruct (deviceKeyInfo (decodedPayload (issuerAuth s))) as [info |] eqn:Hinfo;
    [| exfalso; apply (no_failed_call _ _ _ _ _ Hrun Hok); reflexivity].
  destruct (deviceKey info) as [key |] eqn:Hkey;
    [| exfalso; apply (no_failed_call _ _ _ _ _ Hrun Hok); reflexivity].
  exists ds, s, info, key, ts.
  repeat (split; [first [reflexivity | assumption] |]).
  destruct (deviceSignature (deviceAuth ds)) as [sig |].
  - apply tryCatch_returns_inv in Hrun.
    destruct Hrun as [Hbody | (t1 & e & t2 & _ & Hh & ->)].
    + invert_run Hbody as tl r tc Hlift Hcall.
      apply lift_returns_inv in Hlift. destruct Hlift as [-> ->].
      f_equal. apply statusOf_not_failed.
      apply (no_failed_call _ _ _ _ _ Hcall Hok).
    + exfalso. apply no_failed_app in Hok. destruct Hok as [_ Hok].
      apply (no_failed_call _ _ _ _ _ Hh Hok). reflexivity.
  - invert_run Hrun as tp up t1 Hpresent Hrun.
    destruct (deviceMac (deviceAuth ds)) as [mac |].
    2:{ exfalso. apply no_failed_app in Hok. destruct Hok as [Hok _].
        apply (no_failed_call _ _ _ _ _ Hpresent Hok). reflexivity. }
    invert_run Hrun as ta ua t2 Halg Hrun.
    apply no_failed_app in Hok. destruct Hok as [_ Hok].
    apply no_failed_app in Hok. destruct Hok as [Hoka Hok].
    pose proof (statusOf_not_failed _ (no_failed_call _ _ _ _ _ Halg Hoka)) as Hsup.
    rewrite Hsup in Hrun. cbn [negb] in Hrun.
    invert_run Hrun as te ue t3 Heph Hrun.
    apply no_failed_app in Hok. destruct Hok as [Hoke Hok].
    destruct (ephemeralPrivateKey o) as [eph |].
    2:{ exfalso. apply (no_failed_call _ _ _ _ _ Heph Hoke). reflexivity. }
    apply tryCatch_returns_inv in Hrun.
    destruct Hrun as [Hbody | (t4 & e & t5 & _ & Hh & ->)].
    + invert_run Hbody as tk macKey t6 Hkeyd Hbody.
      invert_run Hbody as tm valid t7 Hmac Hcall.
      apply lift_returns_inv in Hkeyd. destruct Hkeyd as [Hkeyd ->].
      apply lift_returns_inv in Hmac. destruct Hmac as [Hmac ->].
      exists mac, eph, macKey.
      repeat (split; [first [reflexivity | assumption] |]).
      rewrite Hmac. f_equal. apply statusOf_not_failed.
      apply (no_failed_call _ _ _ _ _ Hcall Hok).
    + exfalso. apply no_failed_app in Hok. destruct Hok as [_ Hok].
      apply (no_failed_call _ _ _ _ _ Hh Hok). reflexivity.
Qed.

(** X2.  [verifyDeviceSignature] returns without a FAILED assessment only
    when the device proof holds: device-signed document, session transcript,
    device key, and a device signature that verifies or, without one, a MAC
    with alg 5 that verifies under the derived key.  Any callback. *)
Theorem verifyDeviceSignature_sound (W : World) (d : IssuerSignedDocument)
  (o : DeviceSignatureOptions) (t : list VerificationAssessment) :
  verifyDeviceSignature W d o = (t, inr tt) ->
  (forall a, In a t -> status a <> FAILED) ->
  deviceChecksHold W d (ephemeralPrivateKey o) (sessionTranscriptBytes o).
Proof. exact (verifyDeviceSignature_checked W d o t). Qed.

Lemma verifyDeviceSignature_sound_witness :
  deviceChecksHold Bench.W Bench.docMac (Some [x01]) (Some Bench.transcript).
Proof.
  apply (verifyDeviceSignature_sound Bench.W Bench.docMac
           {| ephemeralPrivateKey := Some [x01];
              sessionTranscriptBytes := Some Bench.transcript;
              onCheck := collect |}
           (trace (verifyDeviceSignature Bench.W Bench.docMac
                     {| ephemeralPrivateKey := Some [x01];
                        sessionTranscriptBytes := Some Bench.transcript;
                        onCheck := collect |}))).
  - reflexivity.
  - intros a Ha. vm_compute in Ha.
    repeat (destruct Ha as [<- | Ha]; [discriminate |]). destruct Ha.
Defined.

Lemma firstRejection_returns (cs : list (Run unit)) :
  firstRejection cs = inr tt ->
  forall c, In c cs -> exists t, c = (t, inr tt).
Proof.
  induction cs as [| c cs IH]; simpl; intros Hfirst x Hin; [destruct Hin |].
  destruct c as [t [e | []]]; cbn [outcome snd] in Hfirst; [discriminate |].
  destruct Hin as [<- | Hin]; [eauto | auto].
Qed.

Lemma in_concat_incl {A} (l : list A) (ls : list (list A)) :
  In l ls -> incl l (List.concat ls).
Proof. intros Hin x Hx. apply in_concat. eauto. Qed.

(** When [await Promise.all(...)] returns, every task ran to its end, and
    what it delivered is part of the trace. *)
Lemma awaitAll_returns_inv (order : list nat) (tasks : list AsyncTask)
  (t : list VerificationAssessment) (task : AsyncTask) :
  awaitAll order tasks = (t, inr tt) ->
  In task tasks ->
  exists th tt',
    task_head task = (th, inr tt) /\ task_tail task = (tt', inr tt)
    /\ incl th t /\ incl tt' t.
Proof.
  unfold awaitAll. cbv zeta. intros Hrun Hin. injection Hrun as Ht Hfirst. subst t.
  pose proof (firstRejection_returns _ Hfirst) as Hall.
  assert (Hheads : forall x, In x tasks -> returns (task_head x) = true).
  { intros x Hx. destruct (Hall (task_head x)) as (tx & Hx').
    - apply in_or_app. left. apply in_map, Hx.
    - rewrite Hx'. reflexivity. }
  rewrite (filter_id _ _ Hheads) in *.
  destruct (Hall (task_head task)) as (th & Hh).
  { apply in_or_app. left. apply in_map, Hin. }
  assert (Hintail : In (task_tail task) (map task_tail (settle order tasks))).
  { apply in_map.
    apply (Permutation_in _ (Permutation_sym (settle_perm order tasks))). exact Hin. }
  destruct (Hall (task_tail task)) as (tt' & Ht').
  { apply in_or_app. right. exact Hintail. }
  exists th, tt'. split; [exact Hh | split; [exact Ht' |]].
  split; apply in_concat_incl.
  - replace th with (trace (task_head task)) by (rewrite Hh; reflexivity).
    apply in_map, in_or_app. left. apply in_map, Hin.
  - replace tt' with (trace (task_tail task)) by (rewrite Ht'; reflexivity).
    apply in_map, in_or_app. right. exact Hintail.
Qed.

Lemma forEach_call_returns_inv {A} (cb : UserDefinedVerificationCallback) (c : Category)
  (f : A -> Check) (l : list A) (t : list VerificationAssessment) (u : unit) :
  forEach (fun v => call cb c (f v)) l = (t, inr u) ->
  t = map (fun v => withCategory c (f v)) l.
Proof.
  revert t. induction l as [| x l IH]; cbn [forEach map]; intros t Hrun.
  - inversion Hrun. reflexivity.
  - invert_run Hrun as t1 u1 t2 Hx Hl. destruct u1.
    apply call_returned_inv in Hx. subst t1. rewrite (IH _ Hl). reflexivity.
Qed.

Lemma find_none_all {A} (f : A -> bool) (l : list A) :
  find f l = None -> forall x, In x l -> f x = false.
Proof. intros H x Hx. apply (find_none f l H x Hx). Qed.

Lemma isSome_false {A} (o : option A) : negb (isSome o) = true -> o = None.
Proof. destruct o; simpl; congruence. Qed.

(** The checks of one namespace, from the run of its task. *)
Lemma namespaceTask_sound (W : World) (ia : IssuerAuth)
  (nss : list (string * list IssuerSignedItem)) (cb : UserDefinedVerificationCallback)
  (ns : string) (items : list IssuerSignedItem)
  (th tt' : list VerificationAssessment) :
  get nss ns = Some items ->
  task_head (namespaceTask W ia nss (call cb DATA_INTEGRITY) ns) = (th, inr tt) ->
  task_tail (namespaceTask W ia nss (call cb DATA_INTEGRITY) ns) = (tt', inr tt) ->
  (forall a, In a th -> status a <> FAILED) ->
  (forall a, In a tt' -> status a <> FAILED) ->
  namespaceChecksHold W ia ns items.
Proof.
  unfold namespaceTask. cbv zeta. intros Hget. rewrite Hget.
  cbn [task_head task_tail]. intros Hhead Htail Hokh Hokt.
  invert_run Htail as tv uv t1 Hvalid Htail.
  invert_run Htail as ti ui t2 Hinvalid Hrest.
  apply forEach_call_returns_inv in Hinvalid.
  apply no_failed_app in Hokt. destruct Hokt as [_ Hokt].
  apply no_failed_app in Hokt. destruct Hokt as [Hoki Hokr].
  assert (Hall : forall ev, In ev items -> isValid W ev ns ia = true).
  { intros ev Hev. destruct (isValid W ev ns ia) eqn:Hv; [reflexivity |].
    exfalso.
    apply (Hoki (withCategory DATA_INTEGRITY
                   {| c_status := FAILED;
                      c_check := checkDigest ns (elementIdentifier ev);
                      c_reason := None |})); [| reflexivity].
    rewrite Hinvalid.
    apply (in_map (fun v => withCategory DATA_INTEGRITY
                              {| c_status := FAILED;
                                 c_check := checkDigest ns (elementIdentifier (v_ev v));
                                 c_reason := None |})
                  _ {| v_ev := ev; v_ns := ns; v_isValid := isValid W ev ns ia |}).
    apply filter_In. split; [| cbn [v_isValid]; rewrite Hv; reflexivity].
    apply in_map_iff. exists ev. split; [reflexivity | exact Hev]. }
  split; [| split; [exact Hall |]].
  - apply statusOf_not_failed. apply (no_failed_call _ _ _ _ _ Hhead Hokh).
  - intros ->. rewrite String.eqb_refl in Hrest.
    destruct (certificate ia) as [cert |]; [| discriminate].
    destruct (issuerName cert) as [issuer |] eqn:Hissuer.
    2:{ exfalso. apply (no_failed_call _ _ _ _ _ Hrest Hokr). reflexivity. }
    invert_run Hrest as tc uc tj Hcountry Hjur.
    apply no_failed_app in Hokr. destruct Hokr as [Hokc Hokj].
    pose proof (isSome_false _ (statusOf_not_failed _
                  (no_failed_call _ _ _ _ _ Hcountry Hokc))) as Hc.
    pose proof (isSome_false _ (statusOf_not_failed _
                  (no_failed_call _ _ _ _ _ Hjur Hokj))) as Hj.
    rewrite filter_verifications in Hc, Hj.
    split; [exists cert; split; [reflexivity | congruence] | split].
    + intros ev Hev Hid.
      pose proof (find_none_all _ _ Hc
                    {| v_ev := ev; v_ns := MDL_NAMESPACE;
                       v_isValid := isValid W ev MDL_NAMESPACE ia |}) as Hp.
      assert (Hf : negb (isValid W ev MDL_NAMESPACE ia)
                   || not_opt (matchCertificate ev MDL_NAMESPACE ia) = false).
      { apply Hp, in_map_iff. exists ev. split; [reflexivity |].
        apply filter_In. split; [exact Hev | rewrite Hid; reflexivity]. }
      rewrite (Hall ev Hev) in Hf. cbn [negb orb] in Hf.
      destruct (matchCertificate ev MDL_NAMESPACE ia) as [[|] |];
        cbn [not_opt negb] in Hf; congruence.
    + intros ev Hev Hid Hst.
      pose proof (find_none_all _ _ Hj
                    {| v_ev := ev; v_ns := MDL_NAMESPACE;
                       v_isValid := isValid W ev MDL_NAMESPACE ia |}) as Hp.
      assert (Hf : negb (isValid W ev MDL_NAMESPACE ia)
                   || (truthy_opt (stateOrProvince ia)
                       && not_opt (matchCertificate ev MDL_NAMESPACE ia)) = false).
      { apply Hp, in_map_iff. exists ev. split; [reflexivity |].
        apply filter_In. split; [exact Hev | rewrite Hid; reflexivity]. }
      rewrite (Hall ev Hev), Hst in Hf. cbn [negb orb andb] in Hf.
      destruct (matchCertificate ev MDL_NAMESPACE ia) as [[|] |];
        cbn [not_opt negb] in Hf; congruence.
Qed.

Lemma verifyData_checked (W : World) (d : IssuerSignedDocument)
  (cb : UserDefinedVerificationCallback) (t : list VerificationAssessment) :
  verifyData W d cb = (t, inr tt) ->
  (forall a, In a t -> status a <> FAILED) ->
  dataChecksHold W d.
Proof.
  unfold verifyData, dataChecksHold. cbv zeta. intros Hrun Hok.
  destruct (issuerSigned d) as [s |]; [| discriminate].
  exists s. split; [reflexivity |].
  invert_run Hrun as ta ua t1 Halg Hall.
  apply no_failed_app in Hok. destruct Hok as [Hoka Hok].
  split; [apply statusOf_not_failed, (no_failed_call _ _ _ _ _ Halg Hoka) |].
  intros ns items Hns Hget. fold (disclosed s) in Hall.
  destruct (awaitAll_returns_inv _ _ _
              (namespaceTask W (issuerAuth s) (disclosed s) (call cb DATA_INTEGRITY) ns)
              Hall (in_map _ _ _ Hns))
    as (th & tt' & Hh & Ht & Hinh & Hint).
  apply (namespaceTask_sound W (issuerAuth s) (disclosed s) cb ns items th tt'
           Hget Hh Ht).
  - intros a Ha. apply Hok, Hinh, Ha.
  - intros a Ha. apply Hok, Hint, Ha.
Qed.

(** X3.  [verifyData] returns without a FAILED assessment only when the
    disclosed data is intact: a supported digest algorithm and, for every
    disclosed namespace, digests in the MSO, every element's digest valid,
    and in the mDL namespace a certificate that the issuing country and
    jurisdiction match.  Any callback, any order of settling. *)
Theorem verifyData_sound (W : World) (d : IssuerSignedDocument)
  (cb : UserDefinedVerificationCallback) (t : list VerificationAssessment) :
  verifyData W d cb = (t, inr tt) ->
  (forall a, In a t -> status a <> FAILED) ->
  dataChecksHold W d.
Proof. exact (verifyData_checked W d cb t). Qed.

Lemma verifyData_sound_witness : dataChecksHold Bench.W Bench.docS1.
Proof.
  apply (verifyData_sound Bench.W Bench.docS1 collect
           (trace (verifyData Bench.W Bench.docS1 collect))).
  - reflexivity.
  - intros a Ha. vm_compute in Ha.
    repeat (destruct Ha as [<- | Ha]; [discriminate |]). destruct Ha.
Defined.

Lemma deliver_returns_inv (cb : VerificationCallback) (a : VerificationAssessment)
  (t : list VerificationAssessment) (u : unit) :
  deliver cb a = (t, inr u) -> t = [a].
Proof. unfold deliver. intros H. inversion H. reflexivity. Qed.

Lemma verifyFormat_sound (W : World) (cb : VerificationCallback) (dr : MDoc)
  (t : list VerificationAssessment) :
  verifyFormat W cb dr = (t, inr tt) ->
  (forall a, In a t -> status a <> FAILED) ->
  formatChecksHold W dr.
Proof.
  unfold verifyFormat, formatChecksHold. intros Hrun Hok.
  invert_run Hrun as t1 u1 t2 H1 Hrun.
  invert_run Hrun as t3 u3 t4 H3 H4.
  apply deliver_returns_inv in H1, H3, H4. subst t1 t3 t4.
  split; [| split].
  - apply statusOf_not_failed. apply (Hok _ (or_introl eq_refl)).
  - apply Z.le_ge, Z.geb_le, statusOf_not_failed.
    apply (Hok _ (or_intror (or_introl eq_refl))).
  - assert (Hlen : (0 <? List.length (documents dr))%nat = true).
    { apply statusOf_not_failed.
      apply (Hok _ (or_intror (or_intror (or_introl eq_refl)))). }
    destruct (documents dr); [discriminate | discriminate].
Qed.

Lemma verify_checked (W : World) (roots : list string) (b : bytes)
  (options : VerifyOptions) (dr : MDoc) :
  outcome (verify W roots b options) = inr dr ->
  (forall a, In a (trace (verify W roots b options)) -> status a <> FAILED) ->
  responseChecksHold W roots options dr.
Proof.
  intros Hout Hok.
  destruct (verify W roots b options) as [t r] eqn:Hrun.
  cbn [outcome trace fst snd] in Hout, Hok. subst r.
  unfold verify in Hrun.
  invert_run Hrun as t0 dr' t1 Hparse Hrun.
  invert_run Hrun as tf uf t2 Hformat Hrun.
  invert_run Hrun as td ud t3 Hdocs Hret.
  inversion Hret; subst dr' t3. destruct uf, ud.
  apply no_failed_app in Hok. destruct Hok as [_ Hok].
  apply no_failed_app in Hok. destruct Hok as [Hokf Hok].
  apply no_failed_app in Hok. destruct Hok as [Hokd _].
  split; [apply (verifyFormat_sound W _ dr tf Hformat Hokf) |].
  intros d Hin. unfold verifyDocuments in Hdocs.
  destruct (forEach_returned_inv _ _ _ Hdocs d Hin) as (tx & Hd & Hincl).
  unfold verifyDocument in Hd.
  invert_run Hd as u0 ia u1 Hia Hd.
  invert_run Hd as ti ui u2 Hissuer Hd.
  invert_run Hd as tv uv ta Hdevice Hdata.
  destruct ui, uv.
  assert (Hokx : forall a, In a (u0 ++ ti ++ tv ++ ta) -> status a <> FAILED)
    by (intros a Ha; apply Hokd, Hincl, Ha).
  apply no_failed_app in Hokx. destruct Hokx as [_ Hokx].
  apply no_failed_app in Hokx. destruct Hokx as [Hoki Hokx].
  apply no_failed_app in Hokx. destruct Hokx as [Hokv Hoka].
  destruct (issuerSigned d) as [s |] eqn:Hs; [| discriminate].
  inversion Hia; subst ia u0.
  split; [| split].
  - exists s. split; [reflexivity |].
    apply (verifyIssuerSignature_checked W roots _ _ _ ti Hissuer Hoki).
  - apply (verifyDeviceSignature_checked W d _ tv Hdevice Hokv).
  - apply (verifyData_checked W d _ ta Hdata Hoka).
Qed.



(** ** What makes a response accepted *)

Lemma accepts_ret {A} (a : A) : accepts (ret a) a.
Proof. exists []. split; [reflexivity | constructor]. Qed.

Lemma accepts_bind {A B} (c : Run A) (k : A -> Run B) (a : A) (b : B) :
  accepts c a -> accepts (k a) b -> accepts (bind c k) b.
Proof.
  intros (t1 & -> & H1) (t2 & Hk & H2). exists (t1 ++ t2). split.
  - simpl. rewrite Hk. reflexivity.
  - apply Forall_app. auto.
Qed.

Lemma accepts_call (cb : UserDefinedVerificationCallback) (c : Category) (item : Check) :
  lenientUser cb ->
  c_status item = PASSED ->
  accepts (call cb c item) tt.
Proof.
  intros Hp Hs. exists [withCategory c item]. split.
  - unfold call, onCatCheck.
    rewrite (Hp (withCategory c item) defaultCallback Hs). reflexivity.
  - constructor; [exact Hs | constructor].
Qed.

Lemma accepts_deliver (cb : VerificationCallback) (a : VerificationAssessment) :
  lenient cb -> status a = PASSED -> accepts (deliver cb a) tt.
Proof.
  intros Hp Hs. exists [a]. split.
  - unfold deliver. rewrite (Hp _ Hs). reflexivity.
  - constructor; [exact Hs | constructor].
Qed.

Lemma accepts_tryCatch {A} (body : Run A) (handler : JsError -> Run A) (a : A) :
  accepts body a -> accepts (tryCatch body handler) a.
Proof. intros (t & -> & Ht). exists t. split; [reflexivity | exact Ht]. Qed.

Lemma accepts_lift {A} (r : JsError + A) (a : A) : r = inr a -> accepts (lift r) a.
Proof. intros ->. exists []. split; [reflexivity | constructor]. Qed.

Lemma accepts_forEach {A} (f : A -> Run unit) (l : list A) :
  (forall x, In x l -> accepts (f x) tt) -> accepts (forEach f l) tt.
Proof.
  induction l as [| x l IH]; intros Hf; cbn [forEach].
  - apply accepts_ret.
  - apply (accepts_bind _ _ tt tt).
    + apply Hf. left. reflexivity.
    + apply IH. intros y Hy. apply Hf. right. exact Hy.
Qed.

Lemma firstRejection_all (cs : list (Run unit)) :
  (forall c, In c cs -> exists t, c = (t, inr tt)) -> firstRejection cs = inr tt.
Proof.
  induction cs as [| c cs IH]; intros Hall; cbn [firstRejection]; [reflexivity |].
  destruct (Hall c (or_introl eq_refl)) as (t & ->). cbn [outcome snd].
  apply IH. intros x Hx. apply Hall. right. exact Hx.
Qed.

Lemma accepts_awaitAll (order : list nat) (tasks : list AsyncTask) :
  (forall task, In task tasks ->
     accepts (task_head task) tt /\ accepts (task_tail task) tt) ->
  accepts (awaitAll order tasks) tt.
Proof.
  intros Hall. unfold awaitAll. cbv zeta.
  assert (Hheads : forall x, In x tasks -> returns (task_head x) = true).
  { intros x Hx. destruct (Hall x Hx) as [(t & -> & _) _]. reflexivity. }
  rewrite (filter_id _ _ Hheads).
  assert (Hin : forall c,
             In c (map task_head tasks ++ map task_tail (settle order tasks)) ->
             accepts c tt).
  { intros c Hc. apply in_app_or in Hc. destruct Hc as [Hc | Hc];
      apply in_map_iff in Hc; destruct Hc as (task & <- & Htask).
    - apply Hall, Htask.
    - apply Hall. apply (Permutation_in _ (settle_perm order tasks)). exact Htask. }
  eexists. split.
  - f_equal. apply firstRejection_all. intros c Hc.
    destruct (Hin c Hc) as (t & -> & _). eauto.
  - apply Forall_concat_map. intros c Hc.
    destruct (Hin c Hc) as (t & -> & Ht). exact Ht.
Qed.

Lemma verifyIssuerSignature_complete (W : World) (roots : list string) (ia : IssuerAuth)
  (disable : bool) (cb : UserDefinedVerificationCallback) :
  lenientUser cb ->
  issuerChecksHold W roots disable ia ->
  accepts (verifyIssuerSignature W roots ia disable cb) tt.
Proof.
  intros Hp (c & vi & Hc & Hvi & Hchain & Hsig & Hdate & Hvalid & Hcountry).
  destruct (signatureVerifies_returned W ia c true Hc Hsig) as (key & Hkey & Hverify).
  unfold verifyIssuerSignature. cbv zeta.
  rewrite Hc in *. rewrite Hvi, Hcountry, Hkey.
  rewrite bind_lift_inr, bind_ret. cbv beta iota. rewrite Hverify.
  apply (accepts_bind _ _ tt tt).
  { destruct disable; cbn [negb]; [apply accepts_ret |].
    apply accepts_tryCatch. rewrite (Hchain eq_refl).
    apply (accepts_bind _ _ tt tt); [apply accepts_lift; reflexivity |].
    apply (accepts_call _ _ _ Hp). reflexivity. }
  rewrite bind_lift_inr.
  apply (accepts_bind _ _ tt tt); [apply (accepts_call _ _ _ Hp); reflexivity |].
  eapply accepts_bind; [apply accepts_ret |].
  apply (accepts_bind _ _ tt tt).
  { apply (accepts_call _ _ _ Hp). cbn [c_status].
    unfold Date_within in Hdate. destruct (signed vi) as [time |]; [| reflexivity].
    cbn [Date_lt Date_gt].
    replace (time <? notBefore c)%Z with false by (symmetry; apply Z.ltb_ge; lia).
    replace (time >? notAfter c)%Z with false
      by (symmetry; rewrite Z.gtb_ltb; apply Z.ltb_ge; lia).
    reflexivity. }
  apply (accepts_bind _ _ tt tt).
  { apply (accepts_call _ _ _ Hp). cbn [c_status].
    destruct Hvalid as [Hfrom Huntil].
    destruct (validFrom vi) as [from |], (validUntil vi) as [until |];
      cbn [Date_lt Date_gt orb];
      try (replace (now W <? from)%Z with false by (symmetry; apply Z.ltb_ge; lia));
      try (replace (now W >? until)%Z with false
             by (symmetry; rewrite Z.gtb_ltb; apply Z.ltb_ge; lia));
      reflexivity. }
  apply (accepts_call _ _ _ Hp). reflexivity.
Qed.

Lemma verifyDeviceSignature_complete (W : World) (d : IssuerSignedDocument)
  (o : DeviceSignatureOptions) :
  lenientUser (onCheck o) ->
  deviceChecksHold W d (ephemeralPrivateKey o) (sessionTranscriptBytes o) ->
  accepts (verifyDeviceSignature W d o) tt.
Proof.
  intros Hp (ds & s & info & key & ts & Hds & Hs & Hts & Hinfo & Hkey & Hproof).
  unfold verifyDeviceSignature. cbv zeta.
  rewrite Hds, Hs, Hts, Hinfo, Hkey.
  destruct (deviceSignature (deviceAuth ds)) as [sig |].
  - rewrite andb_false_r. apply accepts_tryCatch. rewrite Hproof.
    eapply accepts_bind; [apply accepts_lift; reflexivity |].
    apply (accepts_call _ _ _ Hp). reflexivity.
  - destruct Hproof as (mac & eph & macKey & Hmac & Hsup & Heph & Hderive & Hverify).
    rewrite Hmac, Heph, Hsup. cbn [isSome negb andb].
    apply (accepts_bind _ _ tt tt); [apply (accepts_call _ _ _ Hp); reflexivity |].
    apply (accepts_bind _ _ tt tt); [apply (accepts_call _ _ _ Hp); reflexivity |].
    apply (accepts_bind _ _ tt tt); [apply (accepts_call _ _ _ Hp); reflexivity |].
    apply accepts_tryCatch. rewrite Hderive.
    eapply accepts_bind; [apply accepts_lift; reflexivity |].
    rewrite Hverify.
    eapply accepts_bind; [apply accepts_lift; reflexivity |].
    apply (accepts_call _ _ _ Hp). reflexivity.
Qed.

Lemma find_all_false {A} (f : A -> bool) (l : list A) :
  (forall x, In x l -> f x = false) -> find f l = None.
Proof.
  induction l as [| x l IH]; intros Hf; cbn [find]; [reflexivity |].
  rewrite (Hf x (or_introl eq_refl)). apply IH. intros y Hy. apply Hf. right. exact Hy.
Qed.

Lemma namespaceTask_complete (W : World) (ia : IssuerAuth)
  (nss : list (string * list IssuerSignedItem)) (cb : UserDefinedVerificationCallback)
  (ns : string) (items : list IssuerSignedItem) :
  lenientUser cb ->
  get nss ns = Some items ->
  namespaceChecksHold W ia ns items ->
  accepts (task_head (namespaceTask W ia nss (call cb DATA_INTEGRITY) ns)) tt
  /\ accepts (task_tail (namespaceTask W ia nss (call cb DATA_INTEGRITY) ns)) tt.
Proof.
  intros Hp Hget (Hhas & Hall & Hmdl).
  unfold namespaceTask. cbv zeta. rewrite Hget. cbn [task_head task_tail].
  split; [apply (accepts_call _ _ _ Hp); cbn [c_status]; rewrite Hhas; reflexivity |].
  apply (accepts_bind _ _ tt tt).
  { apply accepts_forEach. intros v _. apply (accepts_call _ _ _ Hp). reflexivity. }
  apply (accepts_bind _ _ tt tt).
  { replace (filter (fun v => negb (v_isValid v))
               (map (fun ev => {| v_ev := ev; v_ns := ns;
                                  v_isValid := isValid W ev ns ia |}) items))
      with (@nil Verification); [apply accepts_ret |].
    symmetry. apply filter_none. apply Forall_forall. intros v Hv.
    apply in_map_iff in Hv. destruct Hv as (ev & <- & Hev). cbn [v_isValid].
    rewrite (Hall ev Hev). reflexivity. }
  destruct (String.eqb_spec ns MDL_NAMESPACE) as [Hns | _]; [| apply accepts_ret].
  destruct (Hmdl Hns) as ((cert & Hcert & Hissuer) & Hcountry & Hjur). subst ns.
  rewrite Hcert. destruct (issuerName cert) as [issuer |]; [| congruence].
  rewrite !filter_verifications.
  rewrite !find_all_false.
  - apply (accepts_bind _ _ tt tt); apply (accepts_call _ _ _ Hp); reflexivity.
  - intros v Hv. apply in_map_iff in Hv. destruct Hv as (ev & <- & Hev).
    apply filter_In in Hev. destruct Hev as [Hev Hid]. apply String.eqb_eq in Hid.
    cbn [v_isValid v_ev]. rewrite (Hall ev Hev). cbn [negb orb].
    destruct (truthy_opt (stateOrProvince ia)) eqn:Hst; [| reflexivity].
    rewrite (Hjur ev Hev Hid eq_refl). reflexivity.
  - intros v Hv. apply in_map_iff in Hv. destruct Hv as (ev & <- & Hev).
    apply filter_In in Hev. destruct Hev as [Hev Hid]. apply String.eqb_eq in Hid.
    cbn [v_isValid v_ev]. rewrite (Hall ev Hev), (Hcountry ev Hev Hid). reflexivity.
Qed.

Lemma verifyData_complete (W : World) (d : IssuerSignedDocument)
  (cb : UserDefinedVerificationCallback) :
  lenientUser cb ->
  dataChecksHold W d ->
  accepts (verifyData W d cb) tt.
Proof.
  intros Hp (s & Hs & Halg & Hns).
  unfold verifyData. cbv zeta. rewrite Hs. fold (disclosed s).
  apply (accepts_bind _ _ tt tt).
  { apply (accepts_call _ _ _ Hp). cbn [c_status]. rewrite Halg. reflexivity. }
  apply accepts_awaitAll. intros task Htask.
  apply in_map_iff in Htask. destruct Htask as (ns & <- & Hin).
  destruct (get_In_keys _ _ Hin) as (items & Hget).
  apply (namespaceTask_complete W _ _ cb ns items Hp Hget (Hns ns items Hin Hget)).
Qed.

Lemma verify_accepted (W : World) (roots : list string) (b : bytes)
  (options : VerifyOptions) (dr : MDoc) :
  parse W b = inr dr ->
  lenient (buildCallback (options_onCheck options)) ->
  responseChecksHold W roots options dr ->
  outcome (verify W roots b options) = inr dr
  /\ Forall passed (trace (verify W roots b options)).
Proof.
  intros Hparse Hp ((Hversion & Hminimum & Hdocs) & Hall).
  assert (Hpu : lenientUser (asUserDefined (buildCallback (options_onCheck options)))).
  { intros a original Ha. apply Hp, Ha. }
  assert (Hacc : accepts (verify W roots b options) dr).
  { unfold verify. cbv zeta. rewrite Hparse.
    eapply accepts_bind; [apply accepts_lift; reflexivity |].
    apply (accepts_bind _ _ tt dr).
    { unfold verifyFormat. rewrite Hversion.
      replace (compareVersions W (version dr) "1.0" >=? 0)%Z with true
        by (symmetry; apply Z.geb_le; lia).
      replace (0 <? List.length (documents dr))%nat with true
        by (destruct (documents dr); [congruence | reflexivity]).
      repeat (apply (accepts_bind _ _ tt tt); [apply (accepts_deliver _ _ Hp); reflexivity |]).
      apply (accepts_deliver _ _ Hp). reflexivity. }
    apply (accepts_bind _ _ tt dr); [| apply accepts_ret].
    unfold verifyDocuments. apply accepts_forEach. intros d Hd.
    destruct (Hall d Hd) as ((s & Hs & Hissuer) & Hdevice & Hdata).
    unfold verifyDocument. rewrite Hs.
    eapply accepts_bind; [apply accepts_ret |].
    apply (accepts_bind _ _ tt tt);
      [apply (verifyIssuerSignature_complete W roots _ _ _ Hpu Hissuer) |].
    apply (accepts_bind _ _ tt tt);
      [apply (verifyDeviceSignature_complete W d
                {| ephemeralPrivateKey := ephemeralReaderKey options;
                   sessionTranscriptBytes := encodedSessionTranscript options;
                   onCheck := asUserDefined (buildCallback (options_onCheck options)) |}
                Hpu Hdevice) |].
    apply (verifyData_complete W d _ Hpu Hdata). }
  destruct Hacc as (t & -> & Ht). split; [reflexivity | exact Ht].
Qed.



(** ** Statuses and categories *)

Lemma statusOf_not_warning (b : bool) : statusOf b <> WARNING.
Proof. destruct b; discriminate. Qed.

Ltac not_warning :=
  cbn [status withCategory c_status];
  repeat match goal with
         | |- context [match ?x with _ => _ end] => destruct x
         end;
  first [apply statusOf_not_warning | discriminate].

Lemma Forall_trace_namespaceTasks (P : VerificationAssessment -> Prop) (W : World)
  (ia : IssuerAuth) (nss : list (string * list IssuerSignedItem))
  (cb : UserDefinedVerificationCallback) (order : list nat) :
  (forall item, P (withCategory DATA_INTEGRITY item)) ->
  Forall P (trace (awaitAll order
                     (map (namespaceTask W ia nss (call cb DATA_INTEGRITY))
                          (Object_keys nss)))).
Proof.
  intros Hp.
  apply Forall_trace_awaitAll; intros t Hin;
    apply in_map_iff in Hin; destruct Hin as (ns & <- & _);
    unfold namespaceTask; cbv beta iota zeta;
    destruct (get _ ns); cbn [task_head task_tail];
    trace_all; apply Hp.
Qed.

Lemma verifyData_Forall (P : VerificationAssessment -> Prop) (W : World)
  (d : IssuerSignedDocument) (cb : UserDefinedVerificationCallback) :
  (forall item, P (withCategory DATA_INTEGRITY item)) ->
  Forall P (trace (verifyData W d cb)).
Proof.
  intros Hp. unfold verifyData. cbv beta iota zeta.
  destruct (issuerSigned d) as [s |]; [| exact (Forall_nil _)].
  apply Forall_trace_bind; [trace_all; apply Hp | intros _].
  apply Forall_trace_namespaceTasks, Hp.
Qed.

Lemma verifyIssuerSignature_Forall (P : VerificationAssessment -> Prop) (W : World)
  (roots : list string) (ia : IssuerAuth) (disable : bool)
  (cb : UserDefinedVerificationCallback) :
  (forall item, P (withCategory ISSUER_AUTH item)) ->
  Forall P (trace (verifyIssuerSignature W roots ia disable cb)).
Proof.
  intros Hp. unfold verifyIssuerSignature. cbv beta iota zeta.
  trace_all; apply Hp.
Qed.

Lemma verifyDeviceSignature_Forall (P : VerificationAssessment -> Prop) (W : World)
  (d : IssuerSignedDocument) (o : DeviceSignatureOptions) :
  (forall item, P (withCategory DEVICE_AUTH item)) ->
  Forall P (trace (verifyDeviceSignature W d o)).
Proof.
  intros Hp. unfold verifyDeviceSignature. cbv beta iota zeta.
  trace_all; apply Hp.
Qed.

Lemma verifyIssuerSignature_not_warning (W : World) (roots : list string)
  (ia : IssuerAuth) (disable : bool) (cb : UserDefinedVerificationCallback) :
  Forall (fun a => status a <> WARNING)
         (trace (verifyIssuerSignature W roots ia disable cb)).
Proof.
  unfold verifyIssuerSignature. cbv beta iota zeta. trace_all; not_warning.
Qed.

Lemma verifyDeviceSignature_not_warning (W : World) (d : IssuerSignedDocument)
  (o : DeviceSignatureOptions) :
  Forall (fun a => status a <> WARNING) (trace (verifyDeviceSignature W d o)).
Proof.
  unfold verifyDeviceSignature. cbv beta iota zeta. trace_all; not_warning.
Qed.

Lemma verifyData_not_warning (W : World) (d : IssuerSignedDocument)
  (cb : UserDefinedVerificationCallback) :
  Forall (fun a => status a <> WARNING) (trace (verifyData W d cb)).
Proof.
  unfold verifyData. cbv beta iota zeta.
  destruct (issuerSigned d) as [s |]; [| exact (Forall_nil _)].
  apply Forall_trace_bind; [trace_all; not_warning | intros _].
  apply Forall_trace_awaitAll; intros t Hin;
    apply in_map_iff in Hin; destruct Hin as (ns & <- & _);
    unfold namespaceTask; cbv beta iota zeta;
    destruct (get _ ns); cbn [task_head task_tail];
    trace_all; not_warning.
Qed.

Lemma verify_not_warning (W : World) (roots : list string) (b : bytes)
  (options : VerifyOptions) :
  Forall (fun a => status a <> WARNING) (trace (verify W roots b options)).
Proof.
  unfold verify, verifyFormat, verifyDocuments, verifyDocument. cbv beta iota zeta.
  trace_all;
    try apply verifyIssuerSignature_not_warning;
    try apply verifyDeviceSignature_not_warning;
    try apply verifyData_not_warning;
    not_warning.
Qed.

(** X6.  Whatever the input and the callback, [verify] never delivers a
    WARNING assessment: each one is PASSED or FAILED; and the three steps
    deliver assessments of their own category only. *)
Theorem verify_statuses_and_categories (W : World) (roots : list string) (b : bytes)
  (options : VerifyOptions) (ia : IssuerAuth) (disable : bool)
  (cb : UserDefinedVerificationCallback) (d : IssuerSignedDocument)
  (o : DeviceSignatureOptions) :
  Forall (fun a => status a = PASSED \/ status a = FAILED)
         (trace (verify W roots b options))
  /\ Forall (fun a => category a = ISSUER_AUTH)
            (trace (verifyIssuerSignature W roots ia disable cb))
  /\ Forall (fun a => category a = DEVICE_AUTH) (trace (verifyDeviceSignature W d o))
  /\ Forall (fun a => category a = DATA_INTEGRITY) (trace (verifyData W d cb)).
Proof.
  split; [| split; [| split]].
  - eapply Forall_impl; [| apply verify_not_warning].
    intros a Ha. cbv beta in Ha. destruct (status a); [left | right | congruence]; reflexivity.
  - apply verifyIssuerSignature_Forall. reflexivity.
  - apply verifyDeviceSignature_Forall. reflexivity.
  - apply verifyData_Forall. reflexivity.
Qed.

(** ** With the default callback *)

Lemma failFast_ret {A} (a : A) : failFast (ret a).
Proof. intros t a' H. inversion H. constructor. Qed.

Lemma failFast_throw {A} (e : JsError) : failFast (@throw A e).
Proof. intros t a H. discriminate H. Qed.

Lemma failFast_lift {A} (r : JsError + A) : failFast (lift r).
Proof. intros t a H. inversion H. constructor. Qed.

Lemma failFast_bind {A B} (c : Run A) (k : A -> Run B) :
  failFast c -> (forall a, failFast (k a)) -> failFast (bind c k).
Proof.
  intros Hc Hk t b Hrun.
  apply bind_returns_inv in Hrun. destruct Hrun as (t1 & a & t2 & H1 & H2 & ->).
  apply Forall_app. split; [apply (Hc _ _ H1) | apply (Hk _ _ _ H2)].
Qed.

Lemma failFast_call (cb : UserDefinedVerificationCallback) (c : Category) (item : Check) :
  actsAsDefaultUser cb -> failFast (call cb c item).
Proof.
  intros Hd t u. unfold call, onCatCheck. rewrite Hd. unfold defaultCallback.
  destruct (status (withCategory c item)) eqn:Hs; intros H; inversion H;
    repeat constructor; congruence.
Qed.

Lemma failFast_deliver (cb : VerificationCallback) (a : VerificationAssessment) :
  actsAsDefault cb -> failFast (deliver cb a).
Proof.
  intros Hd t u. unfold deliver. rewrite Hd. unfold defaultCallback.
  destruct (status a) eqn:Hs; intros H; inversion H; repeat constructor; congruence.
Qed.

Lemma neverReturns_call (cb : UserDefinedVerificationCallback) (c : Category)
  (item : Check) :
  actsAsDefaultUser cb -> c_status item = FAILED -> neverReturns (call cb c item).
Proof.
  intros Hd Hs t u. unfold call, onCatCheck. rewrite Hd.
  rewrite defaultCallback_failed by exact Hs. discriminate.
Qed.

Lemma failFast_tryCatch {A} (body : Run A) (handler : JsError -> Run A) :
  failFast body -> (forall e, neverReturns (handler e)) ->
  failFast (tryCatch body handler).
Proof.
  intros Hb Hh t a Hrun. apply tryCatch_returns_inv in Hrun.
  destruct Hrun as [Hrun | (t1 & e & t2 & _ & Hrun & _)].
  - apply (Hb _ _ Hrun).
  - destruct (Hh e _ _ Hrun).
Qed.

Lemma failFast_forEach {A} (f : A -> Run unit) (l : list A) :
  (forall x, failFast (f x)) -> failFast (forEach f l).
Proof.
  intros Hf. induction l as [| x l IH]; cbn [forEach].
  - apply failFast_ret.
  - apply failFast_bind; [apply Hf | intros _; exact IH].
Qed.

Lemma failFast_awaitAll (order : list nat) (tasks : list AsyncTask) :
  (forall t, In t tasks -> failFast (task_head t)) ->
  (forall t, In t tasks -> failFast (task_tail t)) ->
  failFast (awaitAll order tasks).
Proof.
  intros Hh Ht t u. unfold awaitAll. cbv zeta. intros Hrun.
  injection Hrun as Htrace Hfirst. subst t. destruct u.
  pose proof (firstRejection_returns _ Hfirst) as Hall.
  apply Forall_concat_map. intros c Hc.
  destruct (Hall c Hc) as (tc & Hrc).
  apply in_app_or in Hc. destruct Hc as [Hc | Hc]; apply in_map_iff in Hc;
    destruct Hc as (task & <- & Hin).
  - rewrite Hrc. apply (Hh task Hin _ _ Hrc).
  - apply (Permutation_in _ (settle_perm order _)) in Hin.
    apply filter_In in Hin. destruct Hin as [Hin _].
    rewrite Hrc. apply (Ht task Hin _ _ Hrc).
Qed.

Ltac fail_fast Hd :=
  repeat first
    [ apply failFast_ret
    | apply failFast_throw
    | apply failFast_lift
    | apply (failFast_call _ _ _ Hd)
    | apply failFast_bind; [| intros ?]
    | apply failFast_tryCatch;
        [| intros ?; apply (neverReturns_call _ _ _ Hd); reflexivity]
    | apply failFast_forEach; intros ?
    | match goal with
      | |- failFast (match ?x with _ => _ end) => destruct x
      | |- failFast (if ?x then _ else _) => destruct x
      end ].

Lemma verifyIssuerSignature_failFast (W : World) (roots : list string)
  (ia : IssuerAuth) (disable : bool) (cb : UserDefinedVerificationCallback) :
  actsAsDefaultUser cb -> failFast (verifyIssuerSignature W roots ia disable cb).
Proof.
  intros Hd. unfold verifyIssuerSignature. cbv beta iota zeta. fail_fast Hd.
Qed.

Lemma verifyDeviceSignature_failFast (W : World) (d : IssuerSignedDocument)
  (o : DeviceSignatureOptions) :
  actsAsDefaultUser (onCheck o) -> failFast (verifyDeviceSignature W d o).
Proof.
  intros Hd. unfold verifyDeviceSignature. cbv beta iota zeta. fail_fast Hd.
Qed.

Lemma verifyData_failFast (W : World) (d : IssuerSignedDocument)
  (cb : UserDefinedVerificationCallback) :
  actsAsDefaultUser cb -> failFast (verifyData W d cb).
Proof.
  intros Hd. unfold verifyData. cbv beta iota zeta.
  destruct (issuerSigned d) as [s |]; [| apply failFast_throw].
  apply failFast_bind; [apply (failFast_call _ _ _ Hd) | intros _].
  apply failFast_awaitAll; intros t Hin;
    apply in_map_iff in Hin; destruct Hin as (ns & <- & _);
    unfold namespaceTask; cbv beta iota zeta;
    destruct (get _ ns); cbn [task_head task_tail]; fail_fast Hd.
Qed.

Lemma asUserDefined_default (cb : VerificationCallback) :
  actsAsDefault cb -> actsAsDefaultUser (asUserDefined cb).
Proof. intros H a. apply H. Qed.

Lemma verify_failFast (W : World) (roots : list string) (b : bytes)
  (options : VerifyOptions) :
  actsAsDefault (buildCallback (options_onCheck options)) ->
  failFast (verify W roots b options).
Proof.
  intros Hd. pose proof (asUserDefined_default _ Hd) as Hu.
  unfold verify, verifyFormat, verifyDocuments, verifyDocument. cbv beta iota zeta.
  repeat first
    [ apply failFast_ret
    | apply failFast_throw
    | apply failFast_lift
    | apply (failFast_deliver _ _ Hd)
    | apply (verifyIssuerSignature_failFast _ _ _ _ _ Hu)
    | apply verifyDeviceSignature_failFast; exact Hu
    | apply (verifyData_failFast _ _ _ Hu)
    | apply failFast_bind; [| intros ?]
    | apply failFast_forEach; intros ?
    | match goal with
      | |- failFast (match ?x with _ => _ end) => destruct x
      end ].
Qed.

Lemma default_actsAsDefault : actsAsDefault (buildCallback None).
Proof. intros a. reflexivity. Qed.

Lemma delegate_actsAsDefault : actsAsDefault (buildCallback (Some delegate)).
Proof. intros a. reflexivity. Qed.



(** ** What a call that returns went through *)

Lemma verifyIssuerSignature_returns_inv (W : World) (roots : list string)
  (ia : IssuerAuth) (disable : bool) (cb : UserDefinedVerificationCallback)
  (t : list VerificationAssessment) (u : unit) :
  verifyIssuerSignature W roots ia disable cb = (t, inr u) ->
  exists c vi v,
    certificate ia = Some c
    /\ validityInfo (decodedPayload ia) = Some vi
    /\ signatureVerifies W ia = inr v.
Proof.
  unfold verifyIssuerSignature, signatureVerifies. cbv beta iota zeta. intros Hrun.
  invert_run Hrun as tk key t0 Hkey Hrun.
  invert_run Hrun as t1 u1 t2 H1 Hrun.
  invert_run Hrun as tx v tx' Hverify Hrun.
  invert_run Hrun as t3 u3 t4 H3 Hrun.
  invert_run Hrun as t5 u5 t6 H5 Hrun.
  destruct (validityInfo (decodedPayload ia)) as [vi |]; [| discriminate].
  destruct (certificate ia) as [c |]; [| discriminate].
  exists c, vi, v. split; [reflexivity | split; [reflexivity |]].
  destruct (importX509 W (pem c) (algName ia)) as [e | k]; [discriminate |].
  rewrite bind_lift_inr in Hkey. inversion Hkey. subst key.
  apply lift_returns_inv in Hverify. tauto.
Qed.

Lemma verifyDocument_returns_inv (W : World) (roots : list string)
  (options : VerifyOptions) (cb : VerificationCallback) (d : IssuerSignedDocument)
  (t : list VerificationAssessment) (u : unit) :
  verifyDocument W roots options cb d = (t, inr u) -> verifiable W d.
Proof.
  unfold verifyDocument. intros Hrun.
  invert_run Hrun as t1 ia t2 Hia Hrun.
  invert_run Hrun as t3 u3 t4 Hissuer Hrun.
  destruct (issuerSigned d) as [s |] eqn:Hs; [| discriminate].
  inversion Hia; subst ia t1.
  apply verifyIssuerSignature_returns_inv in Hissuer.
  destruct Hissuer as (c & vi & v & Hc & Hvi & Hv).
  exists s, c, vi, v. repeat split; assumption.
Qed.

Lemma verify_returns_inv (W : World) (roots : list string) (b : bytes)
  (options : VerifyOptions) (dr : MDoc) :
  outcome (verify W roots b options) = inr dr ->
  parse W b = inr dr /\ Forall (verifiable W) (documents dr).
Proof.
  intros Hout. destruct (verify W roots b options) as [t r] eqn:Hrun.
  cbn [outcome snd] in Hout. subst r. unfold verify in Hrun.
  invert_run Hrun as t0 dr' t1 Hparse Hrun.
  invert_run Hrun as tf uf t2 Hformat Hrun.
  invert_run Hrun as td ud t3 Hdocs Hret.
  inversion Hret; subst dr' t3. destruct ud.
  apply lift_returns_inv in Hparse. destruct Hparse as [Hparse _].
  split; [exact Hparse |].
  apply Forall_forall. intros d Hin.
  destruct (forEach_returned_inv _ _ _ Hdocs d Hin) as (tx & Hd & _).
  apply (verifyDocument_returns_inv W roots options _ d tx tt Hd).
Qed.

(** X9.  Whatever the callback, the options and what the checks find:
    [verify] returns a response only if the parser returned it and every
    document of it is issuer-signed, with a leaf certificate, the MSO's
    [validityInfo], and a key import and a COSE verification that returned.
    For a document without a leaf certificate or without [validityInfo] it
    never returns, even with a collecting callback and with the chain
    validation disabled. *)
Theorem verify_returns_only_verifiable_documents (W : World) (roots : list string)
  (b : bytes) (options : VerifyOptions) (dr : MDoc) :
  outcome (verify W roots b options) = inr dr ->
  parse W b = inr dr /\ Forall (verifiable W) (documents dr).
Proof. exact (verify_returns_inv W roots b options dr). Qed.

Lemma verify_returns_only_verifiable_documents_witness :
  parse Bench.W [x05] = inr (Bench.response [Bench.docS1; Bench.docS2])
  /\ Forall (verifiable Bench.W) [Bench.docS1; Bench.docS2].
Proof.
  apply (verify_returns_only_verifiable_documents Bench.W Bench.roots [x05]
           (Bench.options (Some collect) true None)
           (Bench.response [Bench.docS1; Bench.docS2])).
  reflexivity.
Defined.

(** X10.  [getDiagnosticInformation] returns a report only if the response
    parses, has a first document whose [issuerSigned] has [nameSpaces], and
    every document of it is issuer-signed with a leaf certificate, the MSO's
    [validityInfo], and a key import and a COSE verification that returned:
    there is no report for a response with a document that lacks one of
    them. *)
Theorem getDiagnosticInformation_reports_only_verifiable_documents (W : World)
  (roots : list string) (b : bytes) (options : VerifyOptions)
  (r : DiagnosticInformation) :
  getDiagnosticInformation W roots b options = inr r ->
  exists dr d rest s names,
    parse W b = inr dr
    /\ documents dr = d :: rest
    /\ Forall (verifiable W) (documents dr)
    /\ issuerSigned d = Some s
    /\ nameSpaces s = Some names.
Proof.
  intros Hr. unfold getDiagnosticInformation in Hr. cbv zeta in Hr.
  destruct (outcome (verify W roots b (collecting options))) as [e | dr] eqn:Hout;
    [discriminate |].
  apply verify_returns_inv in Hout. destruct Hout as [Hparse Hall].
  destruct (documents dr) as [| d rest] eqn:Hdocs; [discriminate |].
  destruct (issuerSigned d) as [s |] eqn:Hs; [| discriminate].
  destruct (nameSpaces s) as [names |] eqn:Hn; [| discriminate].
  exists dr, d, rest, s, names. rewrite Hdocs. repeat split; assumption.
Qed.

Lemma getDiagnosticInformation_reports_only_verifiable_documents_witness :
  exists dr d rest s names,
    parse Bench.W [x05] = inr dr
    /\ documents dr = d :: rest
    /\ Forall (verifiable Bench.W) (documents dr)
    /\ issuerSigned d = Some s
    /\ nameSpaces s = Some names.
Proof.
  eapply (getDiagnosticInformation_reports_only_verifiable_documents Bench.W Bench.roots
            [x05] (Bench.options None false None)).
  reflexivity.
Defined.

(** ** The report and the verdict of [verify] *)

Lemma getDiagnosticInformation_flags (W : World) (roots : list string) (b : bytes)
  (options : VerifyOptions) (r : DiagnosticInformation) :
  getDiagnosticInformation W roots b options = inr r ->
  let dr := trace (verify W roots b (collecting options)) in
  exists decoded d rest,
    outcome (verify W roots b (collecting options)) = inr decoded
    /\ documents decoded = d :: rest
    /\ issuer_isValid (issuerSignature r) = allPassed dr ISSUER_AUTH
    /\ issuer_reasons (issuerSignature r) = failedReasons dr ISSUER_AUTH
    /\ data_isValid (dataIntegrity r) = allPassed dr DATA_INTEGRITY
    /\ data_reasons (dataIntegrity r) = failedReasons dr DATA_INTEGRITY
    /\ (forall ds, diag_deviceSignature r = Some ds ->
                   device_isValid ds = allPassed dr DEVICE_AUTH
                   /\ device_reasons ds = failedReasons dr DEVICE_AUTH)
    /\ (deviceSigned d = None <-> diag_deviceSignature r = None).
Proof.
  unfold getDiagnosticInformation. cbv zeta.
  destruct (outcome (verify W roots b _)) as [e | decoded]; [discriminate |].
  destruct (documents decoded) as [| d rest] eqn:Hdocs; [discriminate |].
  destruct (issuerSigned d) as [s |]; [| discriminate].
  destruct (nameSpaces s) as [nss |]; [| discriminate].
  intros Hr. inversion Hr; subst r. clear Hr.
  exists decoded, d, rest.
  cbn [issuerSignature diag_deviceSignature dataIntegrity issuer_isValid issuer_reasons
       data_isValid data_reasons].
  repeat (split; [first [reflexivity | assumption] |]).
  destruct (deviceSigned d); split.
  - intros ds Hds. inversion Hds. split; reflexivity.
  - split; intros H; discriminate H.
  - intros ds H. discriminate H.
  - split; reflexivity.
Qed.

Lemma allPassed_no_reasons (dr : list VerificationAssessment) (c : Category) :
  Forall (fun a => status a <> WARNING) dr ->
  (allPassed dr c = true <-> failedReasons dr c = []).
Proof.
  unfold allPassed, failedReasons. induction 1 as [| a dr Ha _ IH]; [split; reflexivity |].
  cbn [filter]. destruct (Category_eqb (category a) c); cbn [andb]; [| exact IH].
  cbv beta in Ha. cbn [forallb].
  destruct (status a); cbn [Status_eqb filter map andb]; [exact IH | | congruence].
  split; discriminate.
Qed.

Lemma allPassed_In (dr : list VerificationAssessment) (a : VerificationAssessment) :
  allPassed dr (category a) = true -> In a dr -> status a = PASSED.
Proof.
  unfold allPassed. intros Hall Hin. rewrite forallb_forall in Hall.
  assert (Hs : Status_eqb (status a) PASSED = true).
  { apply Hall. apply filter_In. split; [exact Hin |]. destruct (category a); reflexivity. }
  destruct (status a); [reflexivity | discriminate | discriminate].
Qed.

Lemma allPassed_Forall (dr : list VerificationAssessment) (c : Category) :
  Forall passed dr -> allPassed dr c = true.
Proof.
  unfold allPassed. intros Hall. apply forallb_forall. intros a Ha.
  apply filter_In in Ha. destruct Ha as [Ha _]. rewrite Forall_forall in Hall.
  rewrite (Hall a Ha). reflexivity.
Qed.

(** X11.  In a report of [getDiagnosticInformation], for the issuer
    signature, the device signature and the data integrity alike, [isValid]
    is true exactly when [reasons] is empty. *)
Theorem report_valid_iff_no_reasons (W : World) (roots : list string) (b : bytes)
  (options : VerifyOptions) (r : DiagnosticInformation) :
  getDiagnosticInformation W roots b options = inr r ->
  (issuer_isValid (issuerSignature r) = true <-> issuer_reasons (issuerSignature r) = [])
  /\ (data_isValid (dataIntegrity r) = true <-> data_reasons (dataIntegrity r) = [])
  /\ (forall ds, diag_deviceSignature r = Some ds ->
                 (device_isValid ds = true <-> device_reasons ds = [])).
Proof.
  intros Hr.
  destruct (getDiagnosticInformation_flags W roots b options r Hr)
    as (decoded & d & rest & _ & _ & -> & -> & -> & -> & Hdev & _).
  pose proof (verify_not_warning W roots b (collecting options)) as Hw.
  split; [apply (allPassed_no_reasons _ _ Hw) |].
  split; [apply (allPassed_no_reasons _ _ Hw) |].
  intros ds Hds. destruct (Hdev ds Hds) as [-> ->]. apply (allPassed_no_reasons _ _ Hw).
Qed.

Lemma report_valid_iff_no_reasons_witness :
  exists r,
    getDiagnosticInformation Bench.W Bench.roots [x05] (Bench.options None false None) = inr r
    /\ (issuer_isValid (issuerSignature r) = true <-> issuer_reasons (issuerSignature r) = [])
    /\ (data_isValid (dataIntegrity r) = true <-> data_reasons (dataIntegrity r) = [])
    /\ (forall ds, diag_deviceSignature r = Some ds ->
                   (device_isValid ds = true <-> device_reasons ds = [])).
Proof.
  eexists. split; [reflexivity |].
  apply (report_valid_iff_no_reasons Bench.W Bench.roots [x05]
           (Bench.options None false None)).
  reflexivity.
Defined.

Lemma verify_trace_format (W : World) (roots : list string) (b : bytes)
  (options : VerifyOptions) (dr : MDoc) (a : VerificationAssessment) :
  parse W b = inr dr ->
  In a (trace (verify W roots b options)) ->
  category a = DOCUMENT_FORMAT ->
  In a (trace (verifyFormat W (buildCallback (options_onCheck options)) dr)).
Proof.
  intros Hparse Hin Hcat. unfold verify in Hin. cbv zeta in Hin. rewrite Hparse in Hin.
  cbn [bind lift] in Hin.
  destruct (verifyFormat W _ dr) as [tf [e | []]] eqn:Hf; cbn [trace fst] in *;
    [exact Hin |].
  assert (Hdocs : Forall (fun x => category x <> DOCUMENT_FORMAT)
                    (trace (verifyDocuments W roots options
                              (buildCallback (options_onCheck options)) (documents dr)))).
  { unfold verifyDocuments, verifyDocument. cbv beta iota zeta.
    trace_all;
      first
        [ cbv beta; cbn [category withCategory]; discriminate
        | eapply Forall_impl;
            [| apply (verifyIssuerSignature_Forall (fun x => category x = ISSUER_AUTH))];
            [cbv beta; intros ? Hc; rewrite Hc; discriminate | reflexivity]
        | eapply Forall_impl;
            [| apply (verifyDeviceSignature_Forall (fun x => category x = DEVICE_AUTH))];
            [cbv beta; intros ? Hc; rewrite Hc; discriminate | reflexivity]
        | eapply Forall_impl;
            [| apply (verifyData_Forall (fun x => category x = DATA_INTEGRITY))];
            [cbv beta; intros ? Hc; rewrite Hc; discriminate | reflexivity] ]. }
  rewrite Forall_forall in Hdocs.
  destruct (verifyDocuments W roots options _ (documents dr)) as [td [e | []]];
    cbn [bind ret trace fst app] in *;
    apply in_app_or in Hin; destruct Hin as [Hin | Hin]; try exact Hin.
  - destruct (Hdocs a Hin Hcat).
  - apply in_app_or in Hin. destruct Hin as [Hin | []]. destruct (Hdocs a Hin Hcat).
Qed.

Lemma verifyFormat_passed (W : World) (cb : VerificationCallback) (dr : MDoc) :
  formatChecksHold W dr -> Forall passed (trace (verifyFormat W cb dr)).
Proof.
  intros (Hversion & Hminimum & Hdocs). unfold verifyFormat.
  rewrite Hversion.
  replace (compareVersions W (version dr) "1.0" >=? 0)%Z with true
    by (symmetry; apply Z.geb_le; lia).
  replace (0 <? List.length (documents dr))%nat with true
    by (destruct (documents dr); [congruence | reflexivity]).
  trace_all; reflexivity.
Qed.

(** X12.  The report and [verify] agree.  With the default callback, or a
    user callback that throws as the default one does, and a response for
    which [getDiagnosticInformation] returns a report: [verify] returns the
    response exactly when the response has a version of at least 1.0 and a
    document, and the report says valid for the issuer signature, for the
    data integrity and for a device signature that it has. *)
Theorem report_agrees_with_verify (W : World) (roots : list string) (b : bytes)
  (options : VerifyOptions) (dr : MDoc) (r : DiagnosticInformation) :
  actsAsDefault (buildCallback (options_onCheck options)) ->
  parse W b = inr dr ->
  getDiagnosticInformation W roots b options = inr r ->
  (outcome (verify W roots b options) = inr dr <->
   formatChecksHold W dr
   /\ issuer_isValid (issuerSignature r) = true
   /\ data_isValid (dataIntegrity r) = true
   /\ exists ds, diag_deviceSignature r = Some ds /\ device_isValid ds = true).
Proof.
  intros Hd Hparse Hr.
  destruct (getDiagnosticInformation_flags W roots b options r Hr)
    as (decoded & d & rest & Hout & Hdocs & Hi & _ & Ha & _ & Hdev & Hnone).
  pose proof (verify_parsed W roots b _ decoded Hout) as Hparse'.
  rewrite Hparse in Hparse'. inversion Hparse'. subst decoded. clear Hparse'.
  assert (Hlenient : forall o, lenient (buildCallback (options_onCheck (collecting o)))).
  { intros o a _. reflexivity. }
  split.
  - intros Hv.
    assert (Hok : forall a, In a (trace (verify W roots b options)) -> status a <> FAILED).
    { destruct (verify W roots b options) as [t x] eqn:Hrun.
      cbn [outcome snd] in Hv. subst x.
      apply Forall_forall. apply (verify_failFast W roots b options Hd _ _ Hrun). }
    pose proof (verify_checked W roots b options dr Hv Hok) as Hchecks.
    destruct (verify_accepted W roots b (collecting options) dr Hparse
                (Hlenient options) Hchecks) as [_ Hpassed].
    split; [exact (proj1 Hchecks) |].
    split; [rewrite Hi; apply (allPassed_Forall _ _ Hpassed) |].
    split; [rewrite Ha; apply (allPassed_Forall _ _ Hpassed) |].
    destruct Hchecks as [_ Hall].
    destruct (Hall d) as (_ & (dsd & s0 & info & key & ts & Hsigned & _) & _).
    { rewrite Hdocs. left. reflexivity. }
    destruct (diag_deviceSignature r) as [ds |] eqn:Hds.
    + exists ds. split; [reflexivity |].
      destruct (Hdev ds eq_refl) as [-> _]. apply (allPassed_Forall _ _ Hpassed).
    + destruct Hnone as [_ Hnone]. rewrite (Hnone eq_refl) in Hsigned. discriminate.
  - intros (Hformat & Hissuer & Hdata & ds & Hds & Hdevice).
    rewrite Hi in Hissuer. rewrite Ha in Hdata.
    destruct (Hdev ds Hds) as [Hv _]. rewrite Hv in Hdevice.
    assert (Hok : forall a, In a (trace (verify W roots b (collecting options))) ->
                            status a <> FAILED).
    { intros a Hin.
      assert (Hp : status a = PASSED); [| rewrite Hp; discriminate].
      destruct (category a) eqn:Hcat.
      - pose proof (verify_trace_format W roots b _ dr a Hparse Hin Hcat) as Hf.
        pose proof (verifyFormat_passed W
                      (buildCallback (options_onCheck (collecting options))) dr Hformat) as Hp.
        rewrite Forall_forall in Hp. apply (Hp a Hf).
      - apply (allPassed_In (trace (verify W roots b (collecting options))) a); [rewrite Hcat; exact Hdevice | exact Hin].
      - apply (allPassed_In (trace (verify W roots b (collecting options))) a); [rewrite Hcat; exact Hissuer | exact Hin].
      - apply (allPassed_In (trace (verify W roots b (collecting options))) a); [rewrite Hcat; exact Hdata | exact Hin]. }
    pose proof (verify_checked W roots b (collecting options) dr Hout Hok) as Hchecks.
    assert (Hl : lenient (buildCallback (options_onCheck options))).
    { intros a Hs. rewrite Hd. apply defaultCallback_not_failed. rewrite Hs. discriminate. }
    apply (verify_accepted W roots b options dr Hparse Hl Hchecks).
Qed.

Lemma report_agrees_with_verify_witness :
  exists r,
    getDiagnosticInformation Bench.W Bench.roots [x03] (Bench.options None false None) = inr r
    /\ (outcome (verify Bench.W Bench.roots [x03] (Bench.options None false None))
          = inr (Bench.response [Bench.docBadSignature]) <->
        formatChecksHold Bench.W (Bench.response [Bench.docBadSignature])
        /\ issuer_isValid (issuerSignature r) = true
        /\ data_isValid (dataIntegrity r) = true
        /\ exists ds, diag_deviceSignature r = Some ds /\ device_isValid ds = true).
Proof.
  eexists. split; [reflexivity |].
  apply (report_agrees_with_verify Bench.W Bench.roots [x03]
           (Bench.options None false None)).
  - exact default_actsAsDefault.
  - reflexivity.
  - reflexivity.
Defined.

(** ** The order in which the digest batches settle *)









(** ** Restoring buffers (model/MDoc.ts) *)

Section Restore.

Variable toUint8 : Json -> byte.

Lemma get_map_values (f : Json -> Json) (o : list (string * Json)) (k : string) :
  get (map (fun '(key, v) => (key, f v)) o) k = option_map f (get o k).
Proof.
  unfold get. induction o as [| [k' v] o IH]; cbn [map lookup]; [reflexivity |].
  destruct (k =? k'); [reflexivity | exact IH].
Qed.

(** Restoring the values of an object that is not of the buffer shape gives
    an object that is not of the buffer shape. *)
Lemma bufferData_restore (o : list (string * Json)) :
  bufferData o = None ->
  bufferData (map (fun '(key, v) => (key, deepRestoreBuffers toUint8 v)) o) = None.
Proof.
  unfold bufferData. rewrite !get_map_values. intros H.
  destruct (get o "type") as [ty |], (get o "data") as [da |]; cbn [option_map];
    try destruct ty; try destruct da; cbn [deepRestoreBuffers];
    repeat match goal with
           | |- context [bufferData ?x] => destruct (bufferData x)
           end;
    first [reflexivity | exact H | destruct (_ =? "Buffer"); [discriminate H | reflexivity]].
Qed.

Lemma deepRestoreBuffers_restored (j : Json) : restored (deepRestoreBuffers toUint8 j) = true.
Proof.
  induction j as [| | b | n | s | l IH | o IH | b] using Json_induction;
    cbn [deepRestoreBuffers restored]; try reflexivity.
  - apply forallb_forall. intros x Hx. apply in_map_iff in Hx.
    destruct Hx as (y & <- & Hy). rewrite Forall_forall in IH. apply (IH y Hy).
  - destruct (bufferData o) as [data |] eqn:Hb; [reflexivity |].
    cbn [restored]. rewrite (bufferData_restore o Hb).
    apply forallb_forall. intros [k v] Hx. apply in_map_iff in Hx.
    destruct Hx as ([k' y] & Heq & Hy). inversion Heq. subst k v.
    rewrite Forall_forall in IH. apply (IH (k', y) Hy).
Qed.

Lemma deepRestoreBuffers_fixes_restored (j : Json) :
  restored j = true -> deepRestoreBuffers toUint8 j = j.
Proof.
  induction j as [| | b | n | s | l IH | o IH | b] using Json_induction;
    cbn [deepRestoreBuffers restored]; try reflexivity.
  - intros Hr. f_equal. rewrite forallb_forall in Hr. rewrite Forall_forall in IH.
    rewrite <- (map_id l) at 2. apply map_ext_in. intros x Hx. apply (IH x Hx (Hr x Hx)).
  - destruct (bufferData o) as [data |]; [discriminate |].
    intros Hr. f_equal. rewrite forallb_forall in Hr. rewrite Forall_forall in IH.
    rewrite <- (map_id o) at 2. apply map_ext_in. intros [k v] Hx.
    f_equal. apply (IH (k, v) Hx (Hr (k, v) Hx)).
Qed.

End Restore.

(** X14.  [deepRestoreBuffers] leaves no object of the shape [{ type:
    'Buffer', data: [...] }] at any depth of its result, changes nothing in
    a value that has none, and so gives the same result when run again on
    its result. *)
Theorem deepRestoreBuffers_restores (toUint8 : Json -> byte) (j : Json) :
  restored (deepRestoreBuffers toUint8 j) = true
  /\ (restored j = true -> deepRestoreBuffers toUint8 j = j)
  /\ deepRestoreBuffers toUint8 (deepRestoreBuffers toUint8 j)
     = deepRestoreBuffers toUint8 j.
Proof.
  split; [apply deepRestoreBuffers_restored |].
  split; [apply deepRestoreBuffers_fixes_restored |].
  apply deepRestoreBuffers_fixes_restored, deepRestoreBuffers_restored.
Qed.

Lemma deepRestoreBuffers_restores_witness :
  let toUint8 := fun j => match j with JNumber 1 => x01 | _ => x00 end in
  let j := JObject [("signature", JObject [("type", JString "Buffer");
                                          ("data", JArray [JNumber 1; JNumber 0])]);
                    ("alg", JString "ES256")] in
  deepRestoreBuffers toUint8 j
    = JObject [("signature", JBuffer [x01; x00]); ("alg", JString "ES256")]
  /\ deepRestoreBuffers toUint8 (deepRestoreBuffers toUint8 j)
     = deepRestoreBuffers toUint8 j
  /\ deepRestoreBuffers toUint8 (JObject [("alg", JString "ES256")])
     = JObject [("alg", JString "ES256")].
Proof.
  intros toUint8 j. split; [reflexivity | split].
  - apply (proj2 (proj2 (deepRestoreBuffers_restores toUint8 j))).
  - apply (proj1 (proj2 (deepRestoreBuffers_restores toUint8
                           (JObject [("alg", JString "ES256")])))).
    reflexivity.
Defined.

(** ** The date extensions of the CBOR encoder (cbor/index.js) *)

Lemma split0_occurs (sep : ascii) (s : string) : occurs sep (split0 sep s) = false.
Proof.
  induction s as [| c s IH]; cbn [split0]; [reflexivity |].
  destruct (Ascii.eqb c sep) eqn:Hc; [reflexivity |].
  cbn [occurs]. rewrite Hc. exact IH.
Qed.

Lemma occurs_append (c : ascii) (s s' : string) :
  occurs c (s ++ s')%string = occurs c s || occurs c s'.
Proof.
  induction s as [| x s IH]; cbn [String.append occurs]; [reflexivity |].
  rewrite IH. apply orb_assoc.
Qed.

Lemma split0_prefix (sep : ascii) (s : string) :
  exists rest, s = (split0 sep s ++ rest)%string.
Proof.
  induction s as [| c s [rest IH]]; cbn [split0]; [exists EmptyString; reflexivity |].
  destruct (Ascii.eqb c sep).
  - exists (String c s). reflexivity.
  - exists rest. cbn [String.append]. rewrite <- IH. reflexivity.
Qed.

Lemma split0_stops (sep : ascii) (s rest : string) :
  occurs sep s = false -> split0 sep (s ++ String sep rest)%string = s.
Proof.
  induction s as [| c s IH]; cbn [String.append split0 occurs].
  - rewrite Ascii.eqb_refl. reflexivity.
  - intros H. apply orb_false_iff in H. destruct H as [Hc Hs].
    rewrite Hc, (IH Hs). reflexivity.
Qed.

(** X15.  The text the tag 0 encoder writes for a [Date] has no fraction of
    seconds: it is the ISO text up to its first full stop, followed by Z;
    the text of a [DateOnly] is the ISO text up to its first T, so it has
    no time part. *)
Theorem date_texts_are_truncated (iso : string) :
  occurs "." (encodeDate iso) = false
  /\ (forall date time, occurs "." date = false ->
        encodeDate (date ++ String "." time)%string = (date ++ "Z")%string)
  /\ occurs "T" (DateOnly_toISOString iso) = false
  /\ (exists rest, iso = (DateOnly_toISOString iso ++ rest)%string)
  /\ (forall date time, occurs "T" date = false ->
        DateOnly_toISOString (date ++ String "T" time)%string = date).
Proof.
  unfold encodeDate, DateOnly_toISOString.
  split; [| split; [| split; [| split]]].
  - rewrite occurs_append, split0_occurs. reflexivity.
  - intros date time Hd. rewrite (split0_stops _ _ _ Hd). reflexivity.
  - apply split0_occurs.
  - apply split0_prefix.
  - intros date time Hd. apply (split0_stops _ _ _ Hd).
Qed.

Lemma date_texts_are_truncated_witness :
  encodeDate "2023-10-24T14:55:18.000Z" = "2023-10-24T14:55:18Z"
  /\ DateOnly_toISOString "2007-03-25T00:00:00.000Z" = "2007-03-25".
Proof.
  destruct (date_texts_are_truncated EmptyString) as (_ & Hdate & _ & _ & Honly).
  split.
  - apply (Hdate "2023-10-24T14:55:18" "000Z"). reflexivity.
  - apply (Honly "2007-03-25" "00:00:00.000Z"). reflexivity.
Defined.

(** ** What the options change *)

(** X16.  Disabling the chain validation only relaxes [verify]: with the
    default callback, or a user callback that throws as the default one
    does, a response that [verify] returns is returned as well once
    [disableCertificateChainValidation] is set, whatever the trust anchors
    then are. *)
Theorem disabling_chain_validation_only_relaxes (W : World) (roots roots' : list string)
  (b : bytes) (options : VerifyOptions) (dr : MDoc) :
  actsAsDefault (buildCallback (options_onCheck options)) ->
  outcome (verify W roots b options) = inr dr ->
  outcome (verify W roots' b (withoutChainValidation options)) = inr dr.
Proof.
  intros Hd Hout.
  assert (Hok : forall a, In a (trace (verify W roots b options)) -> status a <> FAILED).
  { destruct (verify W roots b options) as [t x] eqn:Hrun.
    cbn [outcome snd] in Hout. subst x.
    apply Forall_forall. apply (verify_failFast W roots b options Hd _ _ Hrun). }
  pose proof (verify_parsed W roots b options dr Hout) as Hparse.
  destruct (verify_checked W roots b options dr Hout Hok) as [Hformat Hall].
  assert (Hl : lenient (buildCallback (options_onCheck (withoutChainValidation options)))).
  { intros a Hs. cbn [withoutChainValidation options_onCheck]. rewrite Hd.
    apply defaultCallback_not_failed. rewrite Hs. discriminate. }
  apply (verify_accepted W roots' b (withoutChainValidation options) dr Hparse Hl).
  split; [exact Hformat |].
  intros d Hin. destruct (Hall d Hin) as ((s & Hs & Hissuer) & Hdevice & Hdata).
  split; [| split; [exact Hdevice | exact Hdata]].
  exists s. split; [exact Hs |].
  destruct Hissuer as (c & vi & Hc & Hvi & _ & Hrest).
  exists c, vi. split; [exact Hc | split; [exact Hvi | split; [| exact Hrest]]].
  cbn [withoutChainValidation disableCertificateChainValidation]. discriminate.
Qed.

Lemma disabling_chain_validation_only_relaxes_witness :
  outcome (verify Bench.W ["CN=Another IACA"] [x01]
             (withoutChainValidation (Bench.options None false None)))
    = inr (Bench.response [Bench.docS1]).
Proof.
  apply (disabling_chain_validation_only_relaxes Bench.W Bench.roots ["CN=Another IACA"]
           [x01] (Bench.options None false None)).
  - exact default_actsAsDefault.
  - reflexivity.
Defined.

Lemma forEach_ext_in {A} (f g : A -> Run unit) (l : list A) :
  (forall x, In x l -> f x = g x) -> forEach f l = forEach g l.
Proof.
  induction l as [| x l IH]; intros Hfg; cbn [forEach]; [reflexivity |].
  rewrite (Hfg x (or_introl eq_refl)), IH; [reflexivity |].
  intros y Hy. apply Hfg. right. exact Hy.
Qed.

Lemma verifyDeviceSignature_without_mac_path (W : World) (d : IssuerSignedDocument)
  (o : DeviceSignatureOptions) (key : option bytes) :
  (forall ds, deviceSigned d = Some ds -> deviceSignature (deviceAuth ds) <> None) ->
  verifyDeviceSignature W d o
  = verifyDeviceSignature W d
      {| ephemeralPrivateKey := key;
         sessionTranscriptBytes := sessionTranscriptBytes o;
         onCheck := onCheck o |}.
Proof.
  intros Hsig. unfold verifyDeviceSignature. cbv beta iota zeta.
  cbn [ephemeralPrivateKey sessionTranscriptBytes onCheck].
  destruct (deviceSigned d) as [ds |]; [| reflexivity].
  specialize (Hsig ds eq_refl).
  destruct (deviceSignature (deviceAuth ds)) as [sig |]; [reflexivity | congruence].
Qed.

(** X17.  The ephemeral reader key matters on the MAC path only: when
    every device-signed document of the response carries a device signature,
    [verify] delivers the same assessments and has the same outcome whatever
    [ephemeralReaderKey] is. *)
Theorem ephemeral_key_only_matters_for_mac (W : World) (roots : list string) (b : bytes)
  (options : VerifyOptions) (key : option bytes) :
  (forall dr d ds, parse W b = inr dr -> In d (documents dr) ->
                   deviceSigned d = Some ds ->
                   deviceSignature (deviceAuth ds) <> None) ->
  verify W roots b (withEphemeralReaderKey options key) = verify W roots b options.
Proof.
  intros Hsig. unfold verify. cbv zeta.
  cbn [withEphemeralReaderKey options_onCheck].
  destruct (parse W b) as [e | dr] eqn:Hparse; [reflexivity |].
  cbn [bind lift].
  destruct (verifyFormat W _ dr) as [tf [e | []]]; [reflexivity |].
  unfold verifyDocuments.
  rewrite (forEach_ext_in
             (verifyDocument W roots (withEphemeralReaderKey options key)
                (buildCallback (options_onCheck options)))
             (verifyDocument W roots options (buildCallback (options_onCheck options)))
             (documents dr)); [reflexivity |].
  intros d Hin. unfold verifyDocument.
  cbn [withEphemeralReaderKey ephemeralReaderKey encodedSessionTranscript
       disableCertificateChainValidation].
  rewrite (verifyDeviceSignature_without_mac_path W d
             {| ephemeralPrivateKey := ephemeralReaderKey options;
                sessionTranscriptBytes := encodedSessionTranscript options;
                onCheck := asUserDefined (buildCallback (options_onCheck options)) |}
             key (fun ds => Hsig dr d ds eq_refl Hin)).
  reflexivity.
Qed.

Lemma ephemeral_key_only_matters_for_mac_witness :
  verify Bench.W Bench.roots [x05]
    (withEphemeralReaderKey (Bench.options None false None) (Some [x01]))
  = verify Bench.W Bench.roots [x05] (Bench.options None false None).
Proof.
  apply (ephemeral_key_only_matters_for_mac Bench.W Bench.roots [x05]
           (Bench.options None false None) (Some [x01])).
  intros dr d ds Hparse Hin Hds. inversion Hparse. subst dr.
  destruct Hin as [<- | [<- | []]]; inversion Hds; discriminate.
Defined.

(** ** The date checks of the issuer step *)

Lemma Date_within_dec (lo hi : Z) (date : JsDate) :
  Date_lt date (ValidDate lo) || Date_gt date (ValidDate hi) = false
  <-> Date_within lo date hi.
Proof.
  unfold Date_within. destruct date as [time |]; cbn [Date_lt Date_gt orb]; [| tauto].
  rewrite orb_false_iff, Z.ltb_ge, Z.gtb_ltb, Z.ltb_ge. lia.
Qed.

Lemma validAt_dec (now : Z) (vi : ValidityInfo) :
  Date_lt (ValidDate now) (validFrom vi) || Date_gt (ValidDate now) (validUntil vi) = false
  <-> validAt now vi.
Proof.
  unfold validAt.
  destruct (validFrom vi) as [from |], (validUntil vi) as [until |];
    cbn [Date_lt Date_gt orb];
    rewrite ?orb_false_iff, ?orb_false_r, ?Z.ltb_ge, ?Z.gtb_ltb, ?Z.ltb_ge; tauto.
Qed.

(** X18.  With a callback that does not throw, a leaf certificate, the
    MSO's [validityInfo], and a key import and a COSE verification that
    return: the issuer step delivers exactly one ISSUER_AUTH assessment for
    the signed date and one for the validity at the time of verification.
    The first is FAILED exactly when the signed date is a valid date outside
    the certificate's validity, the second exactly when [validFrom] is a
    valid date after the current time or [validUntil] a valid date before
    it.  A date that the decoder read as an Invalid Date fails neither: an
    MSO whose [validFrom] and [validUntil] are Invalid Dates passes the
    validity check. *)
Theorem date_checks_of_the_issuer_step (W : World) (roots : list string)
  (ia : IssuerAuth) (disable : bool) (cb : UserDefinedVerificationCallback)
  (c : Certificate) (vi : ValidityInfo) (v : bool) :
  quiet cb ->
  certificate ia = Some c ->
  validityInfo (decodedPayload ia) = Some vi ->
  signatureVerifies W ia = inr v ->
  let t := trace (verifyIssuerSignature W roots ia disable cb) in
  (exists a,
     filter (hasCheck CHECK_SIGNED_DATE) t = [a]
     /\ category a = ISSUER_AUTH
     /\ (status a = PASSED <-> Date_within (notBefore c) (signed vi) (notAfter c))
     /\ (status a = FAILED <-> ~ Date_within (notBefore c) (signed vi) (notAfter c)))
  /\ (exists a,
        filter (hasCheck CHECK_MSO_VALID) t = [a]
        /\ category a = ISSUER_AUTH
        /\ (status a = PASSED <-> validAt (now W) vi)
        /\ (status a = FAILED <-> ~ validAt (now W) vi)
        /\ (validFrom vi = InvalidDate -> validUntil vi = InvalidDate ->
            status a = PASSED)).
Proof.
  intros Hq Hc Hvi Hsig t. unfold t.
  rewrite (verifyIssuerSignature_quiet W roots ia disable cb c vi v Hq Hc Hvi Hsig).
  assert (Hcert : forall text, text <> CHECK_CERTIFICATE ->
            filter (hasCheck text)
                   (if disable then [] else [certificateAssessment W roots ia]) = []).
  { intros text Htext. destruct disable; [reflexivity |].
    unfold certificateAssessment.
    destruct (verifyX509Chain W ia roots); unfold hasCheck, assessment;
      cbn [filter check];
      (destruct (String.eqb_spec CHECK_CERTIFICATE text); [congruence | reflexivity]). }
  cbn [trace fst]. split.
  - exists (signedDateAssessment W c vi).
    split; [rewrite filter_app, Hcert by discriminate; reflexivity |].
    split; [reflexivity |].
    unfold signedDateAssessment. cbn [status assessment].
    rewrite <- Date_within_dec.
    destruct (Date_lt (signed vi) (ValidDate (notBefore c))
              || Date_gt (signed vi) (ValidDate (notAfter c)));
      repeat split; intros H; try reflexivity; try discriminate; congruence.
  - eexists.
    split; [rewrite filter_app, Hcert by discriminate; reflexivity |].
    split; [reflexivity |].
    cbn [status assessment]. unfold outsideValidity. rewrite <- validAt_dec.
    split; [| split].
    + destruct (Date_lt (ValidDate (now W)) (validFrom vi)
                || Date_gt (ValidDate (now W)) (validUntil vi));
        split; intros H; try reflexivity; try discriminate; congruence.
    + destruct (Date_lt (ValidDate (now W)) (validFrom vi)
                || Date_gt (ValidDate (now W)) (validUntil vi));
        split; intros H; try reflexivity; try discriminate; congruence.
    + intros -> ->. reflexivity.
Qed.

Lemma date_checks_of_the_issuer_step_witness :
  let ia :=
    {| protectedHeaders := [xa1]; payload := [xd8]; signature := [xd8];
       algName := Some "ES256"; x5chain := Some [Bench.leaf];
       decodedPayload :=
         {| mso_version := "1.0"; digestAlgorithm := Some "SHA-256";
            valueDigests := []; deviceKeyInfo := None;
            mso_docType := "org.iso.18013.5.1.mDL";
            validityInfo :=
              Some {| signed := ValidDate 2000; validFrom := InvalidDate;
                      validUntil := InvalidDate; expectedUpdate := None |} |} |} in
  exists a,
    filter (hasCheck CHECK_MSO_VALID)
           (trace (verifyIssuerSignature Bench.W Bench.roots ia false collect)) = [a]
    /\ status a = PASSED.
Proof.
  intros ia.
  destruct (date_checks_of_the_issuer_step Bench.W Bench.roots ia false collect Bench.leaf
              {| signed := ValidDate 2000; validFrom := InvalidDate;
                 validUntil := InvalidDate; expectedUpdate := None |} true)
    as (_ & a & Hfilter & _ & _ & _ & Hinvalid).
  - exact collect_quiet.
  - reflexivity.
  - reflexivity.
  - reflexivity.
  - exists a. split; [exact Hfilter | apply Hinvalid; reflexivity].
Defined.
